(** * ha-knmi: the refresh coordinator, the API client and the resolvers

    A shallow embedding of the Home Assistant integration
    [custom_components/knmi]: [api.py], [coordinator.py], [entity.py],
    [sensor.py], [__init__.py], the tables of [const.py], and of
    [weather.py], [binary_sensor.py] and [config_flow.py] the parts that
    read the data of the coordinator or call the client.

    Conventions of the embedding.
    - Python objects that flow through the code are values of [pyval];
      dictionaries are finite maps with string keys.
    - A Python [float] is an IEEE-754 binary64 number, a [spec_float] of the
      Standard Library with precision 53 and maximal exponent 1024; strings are
      parsed and integers divided with correct rounding.
    - A call either returns or raises: [result].  Code that also mutates the
      coordinator, the client or [hass.data], or that logs, runs in the monad
      [M], which threads the [World] and collects the [event]s.
    - A naive [datetime] is a number of microseconds from 1970-01-01T00:00:00,
      a [timedelta] a number of microseconds.  [datetime.fromtimestamp] is
      that of CPython on a 64-bit Linux with a local zone without offset: it
      yields the datetimes of the years 1 to 9999 and raises outside.  The
      sum [last_update_time + timedelta(seconds=refresh_interval)] is a
      datetime or raises.  The readings of the clock, the step of 600 seconds
      of the freshness gate and the interval of the constructor are taken on
      the unbounded line.  The delay handed to [asyncio.sleep] is kept in
      microseconds, exactly.
    - Messages of level DEBUG are not part of the model; messages of level
      WARNING and ERROR are, by their format string. *)

From Stdlib Require Import ZArith Bool Ascii Lia.
From Stdlib Require Import Floats.SpecFloat.
From stdpp Require Import gmap strings list.

#[local] Set Warnings "-register-all".
#[local] Open Scope Z_scope.

(** ** Python values, exceptions and results *)

(** The objects the code handles: the values of JSON (None, booleans,
    integers, floats, strings, lists, dictionaries with string keys) and the
    instances of the dataclass WeatherData of [model.py], which keep one
    attribute per field and validate none. *)
Inductive pyval :=
  | VNone
  | VBool (b : bool)
  | VInt (z : Z)
  | VFloat (f : spec_float)
  | VStr (s : string)
  | VList (l : list pyval)
  | VDict (d : gmap string pyval)
  | VWeatherData (fields : gmap string pyval).

Inductive exn :=
  | ValueError | TypeError | OverflowError | ZeroDivisionError
  | AttributeError | IndexError | KeyError | OSError
  | TimeoutError                (* asyncio.TimeoutError *)
  | ClientError | GaiError      (* aiohttp.ClientError, socket.gaierror *)
  | ApiError | InvalidApiKeyError | RequestsExceededError | KnmiApiException
  | UpdateFailed | ConfigEntryNotReady.

Inductive result (A : Type) :=
  | Ret (a : A)
  | Raise (e : exn).
Arguments Ret {A} a.
Arguments Raise {A} e.

#[global] Instance result_ret : MRet result := fun A a => Ret a.
#[global] Instance result_bind : MBind result := fun A B f r =>
  match r with
  | Ret a => f a
  | Raise e => Raise e
  end.

#[global] Instance result_fmap : FMap result := fun A B f r =>
  match r with
  | Ret a => Ret (f a)
  | Raise e => Raise e
  end.

(** ** Strings *)

(** Strings are strings of bytes.  The characters outside ASCII that Python
    also takes for digits or white space are neither here. *)
Module Str.

(** [sub in s] on two strings. *)
Fixpoint contains (sub s : string) : bool :=
  String.prefix sub s ||
  match s with
  | EmptyString => false
  | String _ s' => contains sub s'
  end.

(** [s.split(sep)] for a separator of one character. *)
Fixpoint split (sep : ascii) (s : string) : list string :=
  match s with
  | EmptyString => [EmptyString]
  | String a s' =>
      if Ascii.eqb a sep then EmptyString :: split sep s'
      else match split sep s' with
           | [] => [String a EmptyString]
           | hd :: tl => String a hd :: tl
           end
  end.

Definition code (a : ascii) : Z := Z.of_nat (Ascii.nat_of_ascii a).

(** The ASCII characters that [int] and [float] strip: tab to carriage
    return, the four separators, and the space. *)
Definition is_space (a : ascii) : bool :=
  ((9 <=? code a) && (code a <=? 13)) || ((28 <=? code a) && (code a <=? 32)).

Definition digit (a : ascii) : option Z :=
  if (48 <=? code a) && (code a <=? 57) then Some (code a - 48) else None.

Fixpoint lstrip (l : list ascii) : list ascii :=
  match l with
  | a :: l' => if is_space a then lstrip l' else l
  | [] => []
  end.

Definition strip (l : list ascii) : list ascii :=
  rev (lstrip (rev (lstrip l))).

Definition lower (a : ascii) : ascii :=
  if (65 <=? code a) && (code a <=? 90)
  then Ascii.ascii_of_nat (Ascii.nat_of_ascii a + 32) else a.

(** A digit part: digits, single underscores allowed between two digits.
    Returns the number read and how many digits it has. *)
Fixpoint digitpart (acc n : Z) (after_digit : bool) (l : list ascii)
  : option (Z * Z) :=
  match l with
  | [] => if after_digit then Some (acc, n) else None
  | a :: l' =>
      match digit a with
      | Some d => digitpart (10 * acc + d) (n + 1) true l'
      | None =>
          if Ascii.eqb a "_"%char && after_digit
          then digitpart acc n false l'
          else None
      end
  end.

Definition sign (l : list ascii) : bool * list ascii :=
  match l with
  | a :: l' =>
      if Ascii.eqb a "-"%char then (true, l')
      else if Ascii.eqb a "+"%char then (false, l')
      else (false, l)
  | [] => (false, [])
  end.

(** [int(s)] in base ten; [None] stands for ValueError. *)
Definition to_int (s : string) : option Z :=
  let '(neg, ds) := sign (strip (String.list_ascii_of_string s)) in
  match digitpart 0 0 false ds with
  | Some (v, _) => Some (if neg then - v else v)
  | None => None
  end.

(** Splits at the first character satisfying [p]. *)
Fixpoint break (p : ascii -> bool) (l : list ascii)
  : list ascii * option (list ascii) :=
  match l with
  | [] => ([], None)
  | a :: l' =>
      if p a then ([], Some l')
      else let '(x, y) := break p l' in (a :: x, y)
  end.

End Str.

(** ** Floats *)

Module Float.

Definition prec : Z := 53.
Definition emax : Z := 1024.

(** The float nearest to [n / d] (ties to even), for [n], [d] positive. *)
Definition of_ratio (neg : bool) (n d : positive) : spec_float :=
  let '(q, e, l) := SFdiv_core_binary prec emax (Zpos n) 0 (Zpos d) 0 in
  binary_round_aux prec emax neg q e l.

(** The float nearest to the integer [z]. *)
Definition of_Z (z : Z) : spec_float := binary_normalize prec emax z 0 false.

(** The float nearest to [m * 10 ^ e], the value of a decimal literal. *)
Definition of_decimal (neg : bool) (m e : Z) : spec_float :=
  match m with
  | Zpos p =>
      if 0 <=? e
      then binary_normalize prec emax
             (if neg then - (m * 10 ^ e) else m * 10 ^ e) 0 false
      else of_ratio neg p (Z.to_pos (10 ^ (- e)))
  | _ => S754_zero neg
  end.

Definition literal (l : list ascii) : option spec_float :=
  let '(neg, body) := Str.sign l in
  let low := String.string_of_list_ascii (map Str.lower body) in
  if String.eqb low "inf" || String.eqb low "infinity"
  then Some (S754_infinity neg)
  else if String.eqb low "nan" then Some S754_nan
  else
    let '(mant, expo) := Str.break (fun a => Ascii.eqb (Str.lower a) "e"%char) body in
    let '(ip, fp) := Str.break (fun a => Ascii.eqb a "."%char) mant in
    let int_part :=
      match ip with
      | [] => match fp with
              | Some (_ :: _) => Some (0, 0)
              | _ => None
              end
      | _ => Str.digitpart 0 0 false ip
      end in
    let frac_part :=
      match fp with
      | None => Some (0, 0)
      | Some [] => match ip with [] => None | _ => Some (0, 0) end
      | Some ds => Str.digitpart 0 0 false ds
      end in
    let exp_part :=
      match expo with
      | None => Some 0
      | Some es =>
          let '(eneg, ds) := Str.sign es in
          match Str.digitpart 0 0 false ds with
          | Some (v, _) => Some (if eneg then - v else v)
          | None => None
          end
      end in
    match int_part, frac_part, exp_part with
    | Some (iv, _), Some (fv, fn), Some ev =>
        Some (of_decimal neg (iv * 10 ^ fn + fv) (ev - fn))
    | _, _, _ => None
    end.

(** [float(s)]; [None] stands for ValueError. *)
Definition of_string (s : string) : option spec_float :=
  literal (Str.strip (String.list_ascii_of_string s)).

(** [int(f)]: truncation towards zero. *)
Definition trunc (f : spec_float) : result Z :=
  match f with
  | S754_zero _ => Ret 0
  | S754_infinity _ => Raise OverflowError
  | S754_nan => Raise ValueError
  | S754_finite s m e =>
      let a := if 0 <=? e then Z.shiftl (Zpos m) e else Z.shiftr (Zpos m) (- e) in
      Ret (if s then - a else a)
  end.

(** [round(f)] with one argument: the nearest integer, ties to even. *)
Definition round (f : spec_float) : result Z :=
  match f with
  | S754_zero _ => Ret 0
  | S754_infinity _ => Raise OverflowError
  | S754_nan => Raise ValueError
  | S754_finite s m e =>
      let a :=
        if 0 <=? e then Z.shiftl (Zpos m) e
        else
          let q := Z.shiftr (Zpos m) (- e) in
          let r := Zpos m - Z.shiftl q (- e) in
          let half := Z.shiftl 1 (- e - 1) in
          if (half <? r) || ((r =? half) && Z.odd q) then q + 1 else q in
      Ret (if s then - a else a)
  end.

(** [n / d] on two integers: the correctly rounded quotient. *)
Definition truediv (n d : Z) : result spec_float :=
  match d with
  | Z0 => Raise ZeroDivisionError
  | _ =>
      match n with
      | Z0 => Ret (S754_zero (d <? 0))
      | _ =>
          match of_ratio (xorb (n <? 0) (d <? 0))
                         (Z.to_pos (Z.abs n)) (Z.to_pos (Z.abs d)) with
          | S754_infinity _ => Raise OverflowError
          | f => Ret f
          end
      end
  end.

Definition is_zero (f : spec_float) : bool :=
  match f with S754_zero _ => true | _ => false end.

End Float.

(** ** Builtins on Python values *)

Module Py.

(** [bool(v)]: the truth value of an object. *)
Definition truthy (v : pyval) : bool :=
  match v with
  | VNone => false
  | VBool b => b
  | VInt z => negb (z =? 0)
  | VFloat f => negb (Float.is_zero f)
  | VStr s => negb (String.eqb s "")
  | VList l => match l with [] => false | _ => true end
  | VDict d => negb (bool_decide (d = ∅))
  | VWeatherData _ => true
  end.

Definition is_none (v : pyval) : bool :=
  match v with VNone => true | _ => false end.

(** [int(v)] *)
Definition int (v : pyval) : result Z :=
  match v with
  | VStr s => match Str.to_int s with Some z => Ret z | None => Raise ValueError end
  | VInt z => Ret z
  | VBool b => Ret (if b then 1 else 0)
  | VFloat f => Float.trunc f
  | _ => Raise TypeError
  end.

(** [float(v)] *)
Definition float (v : pyval) : result spec_float :=
  match v with
  | VStr s => match Float.of_string s with Some f => Ret f | None => Raise ValueError end
  | VInt z =>
      match Float.of_Z z with
      | S754_infinity _ => Raise OverflowError
      | f => Ret f
      end
  | VBool b => Ret (Float.of_Z (if b then 1 else 0))
  | VFloat f => Ret f
  | _ => Raise TypeError
  end.

(** The conversion functions the entities hand to [get_value]. *)
Definition conv_int (v : pyval) : result pyval := VInt <$> int v.
Definition conv_float (v : pyval) : result pyval := VFloat <$> float v.

Definition is_str (s : string) (v : pyval) : bool :=
  match v with VStr s' => String.eqb s s' | _ => false end.

(** [item in container] for a string [item]. *)
Definition contains (container : pyval) (item : string) : result bool :=
  match container with
  | VStr s => Ret (Str.contains item s)
  | VList l => Ret (existsb (is_str item) l)
  | VDict d => Ret (bool_decide (is_Some (d !! item)))
  | _ => Raise TypeError
  end.

(** [d.get(key)] on a dictionary held in a map. *)
Definition dict_get (d : gmap string pyval) (key : string) : pyval :=
  default VNone (d !! key).

(** [obj.get(key, None)] *)
Definition get (obj : pyval) (key : string) : result pyval :=
  match obj with
  | VDict d => Ret (dict_get d key)
  | _ => Raise AttributeError
  end.

(** [obj.name] *)
Definition getattr (obj : pyval) (name : string) : result pyval :=
  match obj with
  | VWeatherData fields =>
      match fields !! name with
      | Some v => Ret v
      | None => Raise AttributeError
      end
  | _ => Raise AttributeError
  end.

(** [obj.split('/')] *)
Definition split (obj : pyval) (sep : ascii) : result (list string) :=
  match obj with
  | VStr s => Ret (Str.split sep s)
  | _ => Raise AttributeError
  end.

(** [obj[0]] *)
Definition item0 (obj : pyval) : result pyval :=
  match obj with
  | VList (x :: _) => Ret x
  | VList [] => Raise IndexError
  | VStr (String a _) => Ret (VStr (String a EmptyString))
  | VStr EmptyString => Raise IndexError
  | VDict _ => Raise KeyError
  | _ => Raise TypeError
  end.

End Py.

(** ** Dates, times and random numbers *)

Module Datetime.

(** [timedelta(seconds=n)] on the unbounded line. *)
Definition seconds (n : Z) : Z := n * 1000000.

(** [datetime.min] and [datetime.max]: 0001-01-01T00:00:00 and
    9999-12-31T23:59:59.999999. *)
Definition min_datetime : Z := seconds (-62135596800).
Definition max_datetime : Z := seconds 253402300800 - 1.

(** [timedelta(seconds=n)] for an integer [n]: the days, [n // 86400], have
    a magnitude of 999999999 at most. *)
Definition timedelta (n : Z) : result Z :=
  if (-999999999 <=? n / 86400) && (n / 86400 <=? 999999999)
  then Ret (seconds n) else Raise OverflowError.

(** [t + d] for a datetime [t] and a timedelta [d]: the sum is a datetime
    or the addition raises. *)
Definition __add__ (t d : Z) : result Z :=
  if (min_datetime <=? t + d) && (t + d <=? max_datetime)
  then Ret (t + d) else Raise OverflowError.

(** [datetime.fromtimestamp(n)] for an integer [n].  A number that does not
    fit the 64 bits of [time_t] is an OverflowError; a time whose year does
    not fit the 32 bits of the C library is an OSError; a year outside 1 to
    9999 is a ValueError, and so is the first day of the year 1, because
    the day before is looked at for a change of the zone. *)
Definition fromtimestamp (n : Z) : result Z :=
  if (n <? - 2 ^ 63) || (2 ^ 63 <=? n) then Raise OverflowError
  else if (n <? -67768040609740800) || (67768036191676799 <? n)
  then Raise OSError
  else if (n <? -62135510400) || (253402300799 <? n) then Raise ValueError
  else Ret (seconds n).

End Datetime.

Module Random.

(** [random.randint(a, b)] is [a + _randbelow(b - a + 1)].  [draw] is what
    the generator has in store; [_randbelow(n)] makes a number from 0 up to
    but not [n] of it, here its remainder. *)
Definition randint (draw a b : Z) : Z := a + draw `mod` (b - a + 1).

End Random.

(** ** The world: [hass.data], the client, the coordinator *)

Inductive level := ERROR | WARNING.

Inductive event :=
  | Log (l : level) (msg : string)
  | HttpGet (url : string)
  | NotificationCreate (message title notification_id : string)
  | NotificationDismiss (notification_id : string)
  | CreateTask (delay : Z).

Record KnmiApiClient := {
  api_key : string;
  latitude : string;
  longitude : string;
  notification_id : option string;
}.

Record ConfigEntry := {
  entry_id : string;
  options : gmap string Z;
}.

Record KnmiDataUpdateCoordinator := {
  config_entry : ConfigEntry;
  data : pyval;
  last_update_time : option Z;
  _timestamp : option Z;
  refresh_interval : Z;
  update_interval : Z;
}.

Record World := {
  hass_data : gmap string pyval;
  api : KnmiApiClient;
  coordinator : KnmiDataUpdateCoordinator;
}.

Definition set_hass_data (f : gmap string pyval -> gmap string pyval) (w : World) : World :=
  {| hass_data := f (hass_data w); api := api w; coordinator := coordinator w |}.

Definition set_notification_id (n : option string) (w : World) : World :=
  {| hass_data := hass_data w;
     api := {| api_key := api_key (api w); latitude := latitude (api w);
               longitude := longitude (api w); notification_id := n |};
     coordinator := coordinator w |}.

Definition set_coordinator (f : KnmiDataUpdateCoordinator -> KnmiDataUpdateCoordinator)
    (w : World) : World :=
  {| hass_data := hass_data w; api := api w; coordinator := f (coordinator w) |}.

Definition with_data (v : pyval) (c : KnmiDataUpdateCoordinator) :=
  {| config_entry := config_entry c; data := v;
     last_update_time := last_update_time c; _timestamp := _timestamp c;
     refresh_interval := refresh_interval c; update_interval := update_interval c |}.

Definition with_last_update_time (t : option Z) (c : KnmiDataUpdateCoordinator) :=
  {| config_entry := config_entry c; data := data c;
     last_update_time := t; _timestamp := _timestamp c;
     refresh_interval := refresh_interval c; update_interval := update_interval c |}.

Definition with_timestamp (t : option Z) (c : KnmiDataUpdateCoordinator) :=
  {| config_entry := config_entry c; data := data c;
     last_update_time := last_update_time c; _timestamp := t;
     refresh_interval := refresh_interval c; update_interval := update_interval c |}.

Definition with_refresh_interval (r : Z) (c : KnmiDataUpdateCoordinator) :=
  {| config_entry := config_entry c; data := data c;
     last_update_time := last_update_time c; _timestamp := _timestamp c;
     refresh_interval := r; update_interval := update_interval c |}.

(** ** The monad of stateful, logging, failing code *)

Definition M (A : Type) : Type := World -> result A * World * list event.

Definition retM {A} (a : A) : M A := fun w => (Ret a, w, []).

Definition bindM {A B} (m : M A) (k : A -> M B) : M B := fun w =>
  match m w with
  | (Ret a, w1, ev1) => let '(r, w2, ev2) := k a w1 in (r, w2, ev1 ++ ev2)
  | (Raise e, w1, ev1) => (Raise e, w1, ev1)
  end.

Definition raise {A} (e : exn) : M A := fun w => (Raise e, w, []).

Definition lift {A} (r : result A) : M A := fun w => (r, w, []).

Definition emit (e : event) : M unit := fun w => (Ret tt, w, [e]).

Definition read {A} (f : World -> A) : M A := fun w => (Ret (f w), w, []).

Definition update (f : World -> World) : M unit := fun w => (Ret tt, f w, []).

(** [try: m except <e>: handler e]; the handler decides which exceptions
    it lets through. *)
Definition try_except {A} (m : M A) (handler : exn -> M A) : M A := fun w =>
  match m w with
  | (Ret a, w1, ev1) => (Ret a, w1, ev1)
  | (Raise e, w1, ev1) => let '(r, w2, ev2) := handler e w1 in (r, w2, ev1 ++ ev2)
  end.

Notation "'let*' x ':=' c 'in' k" := (bindM c (fun x => k))
  (at level 10, x name, c at level 100, k at level 200).
Notation "c '>>' k" := (bindM c (fun _ => k))
  (at level 100, k at level 200, right associativity).

(** ** const.py *)

Module Const.

Definition API_ENDPOINT (key lat lon : string) : string :=
  "https://weerlive.nl/api/json-data-10min.php?key=" +:+ key
    +:+ "&locatie=" +:+ lat +:+ "," +:+ lon.
Definition API_TIMEOUT : Z := 15.
Definition DOMAIN : string := "knmi".
Definition DATA_REFRESH_INTERVAL : Z := 600.

(** WIND_DIRECTIONS_ICON_MAP, in the order of the dictionary. *)
Definition WIND_DIRECTIONS_ICON_MAP : list (Z * string) :=
  [ (0, "arrow-down-thick");
    (45, "arrow-bottom-left-thick");
    (90, "arrow-left-thick");
    (135, "arrow-top-left-thick");
    (180, "arrow-up-thick");
    (225, "arrow-top-right-thick");
    (270, "arrow-right-thick");
    (315, "arrow-bottom-right-thick") ].

(** An entry of a range table: its key, the pair ["range"], the
    ["short_description"] and, in AIR_PRESSURE_MAP, the ["barometer"] word
    (empty in the other tables, which have none).  The long
    ["description"] texts, which no function reads, are left out. *)
Record band := {
  band_key : string;
  range_lo : Z;
  range_hi : Z;
  short_description : string;
  barometer : string;
}.

Definition mk (k : string) (lo hi : Z) (short : string) : band :=
  {| band_key := k; range_lo := lo; range_hi := hi;
     short_description := short; barometer := "" |}.

Definition TEMPERATURE_MAP : list band :=
  [ mk "-30" (-30) (-20) "Extreem koud";
    mk "-20" (-20) (-10) "Zeer koud";
    mk "-10" (-10) 0 "Erg koud";
    mk "0" 0 10 "Koud";
    mk "5" 5 10 "Koel tot milde kou";
    mk "10" 10 15 "Fris";
    mk "15" 15 20 "Aangenaam";
    mk "20" 20 25 "Warm";
    mk "25" 25 30 "Warm tot heet";
    mk "30" 30 35 "Heet";
    mk "35" 35 40 "Erg heet";
    mk "40" 40 50 "Zeer heet";
    mk "50" 50 100 "Extreem heet" ].

Definition mkp (k : string) (lo hi : Z) (short baro : string) : band :=
  {| band_key := k; range_lo := lo; range_hi := hi;
     short_description := short; barometer := baro |}.

Definition AIR_PRESSURE_MAP : list band :=
  [ mkp "extreem_laag" 900 940 "Extreem laag" "Orkaan";
    mkp "zeer_laag" 940 970 "Zeer laag" "Stormachtig";
    mkp "laag" 970 990 "Laag" "Regenachtig";
    mkp "matig_laag" 990 1010 "Matig laag" "Veranderlijk";
    mkp "stabiel" 1010 1030 "Stabiel" "Mooi weer";
    mkp "hoog" 1030 1050 "Hoog" "Droog";
    mkp "zeer_hoog" 1050 1100 "Zeer hoog" "Zeer droog";
    mkp "extreem_hoog" 1100 1200 "Extreem hoog" "Uitzonderlijk droog" ].

Definition HUMIDITY_MAP : list band :=
  [ mk "ultra_low" 0 10 "Zeer laag";
    mk "very_low" 10 30 "Erg laag";
    mk "low" 30 40 "Laag";
    mk "comfortable" 40 60 "Comfortabel";
    mk "high" 60 70 "Hoog";
    mk "very_high" 70 90 "Erg hoog";
    mk "ultra_high" 90 100 "Zeer hoog" ].

Definition VISIBILITY_MAP : list band :=
  [ mk "very_poor" 0 1 "Zeer slecht";
    mk "poor" 1 3 "Slecht";
    mk "moderate" 3 5 "Matig";
    mk "good" 5 10 "Goed";
    mk "very_good" 10 50 "Zeer goed" ].

(** An entry of WIND_FORCE_MAP; the speed in m/s is a float literal, kept
    as its numerator over ten. *)
Record wind_force := {
  windsnelheid_kmh : Z;
  windsnelheid_ms_tenths : Z;
  benaming : string;
  uitwerking : string;
}.

Definition wf (kmh ms10 : Z) (name effect : string) : wind_force :=
  {| windsnelheid_kmh := kmh; windsnelheid_ms_tenths := ms10;
     benaming := name; uitwerking := effect |}.

Definition WIND_FORCE_MAP : list (Z * wind_force) :=
  [ (0, wf 0 0 "Stil" "Rook stijgt recht of bijna recht omhoog");
    (1, wf 1 3 "Zwak" "Windrichting goed af te leiden uit rookpluimen");
    (2, wf 6 16 "Zwak" "Wind merkbaar in gezicht");
    (3, wf 12 34 "Matig" "Stof waait op");
    (4, wf 20 55 "Matig" "Haar in de war, kleding flappert");
    (5, wf 29 80 "Vrij krachtig"
          "Opwaaiend stof hinderlijk voor de ogen, gekuifde golven op meren en kanalen, vuilcontainers waaien om");
    (6, wf 39 108 "Krachtig" "Paraplu's met moeite vast te houden");
    (7, wf 50 139 "Hard" "Lastig tegen de wind in te lopen of fietsen");
    (8, wf 62 172 "Stormachtig" "Voortbewegen zeer moeilijk");
    (9, wf 75 208 "Storm"
          "Schoorsteenkappen en dakpannen waaien weg, kinderen waaien om");
    (10, wf 89 245 "Zware storm"
          "Grote schade aan gebouwen, volwassenen waaien om");
    (11, wf 103 285 "Zeer zware storm" "Enorme schade aan bossen");
    (12, wf 117 326 "Orkaan" "Verwoestingen") ].

End Const.

(** ** model.py *)

Module Model.

(** The fields of the dataclass WeatherData. *)
Definition fields : list string :=
  [ "plaats"; "timestamp"; "time"; "temp"; "gtemp"; "samenv"; "lv"; "windr";
    "windrgr"; "windms"; "winds"; "windk"; "windkmh"; "luchtd"; "ldmmhg";
    "dauwp"; "zicht"; "verw"; "sup"; "sunder"; "image";
    "d0weer"; "d0tmax"; "d0tmin"; "d0windk"; "d0windknp"; "d0windms";
    "d0windkmh"; "d0windr"; "d0windrgr"; "d0neerslag"; "d0zon";
    "d1weer"; "d1tmax"; "d1tmin"; "d1windk"; "d1windknp"; "d1windms";
    "d1windkmh"; "d1windr"; "d1windrgr"; "d1neerslag"; "d1zon";
    "d2weer"; "d2tmax"; "d2tmin"; "d2windk"; "d2windknp"; "d2windms";
    "d2windkmh"; "d2windr"; "d2windrgr"; "d2neerslag"; "d2zon";
    "alarm"; "alarmtxt" ].

(** The constructor called with the keyword arguments unpacked from
    [data]: [data] has to be a mapping, with a key for every field and no
    other key. *)
Definition WeatherData (data : pyval) : result pyval :=
  match data with
  | VDict d =>
      if bool_decide (dom d = list_to_set fields)
      then Ret (VWeatherData d) else Raise TypeError
  | _ => Raise TypeError
  end.

End Model.

(** ** entity.py *)

Module Entity.
Import Const.

(** The sample payload [testdata]: its only "liveweer" record. *)
Definition testdata_liveweer : gmap string pyval :=
  list_to_map (map (fun kv => (fst kv, VStr (snd kv)))
  [ ("plaats", "Schagen"); ("timestamp", "1689469384");
    ("time", "16-07-2023 03:03"); ("temp", "18.1"); ("gtemp", "15.5");
    ("samenv", "Zwaar bewolkt"); ("lv", "69"); ("windr", "ZW");
    ("windrgr", "225"); ("windms", "13"); ("winds", "6");
    ("windk", "25.3"); ("windkmh", "46.8"); ("luchtd", "1004.7");
    ("ldmmhg", "754"); ("dauwp", "12"); ("zicht", "20");
    ("verw", "Vandaag onstuimig, maandag enkele buien");
    ("sup", "05:33"); ("sunder", "22:00"); ("image", "nachtbewolkt");
    ("d0weer", "halfbewolkt"); ("d0tmax", "19"); ("d0tmin", "17");
    ("d0windk", "6"); ("d0windknp", "25"); ("d0windms", "13");
    ("d0windkmh", "46"); ("d0windr", "ZW"); ("d0windrgr", "225");
    ("d0neerslag", "33"); ("d0zon", "57");
    ("d1weer", "halfbewolkt"); ("d1tmax", "23"); ("d1tmin", "14");
    ("d1windk", "3"); ("d1windknp", "8"); ("d1windms", "4");
    ("d1windkmh", "15"); ("d1windr", "ZW"); ("d1windrgr", "225");
    ("d1neerslag", "40"); ("d1zon", "40");
    ("d2weer", "halfbewolkt"); ("d2tmax", "22"); ("d2tmin", "14");
    ("d2windk", "3"); ("d2windknp", "8"); ("d2windms", "4");
    ("d2windkmh", "15"); ("d2windr", "ZW"); ("d2windrgr", "225");
    ("d2neerslag", "30"); ("d2zon", "40");
    ("alarm", "1");
    ("alarmtxt", "Aanvankelijk zijn er geen waarschuwingen van kracht.  In de nacht naar zondag en zondagochtend is er aan zee en in het Waddengebied kans op zware windstoten van 75-90 km/u, met mogelijk hinder voor verkeer en buitenactiviteiten.  De wind waait uit het zuidwesten en neemt in de tweede helft van zondagochtend weer iets af.") ]).

(** [lo <= v <= hi] and [lo <= v < hi], the two tests of the loops. *)
Definition within_closed (v : Z) (b : band) : bool :=
  (range_lo b <=? v) && (v <=? range_hi b).
Definition within_half_open (v : Z) (b : band) : bool :=
  (range_lo b <=? v) && (v <? range_hi b).

(** The loops return at the first entry whose test holds and fall off the
    end, returning None, when there is none.  Every pass converts the
    float again; the tables are not empty, so a float without an integer
    value raises in the first pass. *)
Definition get_temperature_description (temperature : spec_float)
  : result (option string) :=
  t ← Float.trunc temperature;
  Ret (short_description <$> find (within_closed t) TEMPERATURE_MAP).

Definition get_windforce_description (windforce : Z) : option wind_force :=
  snd <$> find (fun kv => fst kv =? windforce) WIND_FORCE_MAP.

Definition get_air_pressure_description (air_pressure : spec_float)
  : result (option string) :=
  p ← Float.trunc air_pressure;
  Ret (short_description <$> find (within_closed p) AIR_PRESSURE_MAP).

Definition get_air_pressure_barometer (air_pressure : spec_float)
  : result (option string) :=
  p ← Float.trunc air_pressure;
  Ret (barometer <$> find (within_closed p) AIR_PRESSURE_MAP).

Definition get_humidity_description (humidity : Z) : option string :=
  short_description <$> find (within_half_open humidity) HUMIDITY_MAP.

Definition get_visibility_description (visibility : Z) : option string :=
  short_description <$> find (within_half_open visibility) VISIBILITY_MAP.

Definition of_description (o : option string) : pyval :=
  match o with Some s => VStr s | None => VNone end.

(** One [if key == ...:] block of [get_data]: [Some v] when it returns
    [v], [None] when control goes on to the next block. *)
Definition block (r : result (option pyval)) (next : result pyval)
  : result pyval :=
  match r with
  | Ret (Some v) => Ret v
  | Ret None => next
  | Raise e => Raise e
  end.

(** The statements of [get_data] from the read of the timestamp on.
    [update_timestamp] makes a datetime of the timestamp, which may raise;
    the attribute [_timestamp] of the entity that it assigns is not
    tracked.  [strftime] renders a datetime. *)
Definition resolve (strftime : Z -> string) (data : pyval) (key : string)
  : result pyval :=
  timestamp ← Py.get data "timestamp";
  _ ← (if Py.is_none timestamp then Ret 0
       else n ← Py.int timestamp; Datetime.fromtimestamp n);
  block (if String.eqb key "winddesc" then
           winds_bft ← Py.get data "winds";
           if Py.is_none winds_bft then Ret None else
           n ← Py.int winds_bft;
           Ret ((fun w => VStr (benaming w)) <$> get_windforce_description n)
         else Ret None) $
  block (if String.eqb key "tempdesc" then
           temperature ← Py.get data "temp";
           if Py.is_none temperature then Ret None else
           f ← Py.float temperature;
           d ← get_temperature_description f;
           Ret (Some (of_description d))
         else Ret None) $
  block (if String.eqb key "air_pressure_desc" then
           air_pressure ← Py.get data "luchtd";
           if Py.is_none air_pressure then Ret None else
           f ← Py.float air_pressure;
           d ← get_air_pressure_description f;
           Ret (Some (of_description d))
         else Ret None) $
  block (if String.eqb key "lvdesc" then
           humidity ← Py.get data "lv";
           if Py.is_none humidity then Ret None else
           n ← Py.int humidity;
           Ret (Some (of_description (get_humidity_description n)))
         else Ret None) $
  block (if String.eqb key "air_pressure_barometer" then
           air_pressure ← Py.get data "luchtd";
           if Py.is_none air_pressure then Ret None else
           f ← Py.float air_pressure;
           d ← get_air_pressure_barometer f;
           Ret (Some (of_description d))
         else Ret None) $
  block (if String.eqb key "zichtdesc" then
           visibility ← Py.get data "zicht";
           if Py.is_none visibility then Ret None else
           n ← Py.int visibility;
           Ret (Some (of_description (get_visibility_description n)))
         else Ret None) $
  block (if String.eqb key "timestamp" then
           timestamp ← Py.get data "timestamp";
           if Py.is_none timestamp then Ret None else
           n ← Py.int timestamp;
           t ← Datetime.fromtimestamp n;
           Ret (Some (VStr (strftime t)))
         else Ret None) $
  Py.get data key.

(** [get_data(key)] on the data of the coordinator.  [loads] is
    [json.loads], None standing for its JSONDecodeError. *)
Definition get_data (loads : string -> option pyval) (strftime : Z -> string)
    (key : string) : M pyval :=
  let* data := read (fun w => data (coordinator w)) in
  if Py.is_none data then retM VNone
  else
    let* data :=
      match data with
      | VStr s =>
          match loads s with
          | Some v => retM v
          | None =>
              emit (Log ERROR "Failed to parse JSON data: %s") >>
              raise ValueError
          end
      | _ => retM data
      end in
    lift (resolve strftime data key).

End Entity.

(** ** sensor.py *)

Module Sensor.
Import Const.

(** [min(keys, key=f)]: the first key at which [f] is least. *)
Fixpoint min_by (f : Z -> Z) (best : Z) (keys : list Z) : Z :=
  match keys with
  | [] => best
  | k :: keys' => min_by f (if f k <? f best then k else best) keys'
  end.

Definition icon_of (angle : Z) : string :=
  match find (fun kv => fst kv =? angle) WIND_DIRECTIONS_ICON_MAP with
  | Some kv => snd kv
  | None => "compass-outline"
  end.

(** [abs(direction - closest) > 22.5] compares an integer with a float,
    which Python does exactly: twice the distance exceeds 45. *)
Definition wind_direction_icon (wind_direction_degrees : Z) : result string :=
  let direction := wind_direction_degrees `mod` 360 in
  let closest_direction :=
    match map fst WIND_DIRECTIONS_ICON_MAP with
    | k :: keys => min_by (fun angle => Z.abs (direction - angle)) k keys
    | [] => 0
    end in
  closest_direction ←
    (if 45 <? 2 * Z.abs (direction - closest_direction)
     then q ← Float.truediv direction 45; r ← Float.round q; Ret (r * 45)
     else Ret closest_direction);
  Ret ("mdi:" +:+ icon_of closest_direction).

End Sensor.

(** ** Home Assistant's persistent notifications *)

Module Notify.

(** Modelled from the spec: the notification side-channel of Home
    Assistant (create and dismiss a user-visible notice keyed by an id),
    which is not under src/.  The notices live in the dictionary stored
    under the key "persistent_notification" of [hass.data], the one
    [notification_exists] reads; a missing entry is created on demand and
    an entry of another shape is left as it is. *)
Definition KEY : string := "persistent_notification".

Definition notice (message title notification_id : string) : pyval :=
  VDict (list_to_map
    [ ("message", VStr message); ("title", VStr title);
      ("notification_id", VStr notification_id) ]).

(** The dictionary of notices with one more notice, and with one less. *)
Definition create (message title notification_id : string)
    (hd : gmap string pyval) : gmap string pyval :=
  match hd !! KEY with
  | None =>
      <[KEY := VDict {[ notification_id := notice message title notification_id ]}]> hd
  | Some (VDict notifications) =>
      <[KEY := VDict (<[notification_id := notice message title notification_id]>
                        notifications)]> hd
  | Some _ => hd
  end.

Definition dismiss (notification_id : string) (hd : gmap string pyval)
  : gmap string pyval :=
  match hd !! KEY with
  | Some (VDict notifications) =>
      <[KEY := VDict (delete notification_id notifications)]> hd
  | _ => hd
  end.

Definition async_create (message title notification_id : string) : M unit :=
  update (set_hass_data (create message title notification_id)) >>
  emit (NotificationCreate message title notification_id).

Definition async_dismiss (notification_id : string) : M unit :=
  update (set_hass_data (dismiss notification_id)) >>
  emit (NotificationDismiss notification_id).

End Notify.

(** ** api.py *)

Module Api.

(** What [session.get(url)] and [response.text()] come to under the
    timeout: the request times out, fails in the transport, or yields a
    response.  [json] is what [json.loads] makes of the text, [None] when
    it raises JSONDecodeError. *)
Record response := {
  status : Z;
  content_type : option string;
  text : string;
  json : option pyval;
}.

Inductive http :=
  | TimedOut
  | TransportError (gai : bool)
  | Response (r : response).

(** [notification_exists]: the keys of the dictionary are strings, so
    looking up the id None finds nothing. *)
Definition notification_exists (w : World) : bool :=
  let notifications := default (VDict ∅) (hass_data w !! Notify.KEY) in
  match notifications with
  | VDict d =>
      let existing_notification :=
        match notification_id (api w) with
        | Some id => Py.dict_get d id
        | None => VNone
        end in
      negb (Py.is_none existing_notification)
  | _ => false
  end.

Definition _handle_error_logging (with_url : bool) : M unit :=
  if with_url
  then emit (Log ERROR "Error fetching information from %s - %s")
  else emit (Log ERROR "Error: %s").

(** [uuid] is the string [str(uuid.uuid4())] yields if it is called. *)
Definition _handle_error_responses (uuid : string) (response_text : string)
  : M unit :=
  if Str.contains "Vraag eerst een API-key op" response_text
  then raise InvalidApiKeyError
  else if Str.contains "Dagelijkse limiet" response_text then
    let message :=
      "Het maximum aantal van 300 API verzoeken per dag voor KNMI is bereikt." in
    let title := "API limiet bereikt" in
    (let* exists_ := read notification_exists in
     if negb exists_ then
       update (set_notification_id (Some uuid)) >>
       Notify.async_create message title uuid
     else retM tt) >>
    raise RequestsExceededError
  else if Str.contains "De server ondervindt een probleem" response_text
  then raise KnmiApiException
  else retM tt.

Definition _parse_json_response (r : response) : M pyval :=
  if negb (bool_decide (content_type r = Some "application/json"))
  then raise ApiError
  else
    if (status r =? 200) && negb (Str.contains "Dagelijkse limiet" (text r))
    then match json r with
         | Some data => retM data
         | None =>
             emit (Log ERROR "Error decoding JSON response - %s: %s") >>
             raise ApiError
         end
    else retM VNone.

Definition _handle_notification_dismissal : M unit :=
  let* id := read (fun w => notification_id (api w)) in
  let* exists_ := read notification_exists in
  match id with
  | Some id' =>
      if exists_ then
        Notify.async_dismiss id' >>
        update (set_notification_id None)
      else retM tt
  | None => retM tt
  end.

(** The function ends without a return statement after a timeout or a
    transport error: it returns None. *)
Definition _api_wrapper (url : string) (h : http) (uuid : string) : M pyval :=
  try_except
    (emit (HttpGet url) >>
     match h with
     | TimedOut => raise TimeoutError
     | TransportError gai => raise (if gai then GaiError else ClientError)
     | Response r =>
         _handle_error_responses uuid (text r) >>
         let* data := _parse_json_response r in
         match data with
         | VDict d =>
             match d !! "liveweer" with
             | Some l =>
                 let* liveweer := lift (Py.item0 l) in
                 if Py.truthy liveweer then
                   _handle_notification_dismissal >>
                   retM liveweer
                 else raise ApiError
             | None => raise ApiError
             end
         | _ => raise ApiError
         end
     end)
    (fun exception =>
       match exception with
       | TimeoutError =>
           emit (Log ERROR "Timeout error fetching information from %s - %s") >>
           retM VNone
       | ClientError | GaiError =>
           _handle_error_logging true >>
           retM VNone
       | RequestsExceededError =>
           emit (Log ERROR "API Call Limit! - %s") >>
           raise exception
       | KnmiApiException =>
           _handle_error_logging false >>
           raise exception
       | _ => raise exception
       end).

Definition async_get_data (h : http) (uuid : string) : M pyval :=
  let* c := read api in
  _api_wrapper (Const.API_ENDPOINT (api_key c) (latitude c) (longitude c)) h uuid.

End Api.

(** ** coordinator.py *)

Module Coordinator.
Import Const.

Export Datetime.

(** [_get_refresh_interval].  [config_entry] is the entry handed to the
    constructor, which is an object and so counts as true; [self_options]
    is the attribute [options] of the class, None unless something assigns
    it.  The value read from [hass.data] only feeds a DEBUG message. *)
Definition _get_refresh_interval (config_entry : ConfigEntry)
    (self_options : option (gmap string Z)) : Z :=
  match options config_entry !! "refresh_interval" with
  | Some r => r
  | None =>
      match (match self_options with
             | Some o => if bool_decide (o = ∅) then None else o !! "refresh_interval"
             | None => None
             end) with
      | Some r => r
      | None =>
          match options config_entry !! "refresh_interval" with
          | Some r => r
          | None => DATA_REFRESH_INTERVAL
          end
      end
  end.

(** The constructor; the base class starts with no data. *)
Definition __init__ (config_entry : ConfigEntry) : KnmiDataUpdateCoordinator :=
  let refresh_interval := _get_refresh_interval config_entry None in
  {| config_entry := config_entry;
     data := VNone;
     last_update_time := None;
     _timestamp := None;
     refresh_interval := refresh_interval;
     update_interval := seconds refresh_interval |}.

Definition _is_update_interval_passed (c : KnmiDataUpdateCoordinator)
    (now : Z) : bool :=
  match last_update_time c with
  | None => true
  | Some t => t + seconds 600 <=? now
  end.

Definition _update_timestamp (data : pyval) (now : Z) : M unit :=
  if Py.truthy data then
    let* timestamp := lift (Py.getattr data "timestamp") in
    if Py.is_none timestamp then retM tt
    else
      try_except
        (let* timestamp_int := lift (Py.int timestamp) in
         update (set_coordinator (with_timestamp (Some timestamp_int))) >>
         let* t := lift (fromtimestamp timestamp_int) in
         update (set_coordinator (with_last_update_time (Some t))))
        (fun exception =>
           match exception with
           | ValueError =>
               emit (Log WARNING "Invalid timestamp format: %s") >>
               update (set_coordinator (with_last_update_time (Some now))) >>
               update (set_coordinator (with_timestamp None))
           | _ => raise exception
           end)
  else retM tt.

(** [draw] is what the random generator has in store when
    [random.randint(1, 60)] is called; the task created sleeps for the
    delay and requests a refresh. *)
Definition _schedule_next_update (now draw : Z) : M unit :=
  let* c := read coordinator in
  match last_update_time c with
  | Some t =>
      let* interval := lift (timedelta (refresh_interval c)) in
      let* next_update_time := lift (__add__ t interval) in
      if now <? next_update_time then
        let random_time := Random.randint draw 1 60 in
        let delay := (next_update_time - now) + seconds random_time in
        emit (CreateTask delay)
      else retM tt
  | None => retM tt
  end.

(** What one call of [_async_update_data] meets: the clock readings of
    [datetime.now()] at the freshness test, in [_update_timestamp] and in
    [_schedule_next_update], the outcome of the HTTP request, the value
    drawn by [uuid.uuid4] and what the random generator has in store. *)
Record Env := {
  now_gate : Z;
  http : Api.http;
  uuid : string;
  now_stamp : Z;
  now_sched : Z;
  draw : Z;
}.

Definition _async_update_data (env : Env) : M pyval :=
  let* c := read coordinator in
  if match last_update_time c with None => true | Some _ => false end
     || _is_update_interval_passed c (now_gate env)
  then
    try_except
      (let* data := Api.async_get_data (http env) (uuid env) in
       let* weather_data := lift (Model.WeatherData data) in
       update (set_coordinator (with_data weather_data)) >>
       _update_timestamp weather_data (now_stamp env) >>
       _schedule_next_update (now_sched env) (draw env) >>
       retM data)
      (fun exception =>
         emit (Log ERROR "Error fetching KNMI data: %s") >>
         raise UpdateFailed)
  else retM (data c).

Definition is_range_key (key : string) : bool :=
  Str.contains "d1tmin" key || Str.contains "d1tmax" key
  || Str.contains "d2tmin" key || Str.contains "d2tmax" key.

(** [numerator, denominator = map(int, parts)]: two parts, both integers;
    anything else is a ValueError. *)
Definition unpack2 (parts : list string) : result (Z * Z) :=
  match parts with
  | [a; b] =>
      match Str.to_int a, Str.to_int b with
      | Some n, Some d => Ret (n, d)
      | _, _ => Raise ValueError
      end
  | _ => Raise ValueError
  end.

(** The statements inside the [try] of [get_value]. *)
Definition convert (data : pyval) (key : string)
    (convert_to : pyval -> result pyval) : result pyval :=
  value ← Py.get data key;
  is_range ← (if is_range_key key then Py.contains value "/" else Ret false);
  if (is_range : bool) then
    parts ← Py.split value "/"%char;
    nd ← unpack2 parts;
    half ← Float.truediv (fst nd + snd nd) 2;
    convert_to (VFloat half)
  else convert_to value.

Definition get_value (key : string) (convert_to : pyval -> result pyval)
  : M pyval :=
  let* data := read (fun w => data (coordinator w)) in
  let* present := lift (Py.contains data key) in
  if (present : bool) then
    try_except (lift (convert data key convert_to))
      (fun exception =>
         match exception with
         | ValueError =>
             emit (Log WARNING "Value %s with key %s can't be converted to %s") >>
             retM VNone
         | _ => raise exception
         end)
  else
    emit (Log WARNING "Value %s is missing in API response") >>
    retM VNone.

Definition notification_exists (w : World) : bool := Api.notification_exists w.

End Coordinator.

(** ** __init__.py *)

Module Init.

(** Modelled from the spec: the first refresh of the base class
    DataUpdateCoordinator, which is not under src/.  It runs
    [_async_update_data], stores what it returns as the data of the
    coordinator, and turns a failure into the fatal "not ready"
    condition. *)
Definition async_config_entry_first_refresh (env : Coordinator.Env) : M unit :=
  try_except
    (let* data := Coordinator._async_update_data env in
     update (set_coordinator (with_data data)))
    (fun _ => raise ConfigEntryNotReady).

(** [async_setup_entry], from an initial [hass.data].  The registry of
    coordinators kept under the domain key is not part of [hass_data];
    forwarding to the platforms has no effect on the world. *)
Definition async_setup_entry (hd : gmap string pyval) (entry : ConfigEntry)
    (key lat lon : string) (env : Coordinator.Env)
  : result bool * World * list event :=
  let client :=
    {| api_key := key; latitude := lat; longitude := lon;
       notification_id := None |} in
  let coordinator := Coordinator.__init__ entry in
  let refresh_interval := default 300 (options entry !! "refresh_interval") in
  let coordinator :=
    if negb (refresh_interval =? 0)
    then with_refresh_interval refresh_interval coordinator
    else coordinator in
  (async_config_entry_first_refresh env >> retM true)
    {| hass_data := hd; api := client; coordinator := coordinator |}.

End Init.

(** ** api.py: the daily forecast *)

Module ApiDaily.

(** [response.raise_for_status()]: a status of 400 or more raises
    ClientResponseError, which is a ClientError. *)
Definition raise_for_status (r : Api.response) : M unit :=
  if 400 <=? Api.status r then raise ClientError else retM tt.

(** [data.get("forecast", [])]; only a dictionary has the method. *)
Definition get_forecast (data : pyval) : result pyval :=
  match data with
  | VDict d => Ret (default (VList []) (d !! "forecast"))
  | _ => Raise AttributeError
  end.

(** [async_fetch_daily_forecast_data].  Only ClientError is caught; when
    the parsed data is None the function ends without a return statement
    and so returns None. *)
Definition async_fetch_daily_forecast_data (h : Api.http) : M pyval :=
  try_except
    (let* c := read api in
     emit (HttpGet (Const.API_ENDPOINT (api_key c) (latitude c) (longitude c))) >>
     match h with
     | Api.TimedOut => raise TimeoutError
     | Api.TransportError gai => raise (if gai then GaiError else ClientError)
     | Api.Response r =>
         raise_for_status r >>
         let* data := Api._parse_json_response r in
         if negb (Py.is_none data) then lift (get_forecast data)
         else retM VNone
     end)
    (fun exception =>
       match exception with
       | ClientError => raise KnmiApiException
       | _ => raise exception
       end).

End ApiDaily.

(** ** weather.py *)

Module Weather.
Import Coordinator.

(** The conditions of Home Assistant that CONDITIONS_MAP of [const.py]
    maps to, under the names of their constants. *)
Inductive condition :=
  | ATTR_CONDITION_CLEAR_NIGHT
  | ATTR_CONDITION_CLOUDY
  | ATTR_CONDITION_FOG
  | ATTR_CONDITION_HAIL
  | ATTR_CONDITION_LIGHTNING
  | ATTR_CONDITION_LIGHTNING_RAINY
  | ATTR_CONDITION_PARTLYCLOUDY
  | ATTR_CONDITION_POURING
  | ATTR_CONDITION_RAINY
  | ATTR_CONDITION_SNOWY
  | ATTR_CONDITION_SNOWY_RAINY
  | ATTR_CONDITION_SUNNY
  | ATTR_CONDITION_WINDY.

Definition CONDITIONS_MAP : list (string * condition) :=
  [ ("bliksem", ATTR_CONDITION_LIGHTNING);
    ("bliksemregen", ATTR_CONDITION_LIGHTNING_RAINY);
    ("regen", ATTR_CONDITION_RAINY);
    ("buien", ATTR_CONDITION_POURING);
    ("hagel", ATTR_CONDITION_HAIL);
    ("mist", ATTR_CONDITION_FOG);
    ("sneeuw", ATTR_CONDITION_SNOWY);
    ("sneeuwregen", ATTR_CONDITION_SNOWY_RAINY);
    ("bewolkt", ATTR_CONDITION_CLOUDY);
    ("halfbewolkt", ATTR_CONDITION_PARTLYCLOUDY);
    ("lichtbewolkt", ATTR_CONDITION_PARTLYCLOUDY);
    ("halfbewolkt_regen", ATTR_CONDITION_PARTLYCLOUDY);
    ("nachtbewolkt", ATTR_CONDITION_CLOUDY);
    ("nachtmist", ATTR_CONDITION_FOG);
    ("helderenacht", ATTR_CONDITION_CLEAR_NIGHT);
    ("wolkennacht", ATTR_CONDITION_CLOUDY);
    ("wind", ATTR_CONDITION_WINDY);
    ("zonnig", ATTR_CONDITION_SUNNY);
    ("zwaarbewolkt", ATTR_CONDITION_CLOUDY) ].

(** [str(v)], the default conversion of [get_value]: a string is itself,
    [repr] renders every other value; it raises nothing. *)
Definition str (repr : pyval -> string) (v : pyval) : string :=
  match v with VStr s => s | _ => repr v end.

Definition conv_str (repr : pyval -> string) (v : pyval) : result pyval :=
  Ret (VStr (str repr v)).

(** [CONDITIONS_MAP[value]]: a list or a dictionary is no key at all. *)
Definition condition_of (value : pyval) : result condition :=
  match value with
  | VStr s =>
      match find (fun kv => String.eqb (fst kv) s) CONDITIONS_MAP with
      | Some kv => Ret (snd kv)
      | None => Raise KeyError
      end
  | VList _ | VDict _ => Raise TypeError
  | _ => Raise KeyError
  end.

Definition map_condition (repr : pyval -> string) (key : string)
  : M (option condition) :=
  let* value := get_value key (conv_str repr) in
  if Py.is_str "" value then retM None
  else
    try_except
      (let* c := lift (condition_of value) in retM (Some c))
      (fun exception =>
         match exception with
         | KeyError =>
             emit (Log ERROR
               "Weather condition %s (for %s) is unknown, please raise a bug") >>
             retM None
         | _ => raise exception
         end).

(** An entry of the forecast, under the names of the constants that key
    it. *)
Record Forecast := {
  ATTR_FORECAST_TIME : string;
  ATTR_FORECAST_CONDITION : pyval;
  ATTR_FORECAST_TEMP_LOW : pyval;
  ATTR_FORECAST_TEMP : pyval;
  ATTR_FORECAST_PRECIPITATION_PROBABILITY : pyval;
  ATTR_FORECAST_WIND_BEARING : pyval;
  ATTR_FORECAST_WIND_SPEED : pyval;
  wind_speed_bft : pyval;
  sun_chance : pyval;
}.

(** [entry[key]] for a string [key]: only a dictionary takes one. *)
Definition getitem (entry : pyval) (key : string) : result pyval :=
  match entry with
  | VDict d =>
      match d !! key with
      | Some v => Ret v
      | None => Raise KeyError
      end
  | _ => Raise TypeError
  end.

(** The values a [for] loop draws from [v].  A dictionary yields its
    keys (here in the order of the map, not the order of insertion). *)
Definition iter (v : pyval) : result (list pyval) :=
  match v with
  | VList l => Ret l
  | VStr s =>
      Ret ((fun a => VStr (String a EmptyString)) <$> String.list_ascii_of_string s)
  | VDict d => Ret (VStr <$> (map_to_list d).*1)
  | _ => Raise TypeError
  end.

(** One pass of the loop of [parse_forecast_data].  [isodate] is
    [datetime.strptime(s, "%Y-%m-%d").date().isoformat()], None standing
    for the ValueError of a string that is no such date. *)
Definition parse_entry (isodate : string -> option string) (entry : pyval)
  : result Forecast :=
  date_str ← getitem entry "date";
  condition ← getitem entry "condition";
  temp_min ← getitem entry "temp_min";
  temp_max ← getitem entry "temp_max";
  precipitation_probability ← getitem entry "precipitation_probability";
  wind_bearing ← getitem entry "wind_bearing";
  wind_speed ← getitem entry "wind_speed";
  sun_chance ← getitem entry "sun_chance";
  wind_speed_bft ← getitem entry "wind_speed_bft";
  date ← match date_str with
         | VStr s =>
             match isodate s with
             | Some d => Ret d
             | None => Raise ValueError
             end
         | _ => Raise TypeError
         end;
  Ret {| ATTR_FORECAST_TIME := date;
         ATTR_FORECAST_CONDITION := condition;
         ATTR_FORECAST_TEMP_LOW := temp_min;
         ATTR_FORECAST_TEMP := temp_max;
         ATTR_FORECAST_PRECIPITATION_PROBABILITY := precipitation_probability;
         ATTR_FORECAST_WIND_BEARING := wind_bearing;
         ATTR_FORECAST_WIND_SPEED := wind_speed;
         wind_speed_bft := wind_speed_bft;
         sun_chance := sun_chance |}.

Definition parse_forecast_data (isodate : string -> option string)
    (forecast_data : pyval) : result (list Forecast) :=
  entries ← iter forecast_data;
  mapM (parse_entry isodate) entries.

(** [async_forecast_daily]; the entity supports the daily forecast, its
    constructor says so. *)
Definition async_forecast_daily (isodate : string -> option string)
    (h : Api.http) : M (option (list Forecast)) :=
  try_except
    (let* daily_forecast_data := ApiDaily.async_fetch_daily_forecast_data h in
     let* forecast := lift (parse_forecast_data isodate daily_forecast_data) in
     retM (Some forecast))
    (fun exception =>
       match exception with
       | KnmiApiException =>
           emit (Log ERROR "Error fetching daily forecast data: %s") >>
           retM None
       | _ => raise exception
       end).

End Weather.

(** ** binary_sensor.py *)

Module BinarySensor.
Import Coordinator.

(** [value == 1] *)
Definition eq_one (value : pyval) : bool :=
  match value with
  | VInt z => z =? 1
  | VBool b => b
  | VFloat f => SFeqb f (Float.of_Z 1)
  | _ => false
  end.

Definition is_alarm_on : M bool :=
  let* value := get_value "alarm" Py.conv_int in
  retM (eq_one value).

Record alarm_attributes := {
  Timestamp : string;
  Waarschuwing : pyval;
  attribution : string;
}.

(** [get_alarm_attributes]: None when the alarm is off.  [strftime]
    renders a datetime. *)
Definition get_alarm_attributes (repr : pyval -> string)
    (strftime : Z -> string) : M (option alarm_attributes) :=
  let* on := is_alarm_on in
  if (on : bool) then
    let* value := get_value "timestamp" (Weather.conv_str repr) in
    let* timestamp_int := lift (Py.int value) in
    let* t := lift (Datetime.fromtimestamp timestamp_int) in
    let timestamp := strftime t in
    let* alarmtxt := get_value "alarmtxt" (Weather.conv_str repr) in
    retM (Some {| Timestamp := timestamp;
                  Waarschuwing := alarmtxt;
                  attribution := "Data provided by KNMI" |})
  else retM None.

End BinarySensor.

(** ** config_flow.py *)

Module ConfigFlow.

Record user_input := {
  CONF_NAME : string;
  CONF_LATITUDE : string;
  CONF_LONGITUDE : string;
  CONF_API_KEY : string;
  refresh_interval : Z;
}.

Inductive FlowResult :=
  | CreateEntry (title : string) (data : user_input)
  | ShowForm (step_id : string) (errors : gmap string string).

(** Runs [m] with [client] as the client at work; the client is dropped
    afterwards, [hass] is shared. *)
Definition with_client {A} (client : KnmiApiClient) (m : M A) : M A := fun w =>
  let '(r, w', ev) :=
    m {| hass_data := hass_data w; api := client; coordinator := coordinator w |} in
  (r, {| hass_data := hass_data w'; api := api w; coordinator := coordinator w' |}, ev).

Definition _validate_user_input (api_key latitude longitude : string)
    (h : Api.http) (uuid : string) : M bool :=
  with_client
    {| api_key := api_key; latitude := latitude; longitude := longitude;
       notification_id := None |}
    (Api.async_get_data h uuid >> retM true).

(** [async_step_user] of the flow handler.  The three [except] clauses
    name KnmiApiClientCommunicationError, KnmiApiClientApiKeyError and
    KnmiApiRateLimitError, classes that no statement of the package raises
    and that are no base of what the client raises: an exception of the
    validation passes them all.  So the [else] clause of the [try] is what
    follows a validation that returns, whatever [valid] is. *)
Definition async_step_user (input : option user_input) (h : Api.http)
    (uuid : string) : M FlowResult :=
  match input with
  | Some user_input =>
      let* valid :=
        _validate_user_input (CONF_API_KEY user_input)
          (CONF_LATITUDE user_input) (CONF_LONGITUDE user_input) h uuid in
      if (valid : bool)
      then retM (CreateEntry (CONF_NAME user_input) user_input)
      else retM (CreateEntry (CONF_NAME user_input) user_input)
  | None => retM (ShowForm "user" ∅)
  end.

End ConfigFlow.

(** ** Observations on a run *)

(** The URLs requested, the ids of the notices created and the delays of
    the tasks created, in the order of the events. *)
Definition http_requests (ev : list event) : list string :=
  omap (fun e => match e with HttpGet url => Some url | _ => None end) ev.

Definition created (ev : list event) : list string :=
  omap (fun e => match e with NotificationCreate _ _ id => Some id | _ => None end) ev.

Definition dismissed (ev : list event) : list string :=
  omap (fun e => match e with NotificationDismiss id => Some id | _ => None end) ev.

Definition tasks (ev : list event) : list Z :=
  omap (fun e => match e with CreateTask delay => Some delay | _ => None end) ev.

(** The notices of [hass.data], and the ids under which one is shown. *)
Definition registry (w : World) : gmap string pyval :=
  match hass_data w !! Notify.KEY with
  | Some (VDict notifications) => notifications
  | _ => ∅
  end.

Definition active (w : World) : gset string :=
  dom (filter (fun kv => Py.is_none (snd kv) = false) (registry w)).

(** The quota notices among them: those this run has created. *)
Definition live_quota_notices (ev : list event) (w : World) : gset string :=
  list_to_set (created ev) ∩ active w.

Definition stored_id (w : World) : gset string :=
  match notification_id (api w) with
  | Some id => {[ id ]}
  | None => ∅
  end.

(** A sequence of fetches, each with the outcome of its request and the
    uuid at its disposal; a fetch that raises does not stop the next. *)
Fixpoint fetches (l : list (Api.http * string)) (w : World) : World * list event :=
  match l with
  | [] => (w, [])
  | (h, u) :: l' =>
      let '(_, w1, ev1) := Api.async_get_data h u w in
      let '(w2, ev2) := fetches l' w1 in
      (w2, ev1 ++ ev2)
  end.

(** A response with the quota message of the provider (and without the
    message about the key, which is checked first); the store of notices
    in the shape Home Assistant keeps it. *)
Definition quota_exceeded (h : Api.http) : Prop :=
  match h with
  | Api.Response r =>
      Str.contains "Vraag eerst een API-key op" (Api.text r) = false
      /\ Str.contains "Dagelijkse limiet" (Api.text r) = true
  | _ => False
  end.

Definition registry_ok (w : World) : Prop :=
  match hass_data w !! Notify.KEY with
  | None | Some (VDict _) => True
  | Some _ => False
  end.

(** A fetch that brought a record: the client returns it, and a record
    counts as true (after a timeout the client returns None). *)
Definition successful_result (r : result pyval) : Prop :=
  exists liveweer, r = Ret liveweer /\ Py.truthy liveweer = true.

Definition successful (o : result pyval * World * list event) : Prop :=
  successful_result o.1.1.

(** The two sides of the freshness gate, at the clock reading [now]: fewer
    than 600 seconds since last_update_time; no last_update_time, or 600
    seconds or more since it. *)
Definition fresh (w : World) (now : Z) : Prop :=
  exists t, last_update_time (coordinator w) = Some t
            /\ now < t + Datetime.seconds 600.

Definition due (w : World) (now : Z) : Prop :=
  last_update_time (coordinator w) = None
  \/ exists t, last_update_time (coordinator w) = Some t /\ t + Datetime.seconds 600 <= now.

(** A world to run examples in: a client without a notice, the coordinator
    as its constructor leaves it but for the data, an empty [hass.data]. *)
Definition sample_entry : ConfigEntry :=
  {| entry_id := "0123456789abcdef"; options := ∅ |}.

Definition sample_world (snapshot : pyval) : World :=
  {| hass_data := ∅;
     api := {| api_key := "demo"; latitude := "52.79"; longitude := "4.8";
               notification_id := None |};
     coordinator := with_data snapshot (Coordinator.__init__ sample_entry) |}.

Definition sample_uuid : string := "9f1c2d3e-5a6b-4c7d-8e9f-000000000001".

(** A response that carries the sample record, and one that carries the
    quota message.  [sample_now] is thirty seconds after the timestamp of
    the sample record. *)
Definition sample_record_response : Api.http :=
  Api.Response
    {| Api.status := 200;
       Api.content_type := Some "application/json";
       Api.text := "{liveweer: [{plaats: Schagen, timestamp: 1689469384}]}";
       Api.json :=
         Some (VDict {[ "liveweer" := VList [VDict Entity.testdata_liveweer] ]}) |}.

Definition sample_quota_response : Api.http :=
  Api.Response
    {| Api.status := 200;
       Api.content_type := Some "text/html";
       Api.text := "Dagelijkse limiet overschreden";
       Api.json := None |}.

Definition sample_now : Z := Datetime.seconds (1689469384 + 30).

Definition sample_env (h : Api.http) (now : Z) : Coordinator.Env :=
  {| Coordinator.now_gate := now;
     Coordinator.http := h;
     Coordinator.uuid := sample_uuid;
     Coordinator.now_stamp := now + Datetime.seconds 1;
     Coordinator.now_sched := now + Datetime.seconds 1;
     Coordinator.draw := 16 |}.

(** The sample world once the sample record has been fetched. *)
Definition sample_fetched : World :=
  (Coordinator._async_update_data
     (sample_env sample_record_response sample_now) (sample_world VNone)).1.2.

(** ** Notions used by the properties *)

Import Coordinator.

(** A computation keeps an observation [f] of the world when no run of it
    changes [f]. *)
Definition keeps {A C} (f : World -> C) (m : M A) : Prop :=
  forall w, f (m w).1.2 = f w.

(** A computation emits only events that satisfy [P]. *)
Definition emits {A} (P : event -> Prop) (m : M A) : Prop :=
  forall w, Forall P (m w).2.

Definition not_task (e : event) : Prop :=
  match e with CreateTask _ => False | _ => True end.

(** [last_update_time + timedelta(seconds=self.refresh_interval)] for the
    last_update_time [t]. *)
Definition next_update_time (c : KnmiDataUpdateCoordinator) (t : Z) : result Z :=
  interval ← timedelta (refresh_interval c); __add__ t interval.

(** The tasks [_schedule_next_update] creates, or what it raises. *)
Definition scheduled (c : KnmiDataUpdateCoordinator) (now draw : Z)
  : result (list event) :=
  match last_update_time c with
  | Some t =>
      next ← next_update_time c t;
      Ret (if now <? next
           then [CreateTask (next - now + seconds (Random.randint draw 1 60))]
           else [])
  | None => Ret []
  end.

(** The statements inside the [try] of [_async_update_data]. *)
Definition fetch_body (env : Env) : M pyval :=
  let* data := Api.async_get_data (http env) (uuid env) in
  let* weather_data := lift (Model.WeatherData data) in
  update (set_coordinator (with_data weather_data)) >>
  _update_timestamp weather_data (now_stamp env) >>
  _schedule_next_update (now_sched env) (draw env) >>
  retM data.

(** The warning and the fallback of [_update_timestamp], and what the
    method does on a record whose timestamp is [ts]. *)
Definition timestamp_warning : event := Log WARNING "Invalid timestamp format: %s".

Definition fallback (now : Z) (w : World) : World :=
  set_coordinator (with_timestamp None)
    (set_coordinator (with_last_update_time (Some now)) w).

Definition stamp (ts : pyval) (now : Z) (w : World)
  : result unit * World * list event :=
  if Py.is_none ts then (Ret tt, w, [])
  else
    match Py.int ts with
    | Ret n =>
        match fromtimestamp n with
        | Ret t =>
            (Ret tt,
             set_coordinator (with_last_update_time (Some t))
               (set_coordinator (with_timestamp (Some n)) w), [])
        | Raise ValueError => (Ret tt, fallback now w, [timestamp_warning])
        | Raise e => (Raise e, set_coordinator (with_timestamp (Some n)) w, [])
        end
    | Raise ValueError => (Ret tt, fallback now w, [timestamp_warning])
    | Raise e => (Raise e, w, [])
    end.

(** The error a failed refresh logs. *)
Definition fetch_error : event := Log ERROR "Error fetching KNMI data: %s".

Definition quota_message : string :=
  "Het maximum aantal van 300 API verzoeken per dag voor KNMI is bereikt.".
Definition quota_title : string := "API limiet bereikt".

Definition create_notice (u : string) (w : World) : World :=
  set_hass_data (Notify.create quota_message quota_title u)
    (set_notification_id (Some u) w).

Definition dismiss_notice (id : string) (w : World) : World :=
  set_notification_id None (set_hass_data (Notify.dismiss id) w).

(** What a fetch does to the notice: nothing, create one, or dismiss it. *)
Inductive notice_step (u : string) (w : World) (r : result pyval)
  : list event -> World -> Prop :=
  | step_none ev :
      created ev = [] -> dismissed ev = [] ->
      (r = Raise RequestsExceededError -> Api.notification_exists w = true) ->
      (successful_result r -> Api.notification_exists w = false) ->
      notice_step u w r ev w
  | step_create ev :
      Api.notification_exists w = false ->
      r = Raise RequestsExceededError ->
      created ev = [u] -> dismissed ev = [] ->
      notice_step u w r ev (create_notice u w)
  | step_dismiss ev id :
      notification_id (api w) = Some id ->
      Api.notification_exists w = true ->
      successful_result r ->
      created ev = [] -> dismissed ev = [id] ->
      notice_step u w r ev (dismiss_notice id w).

(** The statements of [_api_wrapper] after the checks for error messages:
    parsing, the "liveweer" record, the dismissal. *)
Definition take_record (r : Api.response) : M pyval :=
  let* data := Api._parse_json_response r in
  match data with
  | VDict d =>
      match d !! "liveweer" with
      | Some l =>
          let* liveweer := lift (Py.item0 l) in
          if Py.truthy liveweer then
            Api._handle_notification_dismissal >> retM liveweer
          else raise ApiError
      | None => raise ApiError
      end
  | _ => raise ApiError
  end.

(** The exceptions no clause of [_api_wrapper] handles go through as
    they are. *)
Definition unhandled (res : result pyval) : Prop :=
  match res with
  | Raise (TimeoutError | ClientError | GaiError | RequestsExceededError
          | KnmiApiException) => False
  | _ => True
  end.




Definition missing_warning : event :=
  Log WARNING "Value %s is missing in API response".

Definition conversion_warning : event :=
  Log WARNING "Value %s with key %s can't be converted to %s".

(** ** Notions used by the further properties *)

(** The URL the client requests. *)

Definition endpoint (w : World) : string :=
  Const.API_ENDPOINT (api_key (api w)) (latitude (api w)) (longitude (api w)).

(** A response none of whose error messages is present. *)
Definition plain (r : Api.response) : Prop :=
  Str.contains "Vraag eerst een API-key op" (Api.text r) = false
  /\ Str.contains "Dagelijkse limiet" (Api.text r) = false
  /\ Str.contains "De server ondervindt een probleem" (Api.text r) = false.

(** A response that carries the record [v]: plain, with status 200 and
    the JSON content type, whose text parses to a dictionary with a
    "liveweer" entry whose first element is [v], and [v] counts as true. *)
Definition carries (r : Api.response) (v : pyval) : Prop :=
  plain r
  /\ Api.content_type r = Some "application/json"
  /\ Api.status r = 200
  /\ exists d l, Api.json r = Some (VDict d) /\ d !! "liveweer" = Some l
                 /\ Py.item0 l = Ret v /\ Py.truthy v = true.

(** [_timestamp], when it is set, is the timestamp last_update_time was
    computed from. *)
Definition timestamps_agree (c : KnmiDataUpdateCoordinator) : Prop :=
  forall n, _timestamp c = Some n ->
            exists t, fromtimestamp n = Ret t /\ last_update_time c = Some t.

(** The keys [get_data] answers by a computation of its own. *)
Definition derived_keys : list string :=
  [ "winddesc"; "tempdesc"; "air_pressure_desc"; "lvdesc";
    "air_pressure_barometer"; "zichtdesc"; "timestamp" ].

(** The multiple of 45 nearest to a direction of 0 to 359 degrees. *)
Definition nearest_principal (direction : Z) : Z :=
  45 * ((2 * direction + 45) / 90).

(** All [P n] for [lo <= n < lo + len]. *)
Definition all_from (P : Z -> bool) (lo : Z) (len : nat) : bool :=
  forallb (fun i => P (lo + Z.of_nat i)) (seq 0 len).

(** The midpoint of a range as an integer: [int((lo + hi) / 2)], and the
    test that it is the quotient truncated towards zero. *)
Definition midpoint_int (z : Z) : result pyval :=
  half ← Float.truediv z 2; Py.conv_int (VFloat half).

Definition midpoint_ok (z : Z) : bool :=
  match midpoint_int z with
  | Ret (VInt q) => q =? Z.quot z 2
  | _ => false
  end.

Definition unknown_condition : event :=
  Log ERROR "Weather condition %s (for %s) is unknown, please raise a bug".

(** The world in which the flow validates its input: a client of its own,
    with no notice on record. *)
Definition flow_world (input : ConfigFlow.user_input) (w : World) : World :=
  {| hass_data := hass_data w;
     api := {| api_key := ConfigFlow.CONF_API_KEY input;
               latitude := ConfigFlow.CONF_LATITUDE input;
               longitude := ConfigFlow.CONF_LONGITUDE input;
               notification_id := None |};
     coordinator := coordinator w |}.

(** Responses and inputs to run examples on: a page with the message
    about the key (and the quota message after it), a page that is no
    JSON, a payload whose "liveweer" list is empty, the sample record as a
    response, the sample record with the timestamp 10**17, the sample
    record without its last field, an entry with a configured interval, and
    the input of the configuration form. *)
Definition sample_key_response : Api.response :=
  {| Api.status := 200;
     Api.content_type := Some "text/html";
     Api.text := "Vraag eerst een API-key op. Dagelijkse limiet overschreden";
     Api.json := None |}.

Definition sample_html_response : Api.response :=
  {| Api.status := 200;
     Api.content_type := Some "text/html";
     Api.text := "<html></html>";
     Api.json := None |}.

Definition sample_empty_response : Api.response :=
  {| Api.status := 200;
     Api.content_type := Some "application/json";
     Api.text := "{liveweer: []}";
     Api.json := Some (VDict {[ "liveweer" := VList [] ]}) |}.

Definition sample_record : Api.response :=
  {| Api.status := 200;
     Api.content_type := Some "application/json";
     Api.text := "{liveweer: [{plaats: Schagen, timestamp: 1689469384}]}";
     Api.json :=
       Some (VDict {[ "liveweer" := VList [VDict Entity.testdata_liveweer] ]}) |}.

Definition sample_far_response : Api.http :=
  Api.Response
    {| Api.status := 200;
       Api.content_type := Some "application/json";
       Api.text := "{liveweer: [{plaats: Schagen, timestamp: 100000000000000000}]}";
       Api.json :=
         Some (VDict {[ "liveweer" :=
           VList [VDict (<["timestamp" := VStr "100000000000000000"]>
                           Entity.testdata_liveweer)] ]}) |}.

Definition sample_short_response : Api.response :=
  {| Api.status := 200;
     Api.content_type := Some "application/json";
     Api.text := "{liveweer: [{plaats: Schagen, timestamp: 1689469384}]}";
     Api.json :=
       Some (VDict {[ "liveweer" :=
                        VList [VDict (delete "alarmtxt" Entity.testdata_liveweer)] ]}) |}.

Definition sample_configured_entry : ConfigEntry :=
  {| entry_id := "0123456789abcdef";
     options := {[ "refresh_interval" := 900 ]} |}.

Definition sample_input : ConfigFlow.user_input :=
  {| ConfigFlow.CONF_NAME := "Schagen";
     ConfigFlow.CONF_LATITUDE := "52.79";
     ConfigFlow.CONF_LONGITUDE := "4.8";
     ConfigFlow.CONF_API_KEY := "demo";
     ConfigFlow.refresh_interval := 600 |}.

(** The sample world with the interval of 300 seconds that setup
    installs. *)
Definition sample_world_300 : World :=
  set_coordinator (with_refresh_interval 300) (sample_world VNone).

(** * Properties *)

(** ** Running the monad *)

Section Monad.
Context {A B : Type}.

Lemma bindM_ret (m : M A) (k : A -> M B) w a w1 ev1 :
  m w = (Ret a, w1, ev1) ->
  bindM m k w = ((k a w1).1.1, (k a w1).1.2, ev1 ++ (k a w1).2).
Proof. unfold bindM. intros ->. by destruct (k a w1) as [[??]?]. Qed.

Lemma bindM_raise (m : M A) (k : A -> M B) w e w1 ev1 :
  m w = (Raise e, w1, ev1) -> bindM m k w = (Raise e, w1, ev1).
Proof. unfold bindM. by intros ->. Qed.

Lemma try_except_ret (m : M A) (h : exn -> M A) w a w1 ev1 :
  m w = (Ret a, w1, ev1) -> try_except m h w = (Ret a, w1, ev1).
Proof. unfold try_except. by intros ->. Qed.

Lemma try_except_raise (m : M A) (h : exn -> M A) w e w1 ev1 :
  m w = (Raise e, w1, ev1) ->
  try_except m h w = ((h e w1).1.1, (h e w1).1.2, ev1 ++ (h e w1).2).
Proof. unfold try_except. intros ->. by destruct (h e w1) as [[??]?]. Qed.
End Monad.

Section Keeps.
Context {A B C : Type} (f : World -> C).

Lemma keeps_ret (a : A) : keeps f (retM a).
Proof. done. Qed.
Lemma keeps_raise e : keeps f (raise (A := A) e).
Proof. done. Qed.
Lemma keeps_lift (r : result A) : keeps f (lift r).
Proof. done. Qed.
Lemma keeps_emit e : keeps f (emit e).
Proof. done. Qed.
Lemma keeps_read (g : World -> A) : keeps f (read g).
Proof. done. Qed.
Lemma keeps_update (g : World -> World) :
  (forall w, f (g w) = f w) -> keeps f (update g).
Proof. intros H w. apply H. Qed.

Lemma keeps_bind (m : M A) (k : A -> M B) :
  keeps f m -> (forall a, keeps f (k a)) -> keeps f (bindM m k).
Proof.
  intros Hm Hk w. unfold bindM. specialize (Hm w).
  destruct (m w) as [[[a|e] w1] ev1]; simpl in *; [|done].
  specialize (Hk a w1). destruct (k a w1) as [[??]?]; simpl in *. congruence.
Qed.

Lemma keeps_try (m : M A) (h : exn -> M A) :
  keeps f m -> (forall e, keeps f (h e)) -> keeps f (try_except m h).
Proof.
  intros Hm Hh w. unfold try_except. specialize (Hm w).
  destruct (m w) as [[[a|e] w1] ev1]; simpl in *; [done|].
  specialize (Hh e w1). destruct (h e w1) as [[??]?]; simpl in *. congruence.
Qed.
End Keeps.

Create HintDb keeps.
#[local] Hint Resolve keeps_ret keeps_raise keeps_lift keeps_emit keeps_read
  keeps_bind keeps_try : keeps.

Ltac keeps_step :=
  first
    [ apply keeps_bind | apply keeps_try | apply keeps_ret | apply keeps_raise
    | apply keeps_lift | apply keeps_emit | apply keeps_read
    | apply keeps_update; done ].

Ltac keeps_auto := repeat (intros; first [ keeps_step | case_match ]).

(** ** The client keeps its hands off the coordinator *)

Lemma async_create_keeps_coordinator m t id :
  keeps coordinator (Notify.async_create m t id).
Proof. unfold Notify.async_create. keeps_auto. Qed.

Lemma async_dismiss_keeps_coordinator id :
  keeps coordinator (Notify.async_dismiss id).
Proof. unfold Notify.async_dismiss. keeps_auto. Qed.

#[local] Hint Resolve async_create_keeps_coordinator
  async_dismiss_keeps_coordinator : keeps.

Lemma api_wrapper_keeps_coordinator url h u :
  keeps coordinator (Api._api_wrapper url h u).
Proof.
  unfold Api._api_wrapper, Api._handle_error_responses,
    Api._parse_json_response, Api._handle_notification_dismissal,
    Api._handle_error_logging.
  keeps_auto; auto with keeps.
Qed.

Lemma async_get_data_keeps_coordinator h u :
  keeps coordinator (Api.async_get_data h u).
Proof.
  unfold Api.async_get_data. apply keeps_bind; [apply keeps_read|].
  intros c. apply api_wrapper_keeps_coordinator.
Qed.

(** Every call of the client requests the URL first. *)
Lemma api_wrapper_requests url h u w :
  exists ev, (Api._api_wrapper url h u w).2 = HttpGet url :: ev.
Proof.
  unfold Api._api_wrapper, try_except, bindM at 1, emit.
  destruct h as [|gai|r]; [by eexists|destruct gai; by eexists|].
  destruct (bindM _ _ w) as [[[a|e] w1] ev1]; [by eexists|].
  repeat case_match; simplify_eq; by eexists.
Qed.

Lemma async_get_data_requests h u w :
  exists url ev, (Api.async_get_data h u w).2 = HttpGet url :: ev.
Proof.
  unfold Api.async_get_data, bindM, read.
  destruct (api_wrapper_requests
    (Const.API_ENDPOINT (api_key (api w)) (latitude (api w)) (longitude (api w)))
    h u w) as [ev Hev].
  destruct (Api._api_wrapper _ h u w) as [[r w1] ev1]; simpl in *. subst. eauto.
Qed.

(** A request that times out or fails in the transport: the client logs an
    error and returns None. *)
Lemma async_get_data_timeout u w :
  Api.async_get_data Api.TimedOut u w =
    (Ret VNone, w,
     [ HttpGet (Const.API_ENDPOINT (api_key (api w)) (latitude (api w)) (longitude (api w)));
       Log ERROR "Timeout error fetching information from %s - %s" ]).
Proof. reflexivity. Qed.

Lemma async_get_data_transport gai u w :
  Api.async_get_data (Api.TransportError gai) u w =
    (Ret VNone, w,
     [ HttpGet (Const.API_ENDPOINT (api_key (api w)) (latitude (api w)) (longitude (api w)));
       Log ERROR "Error fetching information from %s - %s" ]).
Proof. by destruct gai. Qed.

(** ** The steps of [_async_update_data] *)

Import Coordinator.

Lemma schedule_next_update_run now d w :
  _schedule_next_update now d w =
    match scheduled (coordinator w) now d with
    | Ret ev => (Ret tt, w, ev)
    | Raise e => (Raise e, w, [])
    end.
Proof.
  unfold _schedule_next_update, scheduled, next_update_time, bindM at 1, read.
  destruct (last_update_time (coordinator w)) as [t|]; [|done].
  unfold bindM at 1, lift.
  destruct (timedelta (refresh_interval (coordinator w))) as [i|e]; [|done].
  unfold bindM at 1. cbn [mbind result_bind].
  destruct (__add__ t i) as [next|e]; [|done].
  cbn [mbind result_bind]. by destruct (now <? next).
Qed.

(** With the gate shut the call is a plain read of the data. *)
Lemma update_data_fresh env w :
  fresh w (now_gate env) ->
  _async_update_data env w = (Ret (data (coordinator w)), w, []).
Proof.
  intros (t & Ht & Hlt).
  unfold _async_update_data, bindM, read, _is_update_interval_passed. simpl.
  rewrite Ht. simpl.
  destruct (Z.leb_spec (t + seconds 600) (now_gate env)); [lia|done].
Qed.

Lemma update_data_due env w :
  due w (now_gate env) ->
  _async_update_data env w =
    try_except (fetch_body env)
      (fun _ => emit (Log ERROR "Error fetching KNMI data: %s") >> raise UpdateFailed) w.
Proof.
  intros Hdue.
  unfold _async_update_data at 1, bindM at 1, read, _is_update_interval_passed.
  simpl.
  assert (Hgate :
    match last_update_time (coordinator w) with None => true | Some _ => false end
    || match last_update_time (coordinator w) with
       | None => true
       | Some t => t + seconds 600 <=? now_gate env
       end = true).
  { destruct Hdue as [-> | (t & -> & Hle)]; [done|]. simpl. lia. }
  rewrite Hgate. unfold fetch_body.
  by destruct (try_except _ _ w) as [[??]?].
Qed.

Lemma fresh_or_due w now : fresh w now \/ due w now.
Proof.
  unfold fresh, due. destruct (last_update_time (coordinator w)) as [t|]; [|auto].
  destruct (Z.lt_ge_cases now (t + seconds 600)); [left|right; right]; eauto.
Qed.

Lemma fresh_not_due w now : fresh w now -> due w now -> False.
Proof.
  intros (t & Ht & Hlt) [Hn | (t' & Ht' & Hle)]; simplify_eq. lia.
Qed.

Lemma fetch_body_requests env w :
  exists url ev, (fetch_body env w).2 = HttpGet url :: ev.
Proof.
  unfold fetch_body, bindM at 1.
  destruct (async_get_data_requests (http env) (uuid env) w) as (url & ev & Hev).
  destruct (Api.async_get_data _ _ w) as [[[d|e] w1] ev1]; simpl in *; subst;
    [|by eauto].
  destruct (bindM _ _ w1) as [[??]?]. simpl. eauto.
Qed.

Lemma update_data_due_requests env w :
  due w (now_gate env) ->
  exists url ev, (_async_update_data env w).2 = HttpGet url :: ev.
Proof.
  intros Hdue. rewrite update_data_due by done. unfold try_except.
  destruct (fetch_body_requests env w) as (url & ev & Hev).
  destruct (fetch_body env w) as [[[d|e] w1] ev1]; simpl in *; subst; eauto.
Qed.

(** C1. The freshness gate: while last_update_time is set and fewer than
    600 seconds have passed since it, a refresh makes no HTTP request,
    changes nothing and returns the data the coordinator holds; a request
    is made exactly when last_update_time is unset or at least 600 seconds
    have passed. *)
Theorem freshness_gate (env : Env) (w : World) :
  (fresh w (now_gate env) ->
     _async_update_data env w = (Ret (data (coordinator w)), w, [])) /\
  (http_requests (_async_update_data env w).2 <> [] <-> due w (now_gate env)).
Proof.
  split; [apply update_data_fresh|]. split.
  - intros Hreq. destruct (fresh_or_due w (now_gate env)) as [Hf|]; [|done].
    rewrite update_data_fresh in Hreq by done. done.
  - intros Hdue. destruct (update_data_due_requests env w Hdue) as (url & ev & ->).
    done.
Qed.

(** ** The client and the quota notice *)

Lemma created_app ev1 ev2 : created (ev1 ++ ev2) = created ev1 ++ created ev2.
Proof. apply omap_app. Qed.

Lemma dismissed_app ev1 ev2 :
  dismissed (ev1 ++ ev2) = dismissed ev1 ++ dismissed ev2.
Proof. apply omap_app. Qed.

Lemma tasks_app ev1 ev2 : tasks (ev1 ++ ev2) = tasks ev1 ++ tasks ev2.
Proof. apply omap_app. Qed.

Lemma notice_step_events u w r ev ev' w' :
  notice_step u w r ev w' ->
  created ev' = created ev -> dismissed ev' = dismissed ev ->
  notice_step u w r ev' w'.
Proof.
  intros H Hc Hd. destruct H.
  - apply step_none; first [assumption | congruence].
  - apply step_create; first [assumption | congruence].
  - eapply step_dismiss; first [eassumption | congruence].
Qed.

Lemma notification_exists_id w :
  Api.notification_exists w = true -> is_Some (notification_id (api w)).
Proof.
  unfold Api.notification_exists.
  destruct (notification_id (api w)); [eauto|].
  by repeat case_match.
Qed.

Lemma handle_error_responses_run u text w :
  Api._handle_error_responses u text w =
    if Str.contains "Vraag eerst een API-key op" text
    then (Raise InvalidApiKeyError, w, [])
    else if Str.contains "Dagelijkse limiet" text then
      if Api.notification_exists w
      then (Raise RequestsExceededError, w, [])
      else (Raise RequestsExceededError, create_notice u w,
            [NotificationCreate quota_message quota_title u])
    else if Str.contains "De server ondervindt een probleem" text
    then (Raise KnmiApiException, w, [])
    else (Ret tt, w, []).
Proof.
  unfold Api._handle_error_responses, Notify.async_create.
  unfold bindM, retM, raise, emit, read, update.
  repeat case_match; simplify_eq; done.
Qed.

Lemma handle_notification_dismissal_run w :
  Api._handle_notification_dismissal w =
    match notification_id (api w) with
    | Some id =>
        if Api.notification_exists w
        then (Ret tt, dismiss_notice id w, [NotificationDismiss id])
        else (Ret tt, w, [])
    | None => (Ret tt, w, [])
    end.
Proof.
  unfold Api._handle_notification_dismissal, Notify.async_dismiss.
  unfold bindM, retM, emit, read, update.
  repeat case_match; simplify_eq; done.
Qed.

Lemma parse_json_response_run r w :
  exists res ev,
    Api._parse_json_response r w = (res, w, ev)
    /\ created ev = [] /\ dismissed ev = []
    /\ (forall e, res = Raise e -> e = ApiError).
Proof.
  unfold Api._parse_json_response, bindM, retM, raise, emit.
  repeat case_match; do 2 eexists; (split; [done|]); naive_solver.
Qed.

Lemma no_notice_step u w res ev :
  created ev = [] -> dismissed ev = [] ->
  res <> Raise RequestsExceededError ->
  (successful_result res -> Api.notification_exists w = false) ->
  notice_step u w res ev w.
Proof. intros Hc Hd Hres Hs. by apply step_none. Qed.

Lemma take_record_run u r w res w' ev :
  take_record r w = (res, w', ev) ->
  unhandled res /\ notice_step u w res ev w'.
Proof.
  unfold take_record.
  destruct (parse_json_response_run r w) as (res0 & ev0 & Hrun & Hc & Hd & Hres).
  unfold bindM at 1. rewrite Hrun.
  assert (Hfail : forall e, e = ApiError \/ e = IndexError \/ e = KeyError \/ e = TypeError ->
    unhandled (Raise e) /\ notice_step u w (Raise e) (ev0 ++ []) w).
  { intros e He. rewrite app_nil_r.
    split; [by destruct He as [->|[->|[->| ->]]]|].
    apply no_notice_step; try done; [|by intros (? & ? & ?)].
    by destruct He as [->|[->|[->| ->]]]. }
  destruct res0 as [data|e].
  { destruct data; try (intros [= <- <- <-]; apply Hfail; auto).
    destruct (d !! "liveweer") as [l|]; [|intros [= <- <- <-]; apply Hfail; auto].
    unfold bindM, lift.
    destruct (Py.item0 l) as [liveweer|e] eqn:Hitem.
    2:{ intros [= <- <- <-]. apply Hfail. revert Hitem. unfold Py.item0.
        repeat case_match; naive_solver. }
    destruct (Py.truthy liveweer) eqn:Htruthy; [|intros [= <- <- <-]; apply Hfail; auto].
    rewrite handle_notification_dismissal_run.
    destruct (notification_id (api w)) as [id|] eqn:Hid.
    - destruct (Api.notification_exists w) eqn:Hex; cbn; rewrite ?app_nil_r;
        intros [= <- <- <-]; (split; [done|]).
      + eapply step_dismiss; try done.
        * by exists liveweer.
        * rewrite created_app, Hc. done.
        * rewrite dismissed_app, Hd. done.
      + apply step_none; done.
    - cbn. rewrite ?app_nil_r. intros [= <- <- <-]. split; [done|].
      apply step_none; try done. intros _.
      destruct (Api.notification_exists w) eqn:Hex; [|done].
      apply notification_exists_id in Hex. rewrite Hid in Hex. by destruct Hex. }
  intros [= <- <- <-]. rewrite <- (app_nil_r ev0). apply Hfail. left. by apply Hres.
Qed.

Lemma api_wrapper_notice_step url h u w res w' ev :
  Api._api_wrapper url h u w = (res, w', ev) -> notice_step u w res ev w'.
Proof.
  unfold Api._api_wrapper, try_except, bindM at 1, emit.
  destruct h as [|gai|r].
  - intros [= <- <- <-]. apply no_notice_step; try done.
    by intros (? & [= <-] & ?).
  - destruct gai; intros [= <- <- <-]; (apply no_notice_step; try done;
      by intros (? & [= <-] & ?)).
  - fold (take_record r). unfold bindM at 1.
    rewrite handle_error_responses_run.
    destruct (Str.contains "Vraag eerst een API-key op" (Api.text r)).
    { intros [= <- <- <-]. apply no_notice_step; try done.
      by intros (? & ? & ?). }
    destruct (Str.contains "Dagelijkse limiet" (Api.text r)).
    { destruct (Api.notification_exists w) eqn:Hex; intros [= <- <- <-].
      - apply step_none; try done. by intros (? & ? & ?).
      - by apply step_create. }
    destruct (Str.contains "De server ondervindt een probleem" (Api.text r)).
    { intros [= <- <- <-]. apply no_notice_step; try done.
      by intros (? & ? & ?). }
    destruct (take_record r w) as [[res1 w1] ev1] eqn:Hrec.
    destruct (take_record_run u r w res1 w1 ev1 Hrec) as [Hun Hstep].
    destruct res1 as [a|e].
    { intros [= <- <- <-]. by eapply notice_step_events. }
    destruct e; try done; intros [= <- <- <-];
      (eapply notice_step_events; [done| |]);
      cbn; by rewrite ?created_app, ?dismissed_app, ?app_nil_r.
Qed.

Lemma async_get_data_notice_step h u w res w' ev :
  Api.async_get_data h u w = (res, w', ev) -> notice_step u w res ev w'.
Proof.
  unfold Api.async_get_data, bindM, read.
  destruct (Api._api_wrapper _ h u w) as [[res1 w1] ev1] eqn:Hw.
  intros [= <- <- <-]. by eapply api_wrapper_notice_step.
Qed.

(** ** At most one quota notice *)

Lemma registry_ok_dec w : registry_ok w \/ ~ registry_ok w.
Proof.
  unfold registry_ok. destruct (hass_data w !! Notify.KEY) as [[]|]; auto.
Qed.

Lemma registry_create m t u w :
  registry_ok w ->
  registry (set_hass_data (Notify.create m t u) w) =
    <[u := Notify.notice m t u]> (registry w).
Proof.
  unfold registry_ok, registry, set_hass_data, Notify.create. simpl.
  destruct (hass_data w !! Notify.KEY) as [[]|] eqn:E; try done; intros _.
  - by rewrite lookup_insert_eq.
  - rewrite lookup_insert_eq. by rewrite insert_empty.
Qed.

Lemma registry_create_bad m t u w :
  ~ registry_ok w -> registry (set_hass_data (Notify.create m t u) w) = ∅.
Proof.
  unfold registry_ok, registry, set_hass_data, Notify.create. simpl.
  destruct (hass_data w !! Notify.KEY) as [[]|] eqn:E; try done; intros _.
  all: by rewrite E.
Qed.

Lemma registry_dismiss id w :
  registry (set_hass_data (Notify.dismiss id) w) = delete id (registry w).
Proof.
  unfold registry, set_hass_data, Notify.dismiss. simpl.
  destruct (hass_data w !! Notify.KEY) as [[]|] eqn:E; rewrite ?E; try done.
  by rewrite lookup_insert_eq.
Qed.

Lemma registry_set_notification_id n w :
  registry (set_notification_id n w) = registry w.
Proof. done. Qed.

Lemma elem_of_active id w :
  id ∈ active w <-> exists v, registry w !! id = Some v /\ Py.is_none v = false.
Proof.
  unfold active. rewrite elem_of_dom. unfold is_Some.
  setoid_rewrite map_lookup_filter_Some. naive_solver.
Qed.

Lemma notification_exists_active w :
  Api.notification_exists w = true <->
  exists id, notification_id (api w) = Some id /\ id ∈ active w.
Proof.
  setoid_rewrite elem_of_active.
  unfold Api.notification_exists, registry, Py.dict_get.
  destruct (notification_id (api w)) as [id|].
  - destruct (hass_data w !! Notify.KEY) as [[]|]; simpl;
      try (split; [done|intros (? & ? & ? & ? & ?); simplify_map_eq]).
    destruct (d !! id) as [v|] eqn:E; simpl.
    + destruct (Py.is_none v) eqn:Hv; split; try done.
      * intros (? & ? & ? & ? & ?). simplify_eq. congruence.
      * intros _. eauto.
    + split; [done|]. intros (? & ? & ? & ? & ?). simplify_eq.
  - split; [|by intros (? & ? & ?)].
    by repeat case_match.
Qed.

Lemma active_create u w :
  active (create_notice u w) ⊆ active w ∪ {[ u ]}.
Proof.
  intros id. rewrite elem_of_union, elem_of_singleton, !elem_of_active.
  unfold create_notice.
  destruct (registry_ok_dec (set_notification_id (Some u) w)) as [Hok|Hbad].
  - rewrite registry_create by done. rewrite registry_set_notification_id.
    destruct (decide (u = id)) as [->|Hne]; [auto|].
    rewrite lookup_insert_ne by done. auto.
  - rewrite registry_create_bad by done. intros (? & ? & ?). simplify_map_eq.
Qed.

Lemma active_create_ok u w :
  registry_ok w -> u ∈ active (create_notice u w).
Proof.
  intros Hok. rewrite elem_of_active. unfold create_notice.
  rewrite registry_create by done. rewrite lookup_insert_eq. eauto.
Qed.

Lemma active_dismiss id w :
  active (dismiss_notice id w) ⊆ active w ∖ {[ id ]}.
Proof.
  intros i. rewrite elem_of_difference, elem_of_singleton, !elem_of_active.
  unfold dismiss_notice. rewrite registry_set_notification_id, registry_dismiss.
  intros (v & Hv & Hn). apply lookup_delete_Some in Hv as [Hne Hv]. split; eauto.
Qed.

Lemma stored_id_create u w : stored_id (create_notice u w) = {[ u ]}.
Proof. done. Qed.

Lemma stored_id_dismiss id w : stored_id (dismiss_notice id w) = ∅.
Proof. done. Qed.

Lemma not_exists_disjoint w :
  Api.notification_exists w = false -> stored_id w ∩ active w = ∅.
Proof.
  intros Hex. apply set_eq. intros id. split; [|set_solver].
  intros [Hs Ha]%elem_of_intersection. exfalso.
  unfold stored_id in Hs. destruct (notification_id (api w)) as [i|] eqn:Hi;
    [|set_solver].
  apply elem_of_singleton in Hs as ->.
  assert (Api.notification_exists w = true); [|congruence].
  apply notification_exists_active. eauto.
Qed.

Lemma notice_step_invariant (C : gset string) u w r ev w' :
  notice_step u w r ev w' ->
  C ∩ active w ⊆ stored_id w ->
  (C ∪ list_to_set (created ev)) ∩ active w' ⊆ stored_id w'.
Proof.
  intros Hstep Hinv. destruct Hstep as [ev Hc|ev Hex Hr Hc|ev id Hid Hex Hr Hc Hd].
  - rewrite Hc. set_solver.
  - rewrite Hc, stored_id_create.
    pose proof (active_create u w). pose proof (not_exists_disjoint w Hex).
    set_solver.
  - rewrite Hc, stored_id_dismiss.
    pose proof (active_dismiss id w).
    assert (stored_id w = {[ id ]}) by (unfold stored_id; by rewrite Hid).
    set_solver.
Qed.

Lemma fetches_invariant l : forall (C : gset string) w,
  C ∩ active w ⊆ stored_id w ->
  (C ∪ list_to_set (created (fetches l w).2)) ∩ active (fetches l w).1
    ⊆ stored_id (fetches l w).1.
Proof.
  induction l as [|[h u] l IH]; intros C w Hinv; simpl.
  - set_solver.
  - destruct (Api.async_get_data h u w) as [[r w1] ev1] eqn:Hrun.
    pose proof (notice_step_invariant C u w r ev1 w1
                  (async_get_data_notice_step _ _ _ _ _ _ Hrun) Hinv) as H1.
    specialize (IH _ _ H1).
    destruct (fetches l w1) as [w2 ev2]. simpl in *.
    rewrite created_app, list_to_set_app_L. set_solver.
Qed.

Lemma stored_id_size w : (size (stored_id w) <= 1)%nat.
Proof.
  unfold stored_id. destruct (notification_id (api w)).
  - rewrite size_singleton. lia.
  - rewrite size_empty. lia.
Qed.

Lemma quota_exceeded_run h u w :
  quota_exceeded h ->
  exists ev, created ev = [] /\ dismissed ev = [] /\
    Api.async_get_data h u w =
      if Api.notification_exists w
      then (Raise RequestsExceededError, w, ev)
      else (Raise RequestsExceededError, create_notice u w,
            ev ++ [NotificationCreate quota_message quota_title u;
                   Log ERROR "API Call Limit! - %s"]).
Proof.
  destruct h as [| |r]; try done. intros [Hkey Hlimit].
  unfold Api.async_get_data, bindM at 1, read, Api._api_wrapper, try_except,
    bindM at 1, emit, bindM at 1.
  rewrite handle_error_responses_run, Hkey, Hlimit.
  destruct (Api.notification_exists w); eexists; (split; [|split]); [| |done|..];
    try done.
  instantiate (1 := [HttpGet _]). all: done.
Qed.

(** C5. Over every sequence of fetches at most one quota notice is live,
    and it is the one whose id the client stores; two responses in a row
    with the quota message create one notice, the second none; the next
    successful fetch dismisses the notice and clears the stored id. *)
Theorem quota_notice_at_most_one :
  (forall l w,
     live_quota_notices (fetches l w).2 (fetches l w).1 ⊆ stored_id (fetches l w).1
     /\ (size (live_quota_notices (fetches l w).2 (fetches l w).1) <= 1)%nat)
  /\ (forall h1 u1 h2 u2 w,
        registry_ok w -> Api.notification_exists w = false ->
        quota_exceeded h1 -> quota_exceeded h2 ->
        let o := fetches [(h1, u1); (h2, u2)] w in
        created o.2 = [u1]
        /\ notification_id (api o.1) = Some u1
        /\ Api.notification_exists o.1 = true
        /\ live_quota_notices o.2 o.1 = {[ u1 ]})
  /\ (forall h u w,
        Api.notification_exists w = true ->
        successful (Api.async_get_data h u w) ->
        let o := Api.async_get_data h u w in
        exists id,
          notification_id (api w) = Some id
          /\ dismissed o.2 = [id]
          /\ notification_id (api o.1.2) = None
          /\ Api.notification_exists o.1.2 = false
          /\ id ∉ active o.1.2).
Proof.
  split; [|split].
  - intros l w.
    assert (H : live_quota_notices (fetches l w).2 (fetches l w).1
                ⊆ stored_id (fetches l w).1).
    { unfold live_quota_notices.
      pose proof (fetches_invariant l ∅ w) as H.
      rewrite union_empty_l_L in H. apply H. set_solver. }
    split; [done|]. etrans; [apply subseteq_size, H|apply stored_id_size].
  - intros h1 u1 h2 u2 w Hok Hex H1 H2. simpl.
    destruct (quota_exceeded_run h1 u1 w H1) as (ev1 & Hc1 & Hd1 & ->).
    rewrite Hex.
    assert (Hex1 : Api.notification_exists (create_notice u1 w) = true).
    { apply notification_exists_active. exists u1. split; [done|].
      by apply active_create_ok. }
    destruct (quota_exceeded_run h2 u2 (create_notice u1 w) H2)
      as (ev2 & Hc2 & Hd2 & ->).
    rewrite Hex1. simpl. rewrite app_nil_r.
    assert (Hc : created ((ev1 ++
        [NotificationCreate quota_message quota_title u1;
         Log ERROR "API Call Limit! - %s"]) ++ ev2) = [u1]).
    { rewrite !created_app, Hc1, Hc2. done. }
    repeat split; try done.
    unfold live_quota_notices. rewrite Hc.
    pose proof (active_create_ok u1 w Hok). set_solver.
  - intros h u w Hex Hs. simpl.
    destruct (Api.async_get_data h u w) as [[r w'] ev] eqn:Hrun.
    pose proof (async_get_data_notice_step _ _ _ _ _ _ Hrun) as Hstep.
    unfold successful in Hs. cbn [fst snd] in *.
    destruct Hstep as [ev Hc Hd Hr Hsucc|ev Hex' Hr Hc|ev id Hid Hex' Hr Hc Hd].
    + specialize (Hsucc Hs). congruence.
    + congruence.
    + exists id. split; [done|]. split; [done|]. split; [done|]. split.
      * destruct (Api.notification_exists (dismiss_notice id w)) eqn:E; [|done].
        apply notification_exists_id in E. by destruct E.
      * pose proof (active_dismiss id w). set_solver.
Qed.

(** ** The guarded fetch, step by step *)

Lemma update_timestamp_run d now w :
  _update_timestamp (VWeatherData d) now w =
    match d !! "timestamp" with
    | None => (Raise AttributeError, w, [])
    | Some ts => stamp ts now w
    end.
Proof.
  unfold _update_timestamp, stamp, fallback, timestamp_warning.
  cbn [Py.truthy Py.getattr]. unfold bindM at 1, lift.
  destruct (d !! "timestamp") as [ts|]; [|done].
  destruct (Py.is_none ts); [done|].
  unfold try_except, bindM at 1, lift.
  destruct (Py.int ts) as [n|e]; [|by destruct e].
  unfold bindM at 1, update, bindM at 1, lift.
  destruct (fromtimestamp n) as [t|e]; [done|by destruct e].
Qed.

(** [_update_timestamp] touches the two timestamps of the coordinator and
    nothing else, and creates no task. *)
Lemma stamp_frame ts now w r w' ev :
  stamp ts now w = (r, w', ev) ->
  hass_data w' = hass_data w /\ api w' = api w
  /\ data (coordinator w') = data (coordinator w)
  /\ config_entry (coordinator w') = config_entry (coordinator w)
  /\ refresh_interval (coordinator w') = refresh_interval (coordinator w)
  /\ update_interval (coordinator w') = update_interval (coordinator w)
  /\ tasks ev = [].
Proof.
  unfold stamp. destruct (Py.is_none ts); [by intros [= <- <- <-]|].
  destruct (Py.int ts) as [n|e].
  - destruct (fromtimestamp n) as [t|e]; [by intros [= <- <- <-]|].
    destruct e; by intros [= <- <- <-].
  - destruct e; by intros [= <- <- <-].
Qed.

Lemma next_update_time_ret c t next :
  next_update_time c t = Ret next ->
  next = t + seconds (refresh_interval c)
  /\ min_datetime <= next <= max_datetime.
Proof.
  unfold next_update_time, timedelta, __add__.
  destruct (_ && _); [|done]. cbn [mbind result_bind].
  destruct (_ && _) eqn:Hb; [|done]. intros [= <-].
  apply andb_true_iff in Hb as [H1%Z.leb_le H2%Z.leb_le]. done.
Qed.

Lemma next_update_time_raise c t e :
  next_update_time c t = Raise e -> e = OverflowError.
Proof.
  unfold next_update_time, timedelta, __add__.
  destruct (_ && _); [|by intros [= <-]]. cbn [mbind result_bind].
  destruct (_ && _); [done|by intros [= <-]].
Qed.

Lemma randint_bounds d a b : a <= b -> a <= Random.randint d a b <= b.
Proof.
  intros Hab. unfold Random.randint.
  pose proof (Z.mod_pos_bound d (b - a + 1)). lia.
Qed.

Lemma WeatherData_ret data wd :
  Model.WeatherData data = Ret wd ->
  exists d ts, data = VDict d /\ wd = VWeatherData d /\ d !! "timestamp" = Some ts.
Proof.
  unfold Model.WeatherData. destruct data; try done.
  case_bool_decide as Hdom; [|done]. intros [= <-].
  assert (Hin : "timestamp" ∈ dom d).
  { rewrite Hdom. apply elem_of_list_to_set. unfold Model.fields.
    apply list_elem_of_In. simpl. auto. }
  apply elem_of_dom in Hin as [ts Hts]. eauto.
Qed.

Section Emits.
Context {A B : Type} (P : event -> Prop).

Lemma emits_ret (a : A) : emits P (retM a).
Proof. intros w. constructor. Qed.
Lemma emits_raise e : emits P (raise (A := A) e).
Proof. intros w. constructor. Qed.
Lemma emits_lift (r : result A) : emits P (lift r).
Proof. intros w. constructor. Qed.
Lemma emits_read (g : World -> A) : emits P (read g).
Proof. intros w. constructor. Qed.
Lemma emits_update (g : World -> World) : emits P (update g).
Proof. intros w. constructor. Qed.
Lemma emits_emit e : P e -> emits P (emit e).
Proof. intros H w. by repeat constructor. Qed.

Lemma emits_bind (m : M A) (k : A -> M B) :
  emits P m -> (forall a, emits P (k a)) -> emits P (bindM m k).
Proof.
  intros Hm Hk w. unfold bindM. specialize (Hm w).
  destruct (m w) as [[[a|e] w1] ev1]; simpl in *; [|done].
  specialize (Hk a w1). destruct (k a w1) as [[??]?]; simpl in *.
  by apply Forall_app.
Qed.

Lemma emits_try (m : M A) (h : exn -> M A) :
  emits P m -> (forall e, emits P (h e)) -> emits P (try_except m h).
Proof.
  intros Hm Hh w. unfold try_except. specialize (Hm w).
  destruct (m w) as [[[a|e] w1] ev1]; simpl in *; [done|].
  specialize (Hh e w1). destruct (h e w1) as [[??]?]; simpl in *.
  by apply Forall_app.
Qed.
End Emits.

Ltac emits_step :=
  first
    [ apply emits_bind | apply emits_try | apply emits_ret | apply emits_raise
    | apply emits_lift | apply emits_read | apply emits_update
    | apply emits_emit; done ].

Ltac emits_auto := repeat (intros; first [ emits_step | case_match ]).

Lemma async_get_data_no_task h u : emits not_task (Api.async_get_data h u).
Proof.
  unfold Api.async_get_data, Api._api_wrapper, Api._handle_error_responses,
    Api._parse_json_response, Api._handle_notification_dismissal,
    Api._handle_error_logging, Notify.async_create, Notify.async_dismiss.
  emits_auto.
Qed.

Lemma not_task_tasks ev : Forall not_task ev -> tasks ev = [].
Proof.
  induction 1 as [|e ev He _ IH]; [done|]. destruct e; cbn; done.
Qed.

Lemma update_timestamp_no_task v now : emits not_task (_update_timestamp v now).
Proof. unfold _update_timestamp. emits_auto. Qed.

(** The run of the statements inside the [try] of [_async_update_data]. *)
Lemma fetch_body_run env w r1 w1 ev1 :
  Api.async_get_data (http env) (uuid env) w = (r1, w1, ev1) ->
  fetch_body env w =
    match r1 with
    | Raise e => (Raise e, w1, ev1)
    | Ret data =>
        match Model.WeatherData data with
        | Raise e => (Raise e, w1, ev1)
        | Ret wd =>
            match _update_timestamp wd (now_stamp env)
                    (set_coordinator (with_data wd) w1) with
            | (Raise e, w3, ev3) => (Raise e, w3, ev1 ++ ev3)
            | (Ret _, w3, ev3) =>
                match scheduled (coordinator w3) (now_sched env) (draw env) with
                | Ret ev4 => (Ret data, w3, ev1 ++ ev3 ++ ev4)
                | Raise e => (Raise e, w3, ev1 ++ ev3)
                end
            end
        end
    end.
Proof.
  intros Hrun. unfold fetch_body, bindM at 1. rewrite Hrun.
  destruct r1 as [data|e]; [|done].
  unfold bindM at 1, lift.
  destruct (Model.WeatherData data) as [wd|e]; [|by rewrite app_nil_r].
  unfold bindM at 1, update. unfold bindM at 1.
  destruct (_update_timestamp wd _ _) as [[[[]|e] w3] ev3]; [|done].
  unfold bindM. rewrite schedule_next_update_run.
  destruct (scheduled _ _ _) as [ev4|e]; cbn; by rewrite ?app_nil_r.
Qed.

(** A fetch brings a complete record, or the constructor of the dataclass
    refuses what it brings. *)
Lemma record_or_not (r1 : result pyval) :
  (exists d ts, r1 = Ret (VDict d) /\ dom d = list_to_set Model.fields
                /\ d !! "timestamp" = Some ts)
  \/ (forall d, r1 = Ret (VDict d) -> dom d <> list_to_set Model.fields).
Proof.
  destruct r1 as [data|e]; [|by right].
  destruct (Model.WeatherData data) as [wd|e] eqn:HW.
  - left. destruct (WeatherData_ret _ _ HW) as (d & ts & -> & -> & Hts).
    unfold Model.WeatherData in HW. case_bool_decide; [|done]. eauto.
  - right. intros d [= ->] Hdom. unfold Model.WeatherData in HW.
    by rewrite bool_decide_true in HW.
Qed.

(** The refresh with the gate open: without a complete record, and with
    one. *)
Lemma update_data_no_record env w r1 w1 ev1 :
  due w (now_gate env) ->
  Api.async_get_data (http env) (uuid env) w = (r1, w1, ev1) ->
  (forall d, r1 = Ret (VDict d) -> dom d <> list_to_set Model.fields) ->
  _async_update_data env w = (Raise UpdateFailed, w1, ev1 ++ [fetch_error]).
Proof.
  intros Hdue Hget Hno. rewrite update_data_due by done.
  unfold try_except. rewrite (fetch_body_run env w _ _ _ Hget).
  destruct r1 as [data|e1]; [|done].
  destruct (Model.WeatherData data) as [wd|e1] eqn:HW; [|done].
  destruct (WeatherData_ret _ _ HW) as (d & ts & -> & -> & Hts).
  unfold Model.WeatherData in HW. case_bool_decide as Hdom; [|done].
  by destruct (Hno d).
Qed.

Lemma update_data_record env w d ts w1 ev1 :
  due w (now_gate env) ->
  Api.async_get_data (http env) (uuid env) w = (Ret (VDict d), w1, ev1) ->
  dom d = list_to_set Model.fields ->
  d !! "timestamp" = Some ts ->
  _async_update_data env w =
    match stamp ts (now_stamp env)
            (set_coordinator (with_data (VWeatherData d)) w1) with
    | (Raise e, w3, ev3) => (Raise UpdateFailed, w3, (ev1 ++ ev3) ++ [fetch_error])
    | (Ret _, w3, ev3) =>
        match scheduled (coordinator w3) (now_sched env) (draw env) with
        | Ret ev4 => (Ret (VDict d), w3, ev1 ++ ev3 ++ ev4)
        | Raise e => (Raise UpdateFailed, w3, (ev1 ++ ev3) ++ [fetch_error])
        end
    end.
Proof.
  intros Hdue Hget Hdom Hts. rewrite update_data_due by done.
  unfold try_except. rewrite (fetch_body_run env w _ _ _ Hget).
  unfold Model.WeatherData. rewrite bool_decide_true by done.
  rewrite update_timestamp_run, Hts.
  destruct (stamp _ _ _) as [[[[]|e3] w3] ev3]; [|done].
  by destruct (scheduled _ _ _).
Qed.

(** C3, as the code has it.  A request that times out or fails in the
    transport: the client logs the error and returns None without raising,
    the data and last_update_time of the coordinator stay as they were, yet
    the refresh itself fails with UpdateFailed, the constructor of the
    dataclass refusing None. *)
Theorem timeout_surfaces_as_update_failed (env : Env) (w : World) :
  due w (now_gate env) ->
  http env = Api.TimedOut \/ (exists gai, http env = Api.TransportError gai) ->
  exists url msg,
    Api.async_get_data (http env) (uuid env) w
      = (Ret VNone, w, [HttpGet url; Log ERROR msg])
    /\ _async_update_data env w
      = (Raise UpdateFailed, w,
         [HttpGet url; Log ERROR msg; Log ERROR "Error fetching KNMI data: %s"]).
Proof.
  intros Hdue Hhttp. rewrite update_data_due by done.
  assert (Hrun : exists url msg,
    Api.async_get_data (http env) (uuid env) w
      = (Ret VNone, w, [HttpGet url; Log ERROR msg])).
  { destruct Hhttp as [-> | [gai ->]].
    - rewrite async_get_data_timeout. eauto.
    - rewrite async_get_data_transport. eauto. }
  destruct Hrun as (url & msg & Hrun). exists url, msg. split; [done|].
  unfold try_except. by rewrite (fetch_body_run env w _ _ _ Hrun).
Qed.

(** What [_update_timestamp] makes of the timestamp [ts]: the result, and
    last_update_time after it. *)
Lemma stamp_table ts now w r w3 ev3 :
  stamp ts now w = (r, w3, ev3) ->
  if Py.is_none ts
  then r = Ret tt /\ w3 = w
  else
    match n ← Py.int ts; fromtimestamp n with
    | Ret t => r = Ret tt /\ last_update_time (coordinator w3) = Some t
    | Raise ValueError =>
        r = Ret tt /\ last_update_time (coordinator w3) = Some now
        /\ _timestamp (coordinator w3) = None
        /\ timestamp_warning ∈ ev3
    | Raise e =>
        r = Raise e
        /\ last_update_time (coordinator w3) = last_update_time (coordinator w)
    end.
Proof.
  unfold stamp. destruct (Py.is_none ts); [by intros [= <- <- <-]|].
  destruct (Py.int ts) as [n|e]; cbn [mbind result_bind].
  - destruct (fromtimestamp n) as [t|e]; [by intros [= <- <- <-]|].
    destruct e; intros [= <- <- <-]; repeat split; by apply list_elem_of_singleton.
  - destruct e; intros [= <- <- <-]; repeat split; by apply list_elem_of_singleton.
Qed.

Lemma scheduled_raise c now d e :
  scheduled c now d = Raise e ->
  exists t, last_update_time c = Some t
            /\ next_update_time c t = Raise OverflowError.
Proof.
  unfold scheduled. destruct (last_update_time c) as [t|]; [|done].
  destruct (next_update_time c t) as [next|e'] eqn:Hn; [done|].
  intros _. pose proof (next_update_time_raise _ _ _ Hn) as ->. eauto.
Qed.

Lemma scheduled_ret c now d ev :
  scheduled c now d = Ret ev ->
  match last_update_time c with
  | None => ev = []
  | Some t =>
      exists next,
        next_update_time c t = Ret next
        /\ ev = if now <? next
                then [CreateTask (next - now + seconds (Random.randint d 1 60))]
                else []
  end.
Proof.
  unfold scheduled. destruct (last_update_time c) as [t|]; [|by intros [= <-]].
  destruct (next_update_time c t) as [next|e']; [|done].
  intros [= <-]. eauto.
Qed.

(** C9, as the code has it.  A refresh changes last_update_time only when
    its fetch returns a complete record whose timestamp is not None: then it
    is the datetime of that timestamp, or the current time, with a warning,
    when [int] or [datetime.fromtimestamp] raises ValueError on it, and it
    stays as it was, the refresh failing, when they raise anything else.  A
    refresh the gate skips changes nothing.  A refresh that raises has
    changed last_update_time only when the addition of refresh_interval to
    the new last_update_time overflowed in the scheduling step. *)
Theorem last_update_time_from_snapshot (env : Env) (w : World) :
  let o := _async_update_data env w in
  let f := Api.async_get_data (http env) (uuid env) w in
  let before := last_update_time (coordinator w) in
  let after := last_update_time (coordinator o.1.2) in
  (fresh w (now_gate env) -> o.1.2 = w)
  /\ (forall d ts,
        due w (now_gate env) ->
        f.1.1 = Ret (VDict d) -> dom d = list_to_set Model.fields ->
        d !! "timestamp" = Some ts ->
        if Py.is_none ts then after = before
        else
          match n ← Py.int ts; fromtimestamp n with
          | Ret t => after = Some t
          | Raise ValueError =>
              after = Some (now_stamp env) /\ timestamp_warning ∈ o.2
          | Raise _ => after = before /\ o.1.1 = Raise UpdateFailed
          end)
  /\ (after <> before ->
        due w (now_gate env)
        /\ exists d ts,
             f.1.1 = Ret (VDict d) /\ dom d = list_to_set Model.fields
             /\ d !! "timestamp" = Some ts /\ Py.is_none ts = false)
  /\ (forall e, o.1.1 = Raise e -> after <> before ->
        exists t, after = Some t
                  /\ next_update_time (coordinator o.1.2) t = Raise OverflowError)
  /\ (forall v, o.1.1 = Ret v -> due w (now_gate env) ->
        exists d ts, v = VDict d /\ f.1.1 = Ret v /\ d !! "timestamp" = Some ts).
Proof.
  cbn zeta.
  destruct (fresh_or_due w (now_gate env)) as [Hfresh|Hdue].
  { rewrite update_data_fresh by done. simpl.
    split; [done|]. split; [intros ???; by destruct (fresh_not_due _ _ Hfresh)|].
    split; [done|]. split; [done|].
    intros ? _ ?; by destruct (fresh_not_due _ _ Hfresh). }
  split; [intros Hfresh; by destruct (fresh_not_due _ _ Hfresh)|].
  destruct (Api.async_get_data (http env) (uuid env) w) as [[r1 w1] ev1] eqn:Hget.
  pose proof (async_get_data_keeps_coordinator (http env) (uuid env) w) as Hkeep.
  rewrite Hget in Hkeep. simpl in Hkeep. cbn [fst snd].
  destruct (record_or_not r1) as [(d & ts & -> & Hdom & Hts)|Hno]; cycle 1.
  { rewrite (update_data_no_record env w _ _ _ Hdue Hget Hno). cbn [fst snd].
    rewrite Hkeep.
    split; [intros d ts _ Hd Hdom; by destruct (Hno d)|].
    split; [done|]. split; [done|]. done. }
  rewrite (update_data_record env w d ts _ _ Hdue Hget Hdom Hts).
  destruct (stamp ts (now_stamp env) _) as [[r3 w3] ev3] eqn:Hst.
  pose proof (stamp_table _ _ _ _ _ _ Hst) as Htab.
  cbn [coordinator set_coordinator last_update_time with_data] in Htab.
  rewrite Hkeep in Htab.
  assert (Hcases :
    (exists ev4, r3 = Ret tt
       /\ scheduled (coordinator w3) (now_sched env) (draw env) = Ret ev4)
    \/ (exists e4, r3 = Ret tt
       /\ scheduled (coordinator w3) (now_sched env) (draw env) = Raise e4)
    \/ (exists e3, r3 = Raise e3)).
  { destruct r3 as [[]|e3]; [|by eauto].
    destruct (scheduled _ _ _) as [ev4|e4]; eauto. }
  split; [|split; [|split]].
  - intros d' ts' _ [= <-] _ Hts'. rewrite Hts in Hts'. injection Hts' as <-.
    destruct (Py.is_none ts).
    { destruct Htab as [-> ->].
      destruct (scheduled _ _ _); simpl; by rewrite Hkeep. }
    destruct (n ← Py.int ts; fromtimestamp n) as [t|e].
    { destruct Htab as [-> Ht]. by destruct (scheduled _ _ _). }
    destruct e;
      try (destruct Htab as [-> Ht]; cbn [fst snd]; by split).
    destruct Htab as (-> & Ht & _ & Hw).
    destruct (scheduled _ _ _); cbn [fst snd]; (split; [done|]);
      rewrite !elem_of_app; auto.
  - intros Hmoved. split; [done|]. exists d, ts. repeat split; try done.
    destruct (Py.is_none ts); [|done]. destruct Htab as [-> ->].
    destruct Hmoved. destruct (scheduled _ _ _); simpl; by rewrite Hkeep.
  - intros e. destruct Hcases as [(ev4 & -> & ->)|[(e4 & -> & Hs)|(e3 & ->)]].
    + done.
    + rewrite Hs. cbn [fst snd]. intros _ _.
      by apply scheduled_raise in Hs.
    + cbn [fst snd]. intros _ Hmoved. destruct Hmoved.
      destruct (Py.is_none ts); [by destruct Htab|].
      destruct (n ← Py.int ts; fromtimestamp n) as [t|e'];
        [by destruct Htab|].
      destruct e'; by destruct Htab as [? ?].
  - intros v Hv _. exists d, ts.
    destruct Hcases as [(ev4 & -> & Hs)|[(e4 & -> & Hs)|(e3 & ->)]];
      [|by rewrite Hs in Hv|done].
    rewrite Hs in Hv. by injection Hv as <-.
Qed.


(** A refresh that raises after it has changed last_update_time: the fetch
    of the sample record by a coordinator whose refresh_interval is
    300000000000 seconds. *)
Lemma failed_refresh_changes_last_update_time :
  let env := sample_env sample_record_response sample_now in
  let w := set_coordinator (with_refresh_interval 300000000000) (sample_world VNone) in
  due w (now_gate env)
  /\ (_async_update_data env w).1.1 = Raise UpdateFailed
  /\ last_update_time (coordinator w) = None
  /\ last_update_time (coordinator (_async_update_data env w).1.2)
     = Some (seconds 1689469384).
Proof.
  cbn zeta. split; [by left|]. by vm_compute.
Qed.

(** ** The existence test of the notice *)

(** C10. [notification_exists] is a total function to the booleans, so it
    returns on every world and raises on none.  It is False when no id is
    stored, when [hass.data] has no entry for the notices, and when that
    entry is not a dictionary; it is True only when the stored id is a key
    of the dictionary; and it is False again once the dismissal has run. *)
Theorem notification_exists_total (w : World) :
  (notification_id (api w) = None -> Api.notification_exists w = false)
  /\ (hass_data w !! Notify.KEY = None -> Api.notification_exists w = false)
  /\ (forall v, hass_data w !! Notify.KEY = Some v ->
        (forall d, v <> VDict d) -> Api.notification_exists w = false)
  /\ (Api.notification_exists w = true ->
        exists id d,
          notification_id (api w) = Some id
          /\ hass_data w !! Notify.KEY = Some (VDict d)
          /\ id ∈ dom d)
  /\ Api.notification_exists (Api._handle_notification_dismissal w).1.2 = false.
Proof.
  split; [|split; [|split; [|split]]].
  - intros Hid. destruct (Api.notification_exists w) eqn:E; [|done].
    apply notification_exists_id in E. rewrite Hid in E. by destruct E.
  - unfold Api.notification_exists. intros ->. simpl.
    by destruct (notification_id (api w)).
  - unfold Api.notification_exists. intros v -> Hv. simpl.
    destruct v; try done. by destruct (Hv d).
  - unfold Api.notification_exists, Py.dict_get.
    destruct (notification_id (api w)) as [id|].
    + destruct (hass_data w !! Notify.KEY) as [[]|]; simpl; try done.
      destruct (d !! id) as [v|] eqn:E; [|done]. intros _.
      exists id, d. repeat split. apply elem_of_dom. eauto.
    + by repeat case_match.
  - rewrite handle_notification_dismissal_run.
    destruct (notification_id (api w)) as [id|] eqn:Hid.
    + destruct (Api.notification_exists w) eqn:E; [|done]. simpl.
      destruct (Api.notification_exists (dismiss_notice id w)) eqn:E'; [|done].
      apply notification_exists_id in E'. by destruct E'.
    + simpl. destruct (Api.notification_exists w) eqn:E; [|done].
      apply notification_exists_id in E. rewrite Hid in E. by destruct E.
Qed.

(** ** The refresh interval after setup *)

Lemma keeps_compose {A C D} (f : World -> C) (g : C -> D) (m : M A) :
  keeps f m -> keeps (fun w => g (f w)) m.
Proof. intros H w. by rewrite H. Qed.

Lemma update_data_keeps_refresh_interval env :
  keeps (fun w => refresh_interval (coordinator w)) (_async_update_data env).
Proof.
  unfold _async_update_data.
  apply keeps_bind; [apply keeps_read|]. intros c.
  case_match; [|apply keeps_ret].
  apply keeps_try; [|keeps_auto].
  apply keeps_bind.
  { apply (keeps_compose coordinator refresh_interval).
    apply async_get_data_keeps_coordinator. }
  unfold _update_timestamp, _schedule_next_update. keeps_auto.
Qed.

(** C4, as the code has it.  With no "refresh_interval" among the options
    the constructor of the coordinator takes the default of 600 seconds from
    [_get_refresh_interval], and setup then overwrites it with its own
    fallback of 300 seconds, whatever the first refresh does. *)
Theorem setup_refresh_interval (hd : gmap string pyval) (entry : ConfigEntry)
    (key lat lon : string) (env : Env) :
  options entry !! "refresh_interval" = None ->
  _get_refresh_interval entry None = Const.DATA_REFRESH_INTERVAL
  /\ refresh_interval (__init__ entry) = 600
  /\ update_interval (__init__ entry) = seconds 600
  /\ refresh_interval
       (coordinator (Init.async_setup_entry hd entry key lat lon env).1.2) = 300.
Proof.
  intros Hopt.
  assert (H600 : _get_refresh_interval entry None = 600).
  { unfold _get_refresh_interval. by rewrite Hopt. }
  split; [done|]. split; [done|]. split; [by simpl; rewrite H600|].
  unfold Init.async_setup_entry. rewrite Hopt. cbn [default negb Z.eqb].
  match goal with |- context [bindM ?m ?k ?w0] =>
    assert (Hk : keeps (fun w => refresh_interval (coordinator w)) (bindM m k));
    [|by rewrite (Hk w0)]
  end.
  apply keeps_bind; [|intros; apply keeps_ret].
  unfold Init.async_config_entry_first_refresh.
  apply keeps_try; [|intros; apply keeps_raise].
  apply keeps_bind; [apply update_data_keeps_refresh_interval|].
  intros. by apply keeps_update.
Qed.

(** ** The range tables *)

Import Entity.













(** ** The sample payload *)

(** [get_data] when the coordinator holds a dictionary. *)
Lemma get_data_dict loads strftime key w d :
  data (coordinator w) = VDict d ->
  get_data loads strftime key w = (resolve strftime (VDict d) key, w, []).
Proof.
  intros Hd. unfold get_data, bindM at 1, read. rewrite Hd.
  cbn [Py.is_none]. unfold bindM, retM, lift. by rewrite app_nil_r.
Qed.

(** C8, as the code has it.  On the sample payload of [entity.py]: the icon
    of the wind direction 225 is "mdi:arrow-top-right-thick", the
    temperature 18.1 is "Aangenaam", the wind force 6 is "Krachtig", the
    humidity 69 is "Hoog", and the pressure 1004.7, truncated to 1004, lies
    in the range (990, 1010): "Matig laag" with the barometer word
    "Veranderlijk". *)
Theorem sample_payload_resolvers (loads : string -> option pyval)
    (strftime : Z -> string) :
  let data := VDict testdata_liveweer in
  let w := sample_world data in
  (windrgr ← Py.get data "windrgr"; n ← Py.int windrgr;
   Sensor.wind_direction_icon n) = Ret "mdi:arrow-top-right-thick"
  /\ get_data loads strftime "tempdesc" w = (Ret (VStr "Aangenaam"), w, [])
  /\ get_data loads strftime "winddesc" w = (Ret (VStr "Krachtig"), w, [])
  /\ get_data loads strftime "air_pressure_desc" w
     = (Ret (VStr "Matig laag"), w, [])
  /\ get_data loads strftime "air_pressure_barometer" w
     = (Ret (VStr "Veranderlijk"), w, [])
  /\ get_data loads strftime "lvdesc" w = (Ret (VStr "Hoog"), w, [])
  /\ resolve strftime data "tempdesc" = Ret (VStr "Aangenaam")
  /\ resolve strftime data "winddesc" = Ret (VStr "Krachtig")
  /\ resolve strftime data "air_pressure_desc" = Ret (VStr "Matig laag")
  /\ resolve strftime data "air_pressure_barometer" = Ret (VStr "Veranderlijk")
  /\ resolve strftime data "lvdesc" = Ret (VStr "Hoog")
  /\ (f ← Py.float (VStr "1004.7"); Float.trunc f) = Ret 1004
  /\ (f ← Py.float (VStr "18.1"); Float.trunc f) = Ret 18.
Proof.
  cbn zeta.
  assert (Hr : forall key v,
    resolve strftime (VDict testdata_liveweer) key = Ret v ->
    get_data loads strftime key (sample_world (VDict testdata_liveweer))
    = (Ret v, sample_world (VDict testdata_liveweer), [])).
  { intros key v Hv.
    rewrite (get_data_dict loads strftime key
               (sample_world (VDict testdata_liveweer)) testdata_liveweer eq_refl).
    by rewrite Hv. }
  split; [by vm_compute|].
  repeat (split; [apply Hr; by vm_compute|]).
  by vm_compute.
Qed.

(** The pressure 1004.7 is not "Stabiel", and its barometer word is not
    "Mooi weer". *)
Lemma pressure_1004_is_matig_laag :
  (f ← Py.float (VStr "1004.7"); get_air_pressure_description f)
    = Ret (Some "Matig laag")
  /\ (f ← Py.float (VStr "1004.7"); get_air_pressure_barometer f)
    = Ret (Some "Veranderlijk")
  /\ (f ← Py.float (VStr "1004.7"); get_air_pressure_description f)
    <> Ret (Some "Stabiel")
  /\ (f ← Py.float (VStr "1004.7"); get_air_pressure_barometer f)
    <> Ret (Some "Mooi weer").
Proof. by vm_compute. Qed.

(** ** [get_value] *)

Ltac py_step :=
  cbn [default from_option id mbind result_bind fst snd
       Py.get Py.contains Py.split].

Lemma get_value_run key conv w d :
  data (coordinator w) = VDict d ->
  get_value key conv w =
    match d !! key with
    | None => (Ret VNone, w, [missing_warning])
    | Some _ =>
        match convert (VDict d) key conv with
        | Raise ValueError => (Ret VNone, w, [conversion_warning])
        | r => (r, w, [])
        end
    end.
Proof.
  intros Hd.
  unfold get_value, bindM, read, lift, try_except, emit, retM, raise.
  rewrite Hd. cbn [Py.contains].
  destruct (d !! key) as [v|] eqn:Hv.
  - rewrite bool_decide_true by eauto.
    by destruct (convert (VDict d) key conv) as [|[]].
  - rewrite bool_decide_false by (by intros [? ?]). done.
Qed.

Lemma contains_raise container item e :
  Py.contains container item = Raise e -> e = TypeError.
Proof. destruct container; simpl; congruence. Qed.

Lemma split_two_contains sep s a b :
  Str.split sep s = [a; b] -> Str.contains (String sep EmptyString) s = true.
Proof.
  revert a. induction s as [|c s IH]; intros a; simpl; [done|].
  destruct (Ascii.eqb_spec c sep) as [->|Hne].
  - intros _. destruct (Ascii.ascii_dec sep sep); [|done].
    by destruct s.
  - destruct (Str.split sep s) as [|hd tl] eqn:E; [done|].
    intros [= <- ->]. rewrite (IH hd eq_refl). apply orb_true_r.
Qed.

Lemma convert_midpoint d key conv s a b lo hi :
  Coordinator.is_range_key key = true ->
  d !! key = Some (VStr s) ->
  Str.split "/" s = [a; b] ->
  Str.to_int a = Some lo -> Str.to_int b = Some hi ->
  convert (VDict d) key conv =
    (half ← Float.truediv (lo + hi) 2; conv (VFloat half)).
Proof.
  intros Hkey Hv Hsplit Ha Hb. unfold convert.
  py_step. unfold Py.dict_get. rewrite Hv, Hkey.
  py_step. rewrite (split_two_contains _ _ _ _ Hsplit).
  py_step. rewrite Hsplit. unfold unpack2. rewrite Ha, Hb.
  done.
Qed.

Lemma convert_string_raise d key conv s e :
  d !! key = Some (VStr s) ->
  (forall x e', conv x = Raise e' -> e' = ValueError) ->
  convert (VDict d) key conv = Raise e ->
  e = ValueError \/ e = OverflowError.
Proof.
  intros Hv Hconv. unfold convert.
  py_step. unfold Py.dict_get. rewrite Hv. py_step.
  destruct (Coordinator.is_range_key key).
  - py_step.
    destruct (Str.contains "/" s); [|intros H; left; by eapply Hconv].
    destruct (unpack2 (Str.split "/" s)) as [[n dn]|e1] eqn:Hu.
    + py_step. unfold Float.truediv.
      destruct (n + dn) eqn:Hsum.
      * intros H; left; by eapply Hconv.
      * destruct (Float.of_ratio _ _ _); try (intros H; left; by eapply Hconv).
        intros [= <-]. by right.
      * destruct (Float.of_ratio _ _ _); try (intros H; left; by eapply Hconv).
        intros [= <-]. by right.
    + intros [= <-]. left. revert Hu. unfold unpack2.
      repeat case_match; congruence.
  - intros H; left; by eapply Hconv.
Qed.

(** C2, as the code has it.  On data that is a dictionary: a key that is
    absent gives None and the warning for a missing value; a conversion that
    raises ValueError gives None and the warning for a failed conversion;
    every other outcome of the conversion, an exception that is not a
    ValueError included, is the outcome of [get_value].  So [get_value]
    changes nothing, never raises ValueError, and with a conversion function
    that raises nothing but ValueError it raises nothing on a key outside
    the four range keys with a string value, and on a string value nothing
    but the OverflowError of a midpoint too large for a float.  Under a key
    that contains d1tmin, d1tmax, d2tmin or d2tmax a string "lo/hi" is
    replaced by the float (lo + hi) / 2 before it is converted: "17/19"
    converts to 18.0. *)
Theorem get_value_outcomes (key : string) (conv : pyval -> result pyval)
    (w : World) :
  let o := get_value key conv w in
  o.1.2 = w
  /\ o.1.1 <> Raise ValueError
  /\ (forall d, data (coordinator w) = VDict d ->
        match d !! key with
        | None => o = (Ret VNone, w, [missing_warning])
        | Some _ =>
            match convert (VDict d) key conv with
            | Raise ValueError => o = (Ret VNone, w, [conversion_warning])
            | r => o = (r, w, [])
            end
        end)
  /\ (forall d s e,
        data (coordinator w) = VDict d -> d !! key = Some (VStr s) ->
        (forall x e', conv x = Raise e' -> e' = ValueError) ->
        o.1.1 = Raise e ->
        e = OverflowError /\ Coordinator.is_range_key key = true)
  /\ (forall d s a b lo hi,
        data (coordinator w) = VDict d ->
        Coordinator.is_range_key key = true ->
        d !! key = Some (VStr s) ->
        Str.split "/" s = [a; b] ->
        Str.to_int a = Some lo -> Str.to_int b = Some hi ->
        convert (VDict d) key conv =
          (half ← Float.truediv (lo + hi) 2; conv (VFloat half)))
  /\ get_value "d1tmin" Py.conv_float
       (sample_world (VDict {[ "d1tmin" := VStr "17/19" ]}))
     = (Ret (VFloat (Float.of_Z 18)),
        sample_world (VDict {[ "d1tmin" := VStr "17/19" ]}), []).
Proof.
  cbn zeta. split; [|split; [|split; [|split; [|split]]]].
  - unfold get_value, bindM, read, lift, try_except, emit, retM, raise.
    destruct (Py.contains _ key) as [[]|e]; [|done..].
    by destruct (convert _ key conv) as [|[]].
  - unfold get_value, bindM, read, lift, try_except, emit, retM, raise.
    destruct (Py.contains _ key) as [[]|e] eqn:Hc; [|done|].
    + by destruct (convert _ key conv) as [|[]].
    + apply contains_raise in Hc as ->. done.
  - intros d Hd. rewrite (get_value_run _ _ _ _ Hd).
    destruct (d !! key); [|done].
    by destruct (convert (VDict d) key conv) as [|[]].
  - intros d s e Hd Hv Hconv. rewrite (get_value_run _ _ _ _ Hd), Hv.
    destruct (convert (VDict d) key conv) as [r|e1] eqn:Hcv; [done|].
    pose proof (convert_string_raise _ _ _ _ _ Hv Hconv Hcv) as He.
    destruct e1; try (destruct He; discriminate).
    intros [= <-]. split; [done|].
    destruct (Coordinator.is_range_key key) eqn:Hk; [done|].
    revert Hcv. unfold convert. py_step.
    rewrite Hk. py_step. intros Hcv.
    apply Hconv in Hcv. discriminate.
  - intros d s a b lo hi _. apply convert_midpoint.
  - by vm_compute.
Qed.

(** A number under a range key: [get_value] raises TypeError. *)
Lemma get_value_raises_type_error :
  get_value "d1tmin" Py.conv_int (sample_world (VDict {[ "d1tmin" := VInt 14 ]}))
  = (Raise TypeError, sample_world (VDict {[ "d1tmin" := VInt 14 ]}), []).
Proof. by vm_compute. Qed.

(** ** The properties at the sample inputs *)

(** A refresh one minute after the fetch of the sample record is skipped. *)
Lemma freshness_gate_witness :
  fresh sample_fetched
    (now_gate (sample_env sample_record_response (sample_now + seconds 60)))
  /\ _async_update_data
       (sample_env sample_record_response (sample_now + seconds 60)) sample_fetched
     = (Ret (data (coordinator sample_fetched)), sample_fetched, []).
Proof.
  assert (H : fresh sample_fetched
    (now_gate (sample_env sample_record_response (sample_now + seconds 60)))).
  { exists (seconds 1689469384). split; vm_compute; reflexivity. }
  split; [exact H|].
  exact (proj1 (freshness_gate
    (sample_env sample_record_response (sample_now + seconds 60)) sample_fetched) H).
Defined.

(** The name of a place does not convert to a float. *)
Lemma get_value_outcomes_witness :
  data (coordinator (sample_world (VDict testdata_liveweer)))
    = VDict testdata_liveweer
  /\ get_value "plaats" Py.conv_float (sample_world (VDict testdata_liveweer))
     = (Ret VNone, sample_world (VDict testdata_liveweer), [conversion_warning]).
Proof.
  split; [reflexivity|].
  pose proof (proj1 (proj2 (proj2
    (get_value_outcomes "plaats" Py.conv_float
       (sample_world (VDict testdata_liveweer)))))
    testdata_liveweer eq_refl) as H.
  vm_compute in H. vm_compute. exact H.
Defined.

(** A timeout ten minutes after the fetch of the sample record. *)
Lemma timeout_surfaces_as_update_failed_witness :
  due sample_fetched (now_gate (sample_env Api.TimedOut (sample_now + seconds 600)))
  /\ http (sample_env Api.TimedOut (sample_now + seconds 600)) = Api.TimedOut
  /\ exists url msg,
       Api.async_get_data Api.TimedOut sample_uuid sample_fetched
         = (Ret VNone, sample_fetched, [HttpGet url; Log ERROR msg])
       /\ _async_update_data (sample_env Api.TimedOut (sample_now + seconds 600))
            sample_fetched
          = (Raise UpdateFailed, sample_fetched,
             [HttpGet url; Log ERROR msg; Log ERROR "Error fetching KNMI data: %s"]).
Proof.
  assert (H : due sample_fetched
    (now_gate (sample_env Api.TimedOut (sample_now + seconds 600)))).
  { right. exists (seconds 1689469384).
    split; [vm_compute; reflexivity|vm_compute; discriminate]. }
  split; [exact H|]. split; [reflexivity|].
  exact (timeout_surfaces_as_update_failed
    (sample_env Api.TimedOut (sample_now + seconds 600)) sample_fetched H
    (or_introl eq_refl)).
Defined.

(** Setup of the sample entry, which has no options. *)
Lemma setup_refresh_interval_witness :
  options sample_entry !! "refresh_interval" = None
  /\ refresh_interval (__init__ sample_entry) = 600
  /\ refresh_interval
       (coordinator
          (Init.async_setup_entry ∅ sample_entry "demo" "52.79" "4.8"
             (sample_env sample_record_response sample_now)).1.2) = 300.
Proof.
  assert (H : options sample_entry !! "refresh_interval" = None) by reflexivity.
  split; [exact H|].
  pose proof (setup_refresh_interval ∅ sample_entry "demo" "52.79" "4.8"
    (sample_env sample_record_response sample_now) H) as (_ & H1 & _ & H2).
  split; [exact H1|exact H2].
Defined.

(** Two quota responses in a row on the sample world. *)
Lemma quota_notice_at_most_one_witness :
  registry_ok (sample_world VNone)
  /\ Api.notification_exists (sample_world VNone) = false
  /\ quota_exceeded sample_quota_response
  /\ created
       (fetches [(sample_quota_response, "u1"); (sample_quota_response, "u2")]
          (sample_world VNone)).2 = ["u1"]
  /\ notification_id
       (api (fetches [(sample_quota_response, "u1"); (sample_quota_response, "u2")]
               (sample_world VNone)).1) = Some "u1".
Proof.
  assert (Hok : registry_ok (sample_world VNone)) by exact I.
  assert (Hex : Api.notification_exists (sample_world VNone) = false) by reflexivity.
  assert (Hq : quota_exceeded sample_quota_response) by (split; reflexivity).
  split; [exact Hok|]. split; [exact Hex|]. split; [exact Hq|].
  pose proof (proj1 (proj2 quota_notice_at_most_one)
    sample_quota_response "u1" sample_quota_response "u2" (sample_world VNone)
    Hok Hex Hq Hq) as (H1 & H2 & _).
  split; [exact H1|exact H2].
Defined.



(** The fetch of the sample record sets last_update_time from its
    timestamp. *)
Lemma last_update_time_from_snapshot_witness :
  due (sample_world VNone)
    (now_gate (sample_env sample_record_response sample_now))
  /\ (Api.async_get_data sample_record_response sample_uuid (sample_world VNone)).1.1
     = Ret (VDict testdata_liveweer)
  /\ testdata_liveweer !! "timestamp" = Some (VStr "1689469384")
  /\ last_update_time (coordinator sample_fetched)
     = Some (seconds 1689469384).
Proof.
  assert (Hdue : due (sample_world VNone)
    (now_gate (sample_env sample_record_response sample_now))).
  { left. reflexivity. }
  assert (Hf : (Api.async_get_data sample_record_response sample_uuid
                  (sample_world VNone)).1.1 = Ret (VDict testdata_liveweer)).
  { vm_compute. reflexivity. }
  assert (Hdom : dom testdata_liveweer = list_to_set Model.fields).
  { apply (bool_decide_eq_true_1 _). vm_compute. reflexivity. }
  assert (Hts : testdata_liveweer !! "timestamp" = Some (VStr "1689469384")).
  { vm_compute. reflexivity. }
  split; [exact Hdue|]. split; [exact Hf|]. split; [exact Hts|].
  exact (proj1 (proj2 (last_update_time_from_snapshot
    (sample_env sample_record_response sample_now) (sample_world VNone)))
    testdata_liveweer (VStr "1689469384") Hdue Hf Hdom Hts).
Defined.

(** A client that has stored no id sees no notice. *)
Lemma notification_exists_total_witness :
  notification_id (api (sample_world VNone)) = None
  /\ Api.notification_exists (sample_world VNone) = false.
Proof.
  assert (H : notification_id (api (sample_world VNone)) = None) by reflexivity.
  split; [exact H|].
  exact (proj1 (notification_exists_total (sample_world VNone)) H).
Defined.

(** * Further properties *)

(** ** The outcomes of a fetch *)

Lemma api_key_message_run r u w :
  Str.contains "Vraag eerst een API-key op" (Api.text r) = true ->
  Api.async_get_data (Api.Response r) u w
  = (Raise InvalidApiKeyError, w, [HttpGet (endpoint w)]).
Proof.
  intros Hkey.
  unfold Api.async_get_data, bindM at 1, read, Api._api_wrapper, try_except,
    bindM at 1, emit, bindM at 1.
  by rewrite handle_error_responses_run, Hkey.
Qed.

(** X1. The message about the API key is looked for first: a response
    whose text holds it makes the client raise InvalidApiKeyError right
    after the request, with nothing logged, no notice created and the
    world as it was, also when the quota message is in the text as
    well. *)
Theorem invalid_key_message_first (r : Api.response) (u : string) (w : World) :
  Str.contains "Vraag eerst een API-key op" (Api.text r) = true ->
  Api.async_get_data (Api.Response r) u w
  = (Raise InvalidApiKeyError, w, [HttpGet (endpoint w)]).
Proof.
  intros Hkey.
  unfold Api.async_get_data, bindM at 1, read, Api._api_wrapper, try_except,
    bindM at 1, emit, bindM at 1.
  rewrite handle_error_responses_run, Hkey.
  unfold endpoint. by rewrite app_nil_r.
Qed.

Lemma api_wrapper_plain url r u w :
  plain r ->
  Api._api_wrapper url (Api.Response r) u w =
    match take_record r w with
    | (Ret a, w1, ev1) => (Ret a, w1, HttpGet url :: ev1)
    | (Raise e, w1, ev1) => (Raise e, w1, HttpGet url :: ev1)
    end.
Proof.
  intros (Hk & Hl & Hs).
  unfold Api._api_wrapper, try_except, bindM at 1, emit.
  fold (take_record r). unfold bindM at 1.
  rewrite handle_error_responses_run, Hk, Hl, Hs.
  destruct (take_record r w) as [[res w1] ev1] eqn:Hrec.
  destruct (take_record_run "" r w res w1 ev1 Hrec) as [Hun _].
  destruct res as [a|e]; [done|].
  destruct e; try done; cbn; by rewrite app_nil_r.
Qed.

Lemma take_record_carries r w v :
  carries r v ->
  exists ev, take_record r w = (Ret v, (Api._handle_notification_dismissal w).1.2, ev).
Proof.
  intros ((_ & Hl & _) & Hct & Hst & d & l & Hj & Hd & Hi & Ht).
  unfold take_record, bindM at 1, Api._parse_json_response.
  rewrite Hct, bool_decide_true by done. rewrite Hst, Hl, Hj. cbn [negb andb Z.eqb Pos.eqb retM].
  rewrite Hd. unfold bindM at 1, lift. rewrite Hi, Ht.
  unfold bindM, retM.
  destruct (Api._handle_notification_dismissal w) as [[[[]|e] w1] ev1] eqn:E.
  - eexists. reflexivity.
  - rewrite handle_notification_dismissal_run in E. by repeat case_match.
Qed.

Lemma take_record_ret r w v w' ev :
  take_record r w = (Ret v, w', ev) ->
  Api.content_type r = Some "application/json"
  /\ Api.status r = 200
  /\ Str.contains "Dagelijkse limiet" (Api.text r) = false
  /\ exists d l, Api.json r = Some (VDict d) /\ d !! "liveweer" = Some l
                 /\ Py.item0 l = Ret v /\ Py.truthy v = true.
Proof.
  unfold take_record, bindM at 1, Api._parse_json_response, raise, retM, emit, bindM at 1.
  case_bool_decide as Hct; cbn [negb]; [|done].
  destruct (Api.status r =? 200) eqn:Hst; cbn [andb].
  2:{ done. }
  destruct (Str.contains "Dagelijkse limiet" (Api.text r)) eqn:Hl; cbn [negb]; [done|].
  destruct (Api.json r) as [[]|] eqn:Hj; try done.
  destruct (d !! "liveweer") as [l|] eqn:Hd; [|done].
  unfold bindM at 1, lift.
  destruct (Py.item0 l) as [x|] eqn:Hi; [|done].
  destruct (Py.truthy x) eqn:Ht; [|done].
  unfold bindM. destruct (Api._handle_notification_dismissal w) as [[[[]|?] ?] ?]; [|done].
  intros [= <- <- <-]. apply Z.eqb_eq in Hst. eauto 10.
Qed.

Lemma async_get_data_carries r u w v :
  carries r v -> (Api.async_get_data (Api.Response r) u w).1.1 = Ret v.
Proof.
  intros Hc. unfold Api.async_get_data, bindM at 1, read.
  rewrite api_wrapper_plain by apply Hc.
  by destruct (take_record_carries r w v Hc) as [ev ->].
Qed.

(** X2. The client returns a record that counts as true exactly when the
    request yields a response without any of the three error messages,
    with status 200 and the content type "application/json", whose JSON is
    a dictionary with a "liveweer" entry whose first element is that
    record. *)
Theorem async_get_data_returns_record (h : Api.http) (u : string) (w : World)
    (v : pyval) :
  ((Api.async_get_data h u w).1.1 = Ret v /\ Py.truthy v = true)
  <-> exists r, h = Api.Response r /\ carries r v.
Proof.
  split.
  - unfold Api.async_get_data, bindM at 1, read.
    set (url := Const.API_ENDPOINT _ _ _).
    intros [Hret Ht]. destruct h as [|gai|r].
    + rewrite (surjective_pairing (Api._api_wrapper _ _ _ _)) in Hret. simpl in Hret.
      by simplify_eq.
    + by destruct gai; simpl in Hret; simplify_eq.
    + exists r. split; [done|].
      destruct (Api._api_wrapper url (Api.Response r) u w) as [[res w1] ev1] eqn:Hw.
      simpl in Hret. subst res.
      revert Hw. unfold Api._api_wrapper, try_except, bindM at 1, emit.
      fold (take_record r). unfold bindM at 1.
      rewrite handle_error_responses_run.
      destruct (Str.contains "Vraag eerst een API-key op" (Api.text r)) eqn:Hk; [done|].
      destruct (Str.contains "Dagelijkse limiet" (Api.text r)) eqn:Hl;
        [by destruct (Api.notification_exists w)|].
      destruct (Str.contains "De server ondervindt een probleem" (Api.text r)) eqn:Hs;
        [done|].
      destruct (take_record r w) as [[res2 w2] ev2] eqn:Hrec.
      destruct res2 as [a|e].
      * intros [= -> <- <-].
        destruct (take_record_ret _ _ _ _ _ Hrec) as (? & ? & ? & ?). by repeat split.
      * destruct (take_record_run "" r w _ _ _ Hrec) as [Hun _].
        destruct e; try done; cbn; intros ?; simplify_eq.
  - intros (r & -> & Hc). split; [by apply async_get_data_carries|].
    by destruct Hc as (_ & _ & _ & ? & ? & _ & _ & _ & ?).
Qed.

Lemma take_record_raise r w e w' ev :
  take_record r w = (Raise e, w', ev) ->
  w' = w
  /\ (e = ApiError
      \/ exists d l, Api.json r = Some (VDict d) /\ d !! "liveweer" = Some l
                     /\ Py.item0 l = Raise e).
Proof.
  unfold take_record, bindM at 1, Api._parse_json_response, raise, retM, emit, bindM at 1.
  case_bool_decide as Hct; cbn [negb]; [|intros [= <- <- <-]; auto].
  destruct (Api.status r =? 200) eqn:Hst; cbn [andb].
  2:{ intros [= <- <- <-]; auto. }
  destruct (Str.contains "Dagelijkse limiet" (Api.text r)) eqn:Hl; cbn [negb];
    [intros [= <- <- <-]; auto|].
  destruct (Api.json r) as [data|] eqn:Hj; [|intros [= <- <- <-]; auto].
  destruct data; try (intros [= <- <- <-]; auto).
  destruct (d !! "liveweer") as [l|] eqn:Hd; [|intros [= <- <- <-]; auto].
  unfold bindM at 1, lift.
  destruct (Py.item0 l) as [x|e'] eqn:Hi; [|intros [= <- <- <-]; eauto 10].
  destruct (Py.truthy x) eqn:Ht; [|intros [= <- <- <-]; auto].
  unfold bindM. rewrite handle_notification_dismissal_run.
  destruct (notification_id (api w)); [destruct (Api.notification_exists w)|]; done.
Qed.

(** X3. A response without error message that carries no such record
    makes the client raise and leave the world as it was.  The exception
    is ApiError, unless taking the first element of the "liveweer" entry
    raises itself; that exception then passes unchanged. *)
Theorem plain_response_without_record (r : Api.response) (u : string)
    (w : World) :
  plain r -> (forall v, ~ carries r v) ->
  exists e,
    (Api.async_get_data (Api.Response r) u w).1 = (Raise e, w)
    /\ (e = ApiError
        \/ exists d l, Api.json r = Some (VDict d) /\ d !! "liveweer" = Some l
                       /\ Py.item0 l = Raise e).
Proof.
  intros Hp Hnc.
  unfold Api.async_get_data, bindM at 1, read.
  rewrite api_wrapper_plain by done.
  destruct (take_record r w) as [[[a|e] w1] ev1] eqn:Hrec.
  - destruct (take_record_ret _ _ _ _ _ Hrec) as (? & ? & ? & ?).
    by destruct (Hnc a).
  - destruct (take_record_raise _ _ _ _ _ Hrec) as [-> He]. by exists e.
Qed.

(** X4. An empty "liveweer" list is not reported as ApiError: the
    subscript raises IndexError, which leaves the client as it is, after
    the request and with nothing logged. *)
Theorem empty_liveweer_list_raises_index_error (r : Api.response)
    (d : gmap string pyval) (u : string) (w : World) :
  plain r ->
  Api.content_type r = Some "application/json" ->
  Api.status r = 200 ->
  Api.json r = Some (VDict d) ->
  d !! "liveweer" = Some (VList []) ->
  Api.async_get_data (Api.Response r) u w
  = (Raise IndexError, w, [HttpGet (endpoint w)]).
Proof.
  intros Hp Hct Hst Hj Hd.
  unfold Api.async_get_data, bindM at 1, read.
  rewrite api_wrapper_plain by done.
  destruct Hp as (_ & Hl & _).
  unfold take_record, bindM at 1, Api._parse_json_response.
  rewrite Hct, bool_decide_true by done. rewrite Hst, Hl, Hj. cbn [negb andb Z.eqb Pos.eqb retM].
  by rewrite Hd.
Qed.

(** X5. A fetch that neither creates nor dismisses a notice leaves the
    world exactly as it was; and no fetch changes the coordinator or the
    key and the coordinates of the client. *)
Theorem fetch_changes_only_the_notice (h : Api.http) (u : string)
    (w w' : World) (res : result pyval) (ev : list event) :
  Api.async_get_data h u w = (res, w', ev) ->
  (created ev = [] -> dismissed ev = [] -> w' = w)
  /\ coordinator w' = coordinator w
  /\ api_key (api w') = api_key (api w)
  /\ latitude (api w') = latitude (api w)
  /\ longitude (api w') = longitude (api w).
Proof.
  intros Hrun. apply async_get_data_notice_step in Hrun.
  inversion Hrun; subst; try done.
  - split; [|done]. intros Hc. by rewrite Hc in *.
  - split; [|done]. intros _ Hdis. by rewrite Hdis in *.
Qed.


(** ** The outcomes of a refresh *)

Lemma fromtimestamp_raise n e :
  fromtimestamp n = Raise e ->
  e = OverflowError \/ e = OSError \/ e = ValueError.
Proof.
  unfold fromtimestamp. repeat case_match; intros [= <-]; auto.
Qed.

(** The runs of [_update_timestamp] that raise. *)
Lemma stamp_raise ts now w e w3 ev3 :
  stamp ts now w = (Raise e, w3, ev3) ->
  Py.is_none ts = false /\ e <> ValueError /\ ev3 = []
  /\ ((Py.int ts = Raise e /\ w3 = w)
      \/ exists n, Py.int ts = Ret n /\ fromtimestamp n = Raise e
                   /\ w3 = set_coordinator (with_timestamp (Some n)) w).
Proof.
  unfold stamp. destruct (Py.is_none ts); [done|].
  destruct (Py.int ts) as [n|e1].
  - destruct (fromtimestamp n) as [t|e1] eqn:Hft; [done|].
    destruct e1; intros [= <- <- <-];
      (split; [done|]; split; [done|]; split; [done|]; right; by exists n).
  - destruct e1; intros [= <- <- <-];
      (split; [done|]; split; [done|]; split; [done|]; by left).
Qed.

(** The runs of [_update_timestamp] that return keep the two timestamps in
    step. *)
Lemma stamp_ret_agree ts now w w3 ev3 :
  stamp ts now w = (Ret tt, w3, ev3) ->
  timestamps_agree (coordinator w) -> timestamps_agree (coordinator w3).
Proof.
  unfold stamp. destruct (Py.is_none ts); [by intros [= <- <-]|].
  destruct (Py.int ts) as [n|e1].
  - destruct (fromtimestamp n) as [t|e1] eqn:Hn.
    + intros [= <- <-] _ n' [= <-]. eauto.
    + destruct e1; try done. by intros [= <- <-].
  - destruct e1; try done. by intros [= <- <-].
Qed.



(** X7. With the gate open a refresh succeeds only on a record with
    exactly the fields of the dataclass, and then holds the dataclass built
    from it; a record the client accepts that lacks a field or has one too
    many ends in UpdateFailed with the coordinator unchanged. *)
Theorem refresh_requires_every_field (env : Env) (w : World) :
  due w (now_gate env) ->
  (forall v w' ev, _async_update_data env w = (Ret v, w', ev) ->
     exists d, v = VDict d /\ dom d = list_to_set Model.fields
               /\ data (coordinator w') = VWeatherData d)
  /\ (forall r d, http env = Api.Response r -> carries r (VDict d) ->
        (exists k, (k ∈ Model.fields /\ d !! k = None)
                   \/ ((k ∉ Model.fields) /\ is_Some (d !! k))) ->
        exists w' ev, _async_update_data env w = (Raise UpdateFailed, w', ev)
                      /\ coordinator w' = coordinator w).
Proof.
  intros Hdue.
  destruct (Api.async_get_data (http env) (uuid env) w) as [[r1 w1] ev1] eqn:Hget.
  pose proof (async_get_data_keeps_coordinator (http env) (uuid env) w) as Hkeep.
  rewrite Hget in Hkeep. simpl in Hkeep.
  split.
  - intros v w' ev Hrun.
    destruct (record_or_not r1) as [(d & ts & -> & Hdom & Hts)|Hno]; cycle 1.
    { by rewrite (update_data_no_record env w _ _ _ Hdue Hget Hno) in Hrun. }
    rewrite (update_data_record env w d ts _ _ Hdue Hget Hdom Hts) in Hrun.
    destruct (stamp ts (now_stamp env) _) as [[r3 w3] ev3] eqn:Hst.
    pose proof (stamp_frame _ _ _ _ _ _ Hst) as (_ & _ & Hdata & _).
    destruct r3 as [[]|e3]; [|done].
    destruct (scheduled _ _ _) as [ev4|e4]; [|done].
    injection Hrun as <- <- <-. by exists d.
  - intros r d Hh Hc Hk.
    assert (Hr1 : r1 = Ret (VDict d)).
    { pose proof (async_get_data_carries r (uuid env) w (VDict d) Hc) as H.
        rewrite <- Hh, Hget in H. exact H. }
    subst r1. exists w1, (ev1 ++ [fetch_error]). split; [|done].
    apply (update_data_no_record env w _ _ _ Hdue Hget).
    intros d' [= <-] Hdom. destruct Hk as [k [[Hin Hnone]|[Hnin Hsome]]].
    + apply not_elem_of_dom in Hnone. apply Hnone. rewrite Hdom.
      by apply elem_of_list_to_set.
    + apply elem_of_dom in Hsome. rewrite Hdom in Hsome.
      by apply elem_of_list_to_set in Hsome.
Qed.

(** X8. The constructor and every refresh that returns keep [_timestamp]
    and last_update_time in step: whenever [_timestamp] is set,
    last_update_time is the time of that timestamp.  A refresh breaks this
    exactly when [datetime.fromtimestamp] raises OSError or OverflowError
    on the integer of the timestamp of a complete record: [_timestamp] is
    that integer then, last_update_time is what it was, and the refresh
    raises UpdateFailed.  The record with the timestamp 10**17 is one. *)
Theorem timestamps_agree_invariant :
  (forall entry, timestamps_agree (__init__ entry))
  /\ (forall env w v,
        timestamps_agree (coordinator w) ->
        (_async_update_data env w).1.1 = Ret v ->
        timestamps_agree (coordinator (_async_update_data env w).1.2))
  /\ (forall env w,
        timestamps_agree (coordinator w) ->
        ~ timestamps_agree (coordinator (_async_update_data env w).1.2)
        <-> due w (now_gate env)
            /\ exists d ts n e,
                 (Api.async_get_data (http env) (uuid env) w).1.1 = Ret (VDict d)
                 /\ dom d = list_to_set Model.fields
                 /\ d !! "timestamp" = Some ts
                 /\ Py.is_none ts = false
                 /\ Py.int ts = Ret n
                 /\ fromtimestamp n = Raise e
                 /\ (e = OSError \/ e = OverflowError))
  /\ (forall env w d ts n e,
        due w (now_gate env) ->
        (Api.async_get_data (http env) (uuid env) w).1.1 = Ret (VDict d) ->
        dom d = list_to_set Model.fields ->
        d !! "timestamp" = Some ts ->
        Py.is_none ts = false ->
        Py.int ts = Ret n ->
        fromtimestamp n = Raise e ->
        e = OSError \/ e = OverflowError ->
        (_async_update_data env w).1.1 = Raise UpdateFailed
        /\ coordinator (_async_update_data env w).1.2
           = with_timestamp (Some n) (with_data (VWeatherData d) (coordinator w)))
  /\ (let env := sample_env sample_far_response sample_now in
      timestamps_agree (coordinator (sample_world VNone))
      /\ ~ timestamps_agree
             (coordinator (_async_update_data env (sample_world VNone)).1.2)).
Proof.
  assert (Hbreak : forall env w d ts n e,
    due w (now_gate env) ->
    (Api.async_get_data (http env) (uuid env) w).1.1 = Ret (VDict d) ->
    dom d = list_to_set Model.fields ->
    d !! "timestamp" = Some ts ->
    Py.is_none ts = false ->
    Py.int ts = Ret n ->
    fromtimestamp n = Raise e ->
    e = OSError \/ e = OverflowError ->
    (_async_update_data env w).1.1 = Raise UpdateFailed
    /\ coordinator (_async_update_data env w).1.2
       = with_timestamp (Some n) (with_data (VWeatherData d) (coordinator w))).
  { intros env w d ts n e Hdue Hf Hdom Hts Hn Hint Hft He.
    destruct (Api.async_get_data (http env) (uuid env) w)
      as [[r1 w1] ev1] eqn:Hget.
    pose proof (async_get_data_keeps_coordinator (http env) (uuid env) w) as Hkeep.
    rewrite Hget in Hkeep. simpl in Hkeep, Hf. subst r1.
    rewrite (update_data_record env w d ts _ _ Hdue Hget Hdom Hts).
    unfold stamp. rewrite Hn, Hint, Hft.
    destruct He as [-> | ->]; cbn; by rewrite Hkeep. }
  split; [done|]. split; [|split; [|split; [exact Hbreak|]]].
  - intros env w v Hinv Hv.
    destruct (fresh_or_due w (now_gate env)) as [Hfresh|Hdue].
    { by rewrite update_data_fresh. }
    destruct (Api.async_get_data (http env) (uuid env) w)
      as [[r1 w1] ev1] eqn:Hget.
    pose proof (async_get_data_keeps_coordinator (http env) (uuid env) w) as Hkeep.
    rewrite Hget in Hkeep. simpl in Hkeep.
    destruct (record_or_not r1) as [(d & ts & -> & Hdom & Hts)|Hno]; cycle 1.
    { by rewrite (update_data_no_record env w _ _ _ Hdue Hget Hno) in Hv. }
    revert Hv. rewrite (update_data_record env w d ts _ _ Hdue Hget Hdom Hts).
    destruct (stamp ts (now_stamp env) _) as [[r3 w3] ev3] eqn:Hst.
    destruct r3 as [[]|e3]; [|done].
    apply stamp_ret_agree in Hst; [|simpl; by rewrite Hkeep].
    by destruct (scheduled _ _ _).
  - intros env w Hinv. split.
    + intros Hbroken.
      destruct (fresh_or_due w (now_gate env)) as [Hfresh|Hdue].
      { by rewrite update_data_fresh in Hbroken. }
      split; [done|].
      destruct (Api.async_get_data (http env) (uuid env) w)
        as [[r1 w1] ev1] eqn:Hget.
      pose proof (async_get_data_keeps_coordinator (http env) (uuid env) w)
        as Hkeep.
      rewrite Hget in Hkeep. simpl in Hkeep.
      destruct (record_or_not r1) as [(d & ts & -> & Hdom & Hts)|Hno]; cycle 1.
      { rewrite (update_data_no_record env w _ _ _ Hdue Hget Hno) in Hbroken.
        simpl in Hbroken. by rewrite Hkeep in Hbroken. }
      rewrite (update_data_record env w d ts _ _ Hdue Hget Hdom Hts) in Hbroken.
      destruct (stamp ts (now_stamp env) _) as [[r3 w3] ev3] eqn:Hst.
      destruct r3 as [[]|e3].
      { destruct Hbroken. apply stamp_ret_agree in Hst; [|simpl; by rewrite Hkeep].
        by destruct (scheduled _ _ _). }
      apply stamp_raise in Hst
        as (Hn & Hne & _ & [[Hint ->]|(n & Hint & Hft & ->)]).
      { destruct Hbroken. simpl. by rewrite Hkeep. }
      exists d, ts, n, e3. repeat split; try done.
      destruct (fromtimestamp_raise _ _ Hft) as [-> | [-> | ->]]; auto. done.
    + intros (Hdue & d & ts & n & e & Hf & Hdom & Hts & Hn & Hint & Hft & He) Hagree.
      destruct (Hbreak env w d ts n e Hdue Hf Hdom Hts Hn Hint Hft He) as [_ Hc].
      rewrite Hc in Hagree. destruct (Hagree n eq_refl) as (t & Ht & _).
      by rewrite Hft in Ht.
  - cbn zeta. split; [done|]. intros Hagree.
    assert (Hn : _timestamp (coordinator
      (_async_update_data (sample_env sample_far_response sample_now)
         (sample_world VNone)).1.2) = Some 100000000000000000).
    { by vm_compute. }
    destruct (Hagree _ Hn) as (t & Ht & _). by vm_compute in Ht.
Qed.

Lemma update_data_keeps_intervals env :
  keeps (fun w => (refresh_interval (coordinator w),
                   update_interval (coordinator w)))
    (_async_update_data env).
Proof.
  unfold _async_update_data.
  apply keeps_bind; [apply keeps_read|]. intros c.
  case_match; [|apply keeps_ret].
  apply keeps_try; [|keeps_auto].
  apply keeps_bind.
  { apply (keeps_compose coordinator
             (fun c => (refresh_interval c, update_interval c))).
    apply async_get_data_keeps_coordinator. }
  unfold _update_timestamp, _schedule_next_update. keeps_auto.
Qed.

(** X9. With "refresh_interval" among the options of the entry, setup
    leaves the coordinator with that interval, zero included, and with the
    update interval of as many seconds, whatever the first refresh
    does. *)
Theorem configured_refresh_interval (hd : gmap string pyval)
    (entry : ConfigEntry) (key lat lon : string) (env : Env) (r : Z) :
  options entry !! "refresh_interval" = Some r ->
  let c := coordinator (Init.async_setup_entry hd entry key lat lon env).1.2 in
  refresh_interval c = r /\ update_interval c = seconds r.
Proof.
  intros Hr. cbn zeta. unfold Init.async_setup_entry.
  set (c0 := if negb _ then _ else _).
  assert (Hc0 : refresh_interval c0 = r /\ update_interval c0 = seconds r).
  { unfold c0, __init__, _get_refresh_interval. rewrite Hr. simpl.
    by destruct (negb (r =? 0)). }
  clearbody c0.
  set (w0 := {| hass_data := hd; api := _; coordinator := c0 |}).
  assert (Hkeep : keeps (fun w => (refresh_interval (coordinator w),
                                    update_interval (coordinator w)))
            (Init.async_config_entry_first_refresh env >> retM true)).
  { apply keeps_bind; [|intros; apply keeps_ret].
    unfold Init.async_config_entry_first_refresh.
    apply keeps_try; [|intros; apply keeps_raise].
    apply keeps_bind; [|intros; by apply keeps_update].
    apply update_data_keeps_intervals. }
  specialize (Hkeep w0). simpl in Hkeep.
  destruct Hc0 as [H1 H2]. injection Hkeep as -> ->. done.
Qed.

(** X10. The task a successful fetch schedules meets the gate of the
    next refresh.  With a refresh interval below 540 seconds it wakes
    inside the window of 600 seconds: its refresh makes no request, changes
    nothing and schedules nothing.  With an interval of 600 seconds or
    more its refresh makes a request.  The sleep is that of the task:
    next_update_time - now plus the seconds of randint(1, 60). *)
Theorem scheduled_refresh_and_the_gate (env env' : Env) (w w' w2 : World)
    (v : pyval) (ev : list event) (delay : Z) :
  due w (now_gate env) ->
  _async_update_data env w = (Ret v, w', ev) ->
  delay ∈ tasks ev ->
  last_update_time (coordinator w2) = last_update_time (coordinator w') ->
  now_gate env' = now_sched env + delay ->
  (exists t, last_update_time (coordinator w') = Some t
             /\ delay = t + seconds (refresh_interval (coordinator w))
                        - now_sched env
                        + seconds (Random.randint (draw env) 1 60))
  /\ (refresh_interval (coordinator w) + 60 < 600 ->
        _async_update_data env' w2 = (Ret (data (coordinator w2)), w2, []))
  /\ (600 <= refresh_interval (coordinator w) ->
        exists url ev', (_async_update_data env' w2).2 = HttpGet url :: ev').
Proof.
  intros Hdue Hrun Hin Hlast Hnow.
  destruct (Api.async_get_data (http env) (uuid env) w) as [[r1 w1] ev1] eqn:Hget.
  pose proof (async_get_data_no_task (http env) (uuid env) w) as Hnt.
  rewrite Hget in Hnt. simpl in Hnt. apply not_task_tasks in Hnt.
  pose proof (update_data_keeps_refresh_interval env w) as Hri.
  rewrite Hrun in Hri. simpl in Hri.
  destruct (record_or_not r1) as [(d & ts & -> & Hdom & Hts)|Hno]; cycle 1.
  { by rewrite (update_data_no_record env w _ _ _ Hdue Hget Hno) in Hrun. }
  rewrite (update_data_record env w d ts _ _ Hdue Hget Hdom Hts) in Hrun.
  destruct (stamp ts (now_stamp env) _) as [[r3 w3] ev3] eqn:Hst.
  apply stamp_frame in Hst as (_ & _ & _ & _ & _ & _ & Hnt3).
  destruct r3 as [[]|e3]; [|done].
  destruct (scheduled _ _ _) as [ev4|e4] eqn:Hs; [|done].
  injection Hrun as <- <- <-.
  rewrite !tasks_app, Hnt, Hnt3 in Hin. cbn [app] in Hin.
  apply scheduled_ret in Hs.
  destruct (last_update_time (coordinator w3)) as [t|] eqn:Ht;
    [|subst; by apply elem_of_nil in Hin].
  destruct Hs as (next & Hnext & ->).
  apply next_update_time_ret in Hnext as [-> _].
  destruct (now_sched env <? _); [|by apply elem_of_nil in Hin].
  cbn in Hin. apply list_elem_of_singleton in Hin as ->.
  pose proof (randint_bounds (draw env) 1 60 ltac:(lia)) as Hj.
  rewrite Hri in Hnow. split; [|split].
  - exists t. by rewrite Hri.
  - intros Hshort. apply update_data_fresh. exists t. split; [done|].
    rewrite Hnow. unfold seconds. lia.
  - intros Hlong. apply update_data_due_requests. right. exists t. split; [done|].
    rewrite Hnow. unfold seconds. lia.
Qed.

Lemma setup_outcome hd entry key lat lon env :
  (exists w' ev,
     Init.async_setup_entry hd entry key lat lon env
     = (Raise ConfigEntryNotReady, w', ev))
  \/ (exists d w' ev,
        Init.async_setup_entry hd entry key lat lon env = (Ret true, w', ev)
        /\ data (coordinator w') = VDict d
        /\ dom d = list_to_set Model.fields).
Proof.
  destruct (Init.async_setup_entry hd entry key lat lon env) as [[r w'] ev] eqn:Ho.
  revert Ho. unfold Init.async_setup_entry.
  set (c0 := if negb _ then _ else _).
  set (w0 := {| hass_data := hd; api := _; coordinator := c0 |}).
  assert (Hdue : due w0 (now_gate env)).
  { left. unfold w0, c0. cbn [coordinator]. by destruct (negb _). }
  unfold bindM at 1, Init.async_config_entry_first_refresh, try_except, bindM at 1.
  destruct (Api.async_get_data (http env) (uuid env) w0) as [[r1 w1] ev1] eqn:Hget.
  destruct (record_or_not r1) as [(d & ts & -> & Hdom & Hts)|Hno]; cycle 1.
  { rewrite (update_data_no_record env w0 _ _ _ Hdue Hget Hno).
    cbn. intros [= <- <- <-]. eauto. }
  rewrite (update_data_record env w0 d ts _ _ Hdue Hget Hdom Hts).
  destruct (stamp ts (now_stamp env) _) as [[[[]|e3] w3] ev3];
    [|cbn; intros [= <- <- <-]; eauto].
  destruct (scheduled _ _ _) as [ev4|e4]; cbn; intros [= <- <- <-]; eauto.
  right. by eexists d, _, _.
Qed.

(** X11. Setup returns True or raises ConfigEntryNotReady.  When it
    returns True the coordinator holds a dictionary with exactly the
    fields of the dataclass, so that [get_value] on a field never logs the
    warning for a missing value. *)
Theorem setup_stores_a_complete_record (hd : gmap string pyval)
    (entry : ConfigEntry) (key lat lon : string) (env : Env) :
  let o := Init.async_setup_entry hd entry key lat lon env in
  (o.1.1 = Ret true \/ o.1.1 = Raise ConfigEntryNotReady)
  /\ (o.1.1 = Ret true ->
      exists d,
        data (coordinator o.1.2) = VDict d
        /\ dom d = list_to_set Model.fields
        /\ forall k conv, k ∈ Model.fields ->
             missing_warning ∉ (get_value k conv o.1.2).2).
Proof.
  intros o.
  destruct (setup_outcome hd entry key lat lon env)
    as [(w' & ev & Ho)|(d & w' & ev & Ho & Hdata & Hdom)];
    fold o in Ho; rewrite Ho; cbn [fst snd].
  { split; [auto|done]. }
  split; [auto|]. intros _. exists d. split; [done|]. split; [done|].
  intros k conv Hk. rewrite (get_value_run k conv w' d Hdata).
  assert (Hin : k ∈ dom d) by (rewrite Hdom; by apply elem_of_list_to_set).
  apply elem_of_dom in Hin as [v ->].
  destruct (convert (VDict d) k conv) as [x|[]]; cbn;
    rewrite ?elem_of_nil, ?list_elem_of_singleton; try tauto.
  unfold missing_warning, conversion_warning. congruence.
Qed.

(** ** The resolvers, the icon and the range values *)

(** Case analysis along a table of ranges. *)
Ltac band_cases :=
  repeat (match goal with |- context [if ?b then _ else _] =>
            destruct b eqn:? end).
Ltac band_props :=
  unfold within_half_open, within_closed, Const.mk, Const.mkp in *;
  cbn [Const.range_lo Const.range_hi fst] in *;
  repeat match goal with
  | H : _ && _ = true |- _ => apply andb_true_iff in H as [? ?]
  | H : _ && _ = false |- _ =>
      apply andb_false_iff in H;
      rewrite ?Z.leb_gt, ?Z.ltb_ge in H
  | H : (_ <=? _) = true |- _ => apply Z.leb_le in H
  | H : (_ <? _) = true |- _ => apply Z.ltb_lt in H
  | H : (_ =? _) = true |- _ => apply Z.eqb_eq in H
  | H : (_ =? _) = false |- _ => apply Z.eqb_neq in H
  end.
Ltac band_close :=
  band_props;
  (split; [intros Hs; first [lia | by destruct Hs]
          |intros; first [by eexists | lia]]).

Lemma all_from_spec P lo len n :
  all_from P lo len = true -> lo <= n < lo + Z.of_nat len -> P n = true.
Proof.
  unfold all_from. rewrite forallb_forall. intros H Hn.
  replace n with (lo + Z.of_nat (Z.to_nat (n - lo))) by lia.
  apply H. apply in_seq. lia.
Qed.

(** X12. Where the resolvers answer: a humidity from 0 up to but not
    100, a visibility from 0 up to but not 50, a wind force from 0 to 12, a
    temperature whose integer part is from -30 to 100, a pressure whose
    integer part is from 900 to 1200.  Outside they return None; a float
    without an integer part raises what [int] raises. *)
Theorem description_domains :
  (forall h, is_Some (get_humidity_description h) <-> 0 <= h < 100)
  /\ (forall v, is_Some (get_visibility_description v) <-> 0 <= v < 50)
  /\ (forall n, is_Some (get_windforce_description n) <-> 0 <= n <= 12)
  /\ (forall f t, Float.trunc f = Ret t ->
        exists o, get_temperature_description f = Ret o
                  /\ (is_Some o <-> -30 <= t <= 100))
  /\ (forall f p, Float.trunc f = Ret p ->
        exists o, get_air_pressure_description f = Ret o
                  /\ (is_Some o <-> 900 <= p <= 1200))
  /\ (forall f e, Float.trunc f = Raise e ->
        get_temperature_description f = Raise e
        /\ get_air_pressure_description f = Raise e
        /\ get_air_pressure_barometer f = Raise e).
Proof.
  split; [|split; [|split; [|split; [|split]]]].
  - intros h. unfold get_humidity_description, Const.HUMIDITY_MAP.
    cbn [find within_half_open Const.range_lo Const.range_hi Const.mk].
    band_cases; cbn; band_close.
  - intros v. unfold get_visibility_description, Const.VISIBILITY_MAP.
    cbn [find within_half_open Const.range_lo Const.range_hi Const.mk].
    band_cases; cbn; band_close.
  - intros n. unfold get_windforce_description, Const.WIND_FORCE_MAP.
    cbn [find fst snd].
    band_cases; cbn; band_close.
  - intros f t Ht. unfold get_temperature_description. rewrite Ht.
    eexists. split; [reflexivity|].
    unfold Const.TEMPERATURE_MAP.
    cbn [find within_closed Const.range_lo Const.range_hi Const.mk].
    band_cases; cbn; band_close.
  - intros f p Hp. unfold get_air_pressure_description. rewrite Hp.
    eexists. split; [reflexivity|].
    unfold Const.AIR_PRESSURE_MAP.
    cbn [find within_closed Const.range_lo Const.range_hi Const.mkp].
    band_cases; cbn; band_close.
  - intros f e He.
    unfold get_temperature_description, get_air_pressure_description,
      get_air_pressure_barometer. by rewrite He.
Qed.

(** X13. The temperature table has the entry "Koel tot milde kou" for
    5 to 10 degrees, yet no temperature is ever answered with it: the entry
    "Koud" for 0 to 10 degrees comes first and answers 1 to 10. *)
Theorem koel_tot_milde_kou_is_never_answered :
  (exists b, In b Const.TEMPERATURE_MAP
     /\ Const.short_description b = "Koel tot milde kou"
     /\ Const.range_lo b = 5 /\ Const.range_hi b = 10)
  /\ (forall f, get_temperature_description f <> Ret (Some "Koel tot milde kou"))
  /\ (forall f t, Float.trunc f = Ret t -> 1 <= t <= 10 ->
        get_temperature_description f = Ret (Some "Koud")).
Proof.
  split; [|split].
  - exists (Const.mk "5" 5 10 "Koel tot milde kou"). split; [|done].
    unfold Const.TEMPERATURE_MAP. simpl. auto 10.
  - intros f. unfold get_temperature_description.
    destruct (Float.trunc f) as [t|e]; [|done].
    unfold Const.TEMPERATURE_MAP, mbind, result_bind.
    cbn [find within_closed Const.range_lo Const.range_hi Const.mk].
    band_cases; cbn; try done.
    exfalso. band_props; lia.
  - intros f t Ht Hr. unfold get_temperature_description. rewrite Ht.
    unfold Const.TEMPERATURE_MAP, mbind, result_bind.
    cbn [find within_closed Const.range_lo Const.range_hi Const.mk].
    band_cases; cbn; try done; exfalso; band_props; lia.
Qed.

Lemma eqb_derived key s :
  key ∉ derived_keys -> s ∈ derived_keys -> String.eqb key s = false.
Proof.
  intros Hn Hs. destruct (String.eqb_spec key s) as [->|]; [|done]. by destruct Hn.
Qed.

(** X14. [get_data] makes a datetime of the timestamp before it looks at
    the key.  On data None it returns None.  On a dictionary, a timestamp
    that is not None and that [int] or [datetime.fromtimestamp] rejects
    makes it raise that exception for every key, as the timestamp
    1689469384000 of a clock in milliseconds does; otherwise a key that is
    none of the seven derived keys gets the value stored under it, None
    when there is none.  On a string it goes on with what [json.loads]
    makes of it, and logs an error and raises ValueError when that
    fails. *)
Theorem get_data_reads_the_timestamp_first (loads : string -> option pyval)
    (strftime : Z -> string) (w : World) (d : gmap string pyval) (key : string) :
  (data (coordinator w) = VNone ->
     get_data loads strftime key w = (Ret VNone, w, []))
  /\ (data (coordinator w) = VDict d ->
      (forall ts e, d !! "timestamp" = Some ts -> Py.is_none ts = false ->
         (n ← Py.int ts; fromtimestamp n) = Raise e ->
         get_data loads strftime key w = (Raise e, w, []))
      /\ (key ∉ derived_keys ->
          (forall ts, d !! "timestamp" = Some ts -> Py.is_none ts = false ->
             exists t, (n ← Py.int ts; fromtimestamp n) = Ret t) ->
          get_data loads strftime key w = (Ret (Py.dict_get d key), w, [])))
  /\ (forall s, data (coordinator w) = VStr s -> loads s = None ->
        get_data loads strftime key w
        = (Raise ValueError, w, [Log ERROR "Failed to parse JSON data: %s"]))
  /\ (forall s v, data (coordinator w) = VStr s -> loads s = Some v ->
        get_data loads strftime key w = (resolve strftime v key, w, []))
  /\ (let w' := sample_world
                  (VDict (<["timestamp" := VStr "1689469384000"]> testdata_liveweer)) in
      get_data loads strftime key w' = (Raise ValueError, w', [])).
Proof.
  split; [|split; [|split; [|split]]].
  - intros Hd. unfold get_data, bindM at 1, read. by rewrite Hd.
  - intros Hd. rewrite (get_data_dict _ _ _ _ _ Hd). split.
    + intros ts e Hts Hnone Hint. f_equal. f_equal. unfold resolve.
      cbn [Py.is_none Py.get mbind result_bind]. unfold Py.dict_get.
      rewrite Hts. cbn [default from_option id]. rewrite Hnone.
      cbn [mbind result_bind] in Hint. by rewrite Hint.
    + intros Hkey Hts. f_equal. f_equal. unfold resolve.
      cbn [Py.is_none Py.get mbind result_bind].
      set (stamp := if Py.is_none (Py.dict_get d "timestamp") then Ret 0 else _).
      assert (Hstamp : exists n, stamp = Ret n).
      { unfold stamp, Py.dict_get. destruct (d !! "timestamp") as [ts|] eqn:Hts';
          cbn [default from_option id]; [|by exists 0].
        destruct (Py.is_none ts) eqn:Hn; [by exists 0|].
        destruct (Hts ts eq_refl Hn) as [t Ht]. exists t.
        by cbn [mbind result_bind] in Ht. }
      destruct Hstamp as [n ->].
      rewrite !(eqb_derived key) by (done || (unfold derived_keys; set_solver)).
      done.
  - intros s Hd Hl. unfold get_data, bindM at 1, read. rewrite Hd.
    cbn [Py.is_none]. unfold bindM at 1. by rewrite Hl.
  - intros s v Hd Hl. unfold get_data, bindM at 1, read. rewrite Hd.
    cbn [Py.is_none]. unfold bindM at 1. rewrite Hl.
    unfold retM, lift. by rewrite app_nil_r.
  - cbn zeta.
    rewrite (get_data_dict loads strftime key
               (sample_world (VDict (<["timestamp" := VStr "1689469384000"]>
                                       testdata_liveweer)))
               (<["timestamp" := VStr "1689469384000"]> testdata_liveweer) eq_refl).
    f_equal.
Qed.

(** X15. The icon of a wind direction is total and depends on the
    direction modulo 360 only: from 0 to 337 degrees it is the arrow of the
    nearest multiple of 45, and from 338 to 359 degrees, where rounding
    yields 360, it is the compass icon and not the arrow of the north. *)
Theorem wind_direction_icon_by_sector (n : Z) :
  Sensor.wind_direction_icon n =
    Ret ("mdi:" +:+
         (if 338 <=? n `mod` 360 then "compass-outline"
          else Sensor.icon_of (nearest_principal (n `mod` 360)))).
Proof.
  assert (Hmod : Sensor.wind_direction_icon n
                 = Sensor.wind_direction_icon (n `mod` 360)).
  { unfold Sensor.wind_direction_icon. by rewrite Zmod_mod. }
  rewrite Hmod.
  pose proof (Z.mod_pos_bound n 360 ltac:(lia)) as Hd.
  generalize dependent (n `mod` 360). intros d _ Hd.
  assert (Hall : all_from
    (fun d => match Sensor.wind_direction_icon d with
              | Ret s =>
                  String.eqb s
                    ("mdi:" +:+
                     (if 338 <=? d `mod` 360 then "compass-outline"
                      else Sensor.icon_of (nearest_principal (d `mod` 360))))
              | Raise _ => false
              end) 0 360 = true) by (vm_compute; reflexivity).
  pose proof (all_from_spec _ _ _ d Hall ltac:(lia)) as H. cbv beta in H.
  destruct (Sensor.wind_direction_icon d) as [s|e]; [|done].
  apply String.eqb_eq in H. rewrite H. by rewrite Z.mod_small by lia.
Qed.

(** X16. Converted with [int], a range "lo/hi" under one of the four
    range keys is the midpoint truncated towards zero, for every sum of the
    bounds from -1000 to 1000. *)
Theorem range_midpoint_as_integer (d : gmap string pyval) (key s a b : string)
    (lo hi : Z) :
  is_range_key key = true ->
  d !! key = Some (VStr s) ->
  Str.split "/" s = [a; b] ->
  Str.to_int a = Some lo -> Str.to_int b = Some hi ->
  -1000 <= lo + hi <= 1000 ->
  convert (VDict d) key Py.conv_int = Ret (VInt (Z.quot (lo + hi) 2)).
Proof.
  intros Hkey Hd Hs Ha Hb Hbound.
  rewrite (convert_midpoint d key Py.conv_int s a b lo hi) by done.
  fold (midpoint_int (lo + hi)). generalize dependent (lo + hi). clear.
  intros z Hz.
  assert (Hall : all_from midpoint_ok (-1000) 2001 = true)
    by (vm_compute; reflexivity).
  pose proof (all_from_spec midpoint_ok (-1000) 2001 z Hall) as H.
  unfold midpoint_ok in H.
  destruct (midpoint_int z) as [v|e].
  - destruct v; try (discriminate H; lia).
    f_equal. f_equal. apply Z.eqb_eq. apply H. lia.
  - discriminate H; lia.
Qed.

Lemma digitpart_slash l : forall acc n after_digit,
  In "/"%char l -> Str.digitpart acc n after_digit l = None.
Proof.
  induction l as [|c l IH]; intros acc n after_digit Hin; [done|].
  destruct Hin as [->|Hin]; [done|].
  simpl. destruct (Str.digit c); [by apply IH|].
  destruct (_ && _); [by apply IH|done].
Qed.

Lemma lstrip_slash l : In "/"%char l -> In "/"%char (Str.lstrip l).
Proof.
  induction l as [|c l IH]; [done|]. intros Hin. simpl.
  destruct (Str.is_space c) eqn:Hc; [|done].
  destruct Hin as [->|Hin]; [done|by apply IH].
Qed.

Lemma contains_slash s :
  Str.contains "/" s = true -> In "/"%char (String.list_ascii_of_string s).
Proof.
  induction s as [|c s IH]; [done|].
  cbn [Str.contains String.prefix String.list_ascii_of_string].
  destruct (ascii_dec "/" c) as [<-|Hc].
  - intros _. by left.
  - cbn [orb]. intros H. right. by apply IH.
Qed.

Lemma to_int_slash s : Str.contains "/" s = true -> Str.to_int s = None.
Proof.
  intros H%contains_slash. unfold Str.to_int, Str.strip.
  apply lstrip_slash, in_rev, lstrip_slash, in_rev in H.
  revert H. generalize (rev (Str.lstrip (rev (Str.lstrip (String.list_ascii_of_string s))))).
  intros l Hin. unfold Str.sign.
  destruct l as [|c l]; [done|].
  destruct (Ascii.eqb_spec c "-"%char) as [->|].
  { destruct Hin as [|Hin]; [done|]. by rewrite digitpart_slash. }
  destruct (Ascii.eqb_spec c "+"%char) as [->|].
  { destruct Hin as [|Hin]; [done|]. by rewrite digitpart_slash. }
  by rewrite digitpart_slash.
Qed.

(** X17. Only the four range keys are averaged.  Under any other key a
    string with a slash, such as a range under d0tmin, fails the integer
    conversion: [get_value] returns None and logs the conversion
    warning. *)
Theorem range_under_other_key_is_not_averaged (key s : string)
    (d : gmap string pyval) (w : World) :
  data (coordinator w) = VDict d ->
  is_range_key key = false ->
  d !! key = Some (VStr s) ->
  Str.contains "/" s = true ->
  get_value key Py.conv_int w = (Ret VNone, w, [conversion_warning]).
Proof.
  intros Hdata Hkey Hd Hs.
  rewrite (get_value_run key Py.conv_int w d Hdata), Hd.
  unfold convert. cbn [Py.get mbind result_bind]. rewrite Hkey.
  unfold Py.dict_get. rewrite Hd. cbn [default from_option id].
  unfold Py.conv_int, Py.int. by rewrite (to_int_slash s Hs).
Qed.

(** ** The daily forecast *)

Lemma fetch_daily_run h w :
  ApiDaily.async_fetch_daily_forecast_data h w =
    match h with
    | Api.TimedOut => (Raise TimeoutError, w, [HttpGet (endpoint w)])
    | Api.TransportError true => (Raise GaiError, w, [HttpGet (endpoint w)])
    | Api.TransportError false => (Raise KnmiApiException, w, [HttpGet (endpoint w)])
    | Api.Response r =>
        if 400 <=? Api.status r
        then (Raise KnmiApiException, w, [HttpGet (endpoint w)])
        else if negb (bool_decide (Api.content_type r = Some "application/json"))
        then (Raise ApiError, w, [HttpGet (endpoint w)])
        else if (Api.status r =? 200)
                && negb (Str.contains "Dagelijkse limiet" (Api.text r))
        then match Api.json r with
             | Some data =>
                 if Py.is_none data then (Ret VNone, w, [HttpGet (endpoint w)])
                 else (ApiDaily.get_forecast data, w, [HttpGet (endpoint w)])
             | None =>
                 (Raise ApiError, w,
                  [HttpGet (endpoint w);
                   Log ERROR "Error decoding JSON response - %s: %s"])
             end
        else (Ret VNone, w, [HttpGet (endpoint w)])
    end.
Proof.
  unfold ApiDaily.async_fetch_daily_forecast_data, try_except, bindM at 1, read,
    bindM at 1, emit, endpoint.
  destruct h as [|[]|r]; try done.
  unfold bindM at 1, ApiDaily.raise_for_status.
  destruct (400 <=? Api.status r); [done|].
  unfold retM at 1, bindM at 1, Api._parse_json_response.
  destruct (negb (bool_decide _)); [done|].
  destruct (_ && _); [|done].
  destruct (Api.json r) as [data|]; [|done].
  by destruct data.
Qed.

Lemma bind_raise {A B} (m : result A) (f : A -> result B) e :
  m ≫= f = Raise e -> m = Raise e \/ exists x, m = Ret x /\ f x = Raise e.
Proof. destruct m as [x|e']; cbn; [eauto|]. intros [= <-]. by left. Qed.

Lemma getitem_raise entry key e :
  Weather.getitem entry key = Raise e -> e = TypeError \/ e = KeyError.
Proof.
  unfold Weather.getitem. destruct entry; try (intros [= <-]; auto).
  destruct (_ !! _); [done|]. intros [= <-]. auto.
Qed.

Lemma parse_entry_raise isodate entry e :
  Weather.parse_entry isodate entry = Raise e ->
  e = TypeError \/ e = KeyError \/ e = ValueError.
Proof.
  unfold Weather.parse_entry. intros H.
  repeat (apply bind_raise in H as [H|(? & _ & H)];
          [apply getitem_raise in H; tauto|]).
  apply bind_raise in H as [H|(? & _ & H)]; [|done].
  repeat case_match; simplify_eq; auto.
Qed.

Lemma mapM_raise {A B} (f : A -> result B) l e :
  mapM f l = Raise e -> exists x, x ∈ l /\ f x = Raise e.
Proof.
  induction l as [|x l IH]; [done|]. cbn [mapM mbind result_bind].
  destruct (f x) as [y|e'] eqn:Hx.
  - destruct (mapM f l) as [ys|e'']; [done|].
    intros [= <-]. destruct (IH eq_refl) as (x' & Hin & Hf).
    exists x'. split; [by right|done].
  - intros [= <-]. exists x. split; [by left|done].
Qed.

Lemma parse_forecast_data_raise isodate v e :
  Weather.parse_forecast_data isodate v = Raise e ->
  e = TypeError \/ e = KeyError \/ e = ValueError.
Proof.
  unfold Weather.parse_forecast_data.
  destruct (Weather.iter v) as [l|e'] eqn:Hit; cbn [mbind result_bind].
  - intros (x & _ & Hx)%mapM_raise. by eapply parse_entry_raise.
  - intros [= <-]. destruct v; simplify_eq/=; auto.
Qed.

(** The daily forecast in terms of the fetch. *)
Lemma forecast_daily_run isodate h w :
  Weather.async_forecast_daily isodate h w =
    match ApiDaily.async_fetch_daily_forecast_data h w with
    | (Ret data, _, ev) =>
        match Weather.parse_forecast_data isodate data with
        | Ret forecast => (Ret (Some forecast), w, ev)
        | Raise e => (Raise e, w, ev)
        end
    | (Raise KnmiApiException, _, ev) =>
        (Ret None, w, ev ++ [Log ERROR "Error fetching daily forecast data: %s"])
    | (Raise e, _, ev) => (Raise e, w, ev)
    end.
Proof.
  unfold Weather.async_forecast_daily, try_except, bindM at 1.
  assert (Hw : (ApiDaily.async_fetch_daily_forecast_data h w).1.2 = w).
  { rewrite fetch_daily_run. by repeat case_match. }
  destruct (ApiDaily.async_fetch_daily_forecast_data h w) as [[[data|e] w1] ev].
  - simpl in Hw. subst w1. unfold bindM, lift, retM.
    destruct (Weather.parse_forecast_data isodate data) as [f|e] eqn:Hp.
    + by rewrite ?app_nil_r.
    + destruct (parse_forecast_data_raise _ _ _ Hp) as [->|[->| ->]];
        cbn; by rewrite ?app_nil_r.
  - simpl in Hw. subst w1. destruct e; cbn; by rewrite ?app_nil_r.
Qed.

(** X18. On a response with status 200, JSON content type, no quota
    message and a dictionary as JSON, the daily forecast is the parse of
    its "forecast" entry, an exception of the parse passing unchanged, and
    one request is made.  A payload without that entry, as the weather
    record is, gives the empty forecast. *)
Theorem daily_forecast_of_a_weather_record (isodate : string -> option string)
    (r : Api.response) (d : gmap string pyval) (w : World) :
  Api.status r = 200 ->
  Api.content_type r = Some "application/json" ->
  Str.contains "Dagelijkse limiet" (Api.text r) = false ->
  Api.json r = Some (VDict d) ->
  Weather.async_forecast_daily isodate (Api.Response r) w =
    match Weather.parse_forecast_data isodate (default (VList []) (d !! "forecast")) with
    | Ret forecast => (Ret (Some forecast), w, [HttpGet (endpoint w)])
    | Raise e => (Raise e, w, [HttpGet (endpoint w)])
    end
  /\ (d !! "forecast" = None ->
      Weather.async_forecast_daily isodate (Api.Response r) w
      = (Ret (Some []), w, [HttpGet (endpoint w)])).
Proof.
  intros Hst Hct Hl Hj.
  assert (Hall : Weather.async_forecast_daily isodate (Api.Response r) w =
    match Weather.parse_forecast_data isodate (default (VList []) (d !! "forecast")) with
    | Ret forecast => (Ret (Some forecast), w, [HttpGet (endpoint w)])
    | Raise e => (Raise e, w, [HttpGet (endpoint w)])
    end).
  { rewrite forecast_daily_run, fetch_daily_run, Hst, Hct, Hl, Hj.
    by rewrite bool_decide_true by done. }
  split; [done|].
  intros Hd. by rewrite Hall, Hd.
Qed.

(** X19. The daily forecast makes one request and changes nothing.  A
    transport error of the client library or a status of 400 or more is
    logged and gives None.  A timeout and a gaierror are not caught, a
    wrong content type raises ApiError, and a status below 400 other than
    200, or the quota message, leaves None to iterate over: TypeError. *)
Theorem daily_forecast_failures (isodate : string -> option string)
    (h : Api.http) (w : World) :
  let o := Weather.async_forecast_daily isodate h w in
  o.1.2 = w
  /\ http_requests o.2 = [endpoint w]
  /\ (h = Api.TimedOut -> o.1.1 = Raise TimeoutError)
  /\ (h = Api.TransportError true -> o.1.1 = Raise GaiError)
  /\ (h = Api.TransportError false
      \/ (exists r, h = Api.Response r /\ 400 <= Api.status r) ->
      o = (Ret None, w,
           [HttpGet (endpoint w); Log ERROR "Error fetching daily forecast data: %s"]))
  /\ (forall r, h = Api.Response r -> Api.status r < 400 ->
        Api.content_type r <> Some "application/json" ->
        o.1.1 = Raise ApiError)
  /\ (forall r, h = Api.Response r -> Api.status r < 400 ->
        Api.content_type r = Some "application/json" ->
        Api.status r <> 200 \/ Str.contains "Dagelijkse limiet" (Api.text r) = true ->
        o.1.1 = Raise TypeError).
Proof.
  cbn zeta. rewrite forecast_daily_run, fetch_daily_run.
  split; [|split; [|split; [|split; [|split; [|split]]]]].
  - repeat case_match; done.
  - repeat case_match; simplify_eq; done.
  - by intros ->.
  - by intros ->.
  - intros [->|(r & -> & Hst)]; [done|].
    by rewrite (proj2 (Z.leb_le 400 (Api.status r)) Hst).
  - intros r -> Hst Hct.
    rewrite (proj2 (Z.leb_gt 400 (Api.status r)) Hst).
    by rewrite bool_decide_false by done.
  - intros r -> Hst Hct Hnone.
    rewrite (proj2 (Z.leb_gt 400 (Api.status r)) Hst).
    rewrite bool_decide_true by done. cbn [negb].
    assert (Hc : (Api.status r =? 200)
                 && negb (Str.contains "Dagelijkse limiet" (Api.text r)) = false).
    { destruct Hnone as [Hn| ->]; [|by rewrite andb_false_r].
      by rewrite (proj2 (Z.eqb_neq _ _) Hn). }
    by rewrite Hc.
Qed.


(** ** The weather entity and the binary sensor *)

Lemma get_value_str repr key w d :
  data (coordinator w) = VDict d ->
  is_range_key key = false ->
  get_value key (Weather.conv_str repr) w =
    match d !! key with
    | None => (Ret VNone, w, [missing_warning])
    | Some v => (Ret (VStr (Weather.str repr v)), w, [])
    end.
Proof.
  intros Hdata Hkey. rewrite (get_value_run key _ w d Hdata).
  destruct (d !! key) as [v|] eqn:Hd; [|done].
  unfold convert. cbn [Py.get mbind result_bind]. rewrite Hkey.
  unfold Py.dict_get. by rewrite Hd.
Qed.

(** X20. [map_condition] on a dictionary, for a key that is no range
    key: a missing key gives None with the warning of [get_value] and the
    error for an unknown condition; the empty string gives None in
    silence; a name of CONDITIONS_MAP gives its condition; any other value
    gives None with the error.  So a condition is returned only for a
    value whose string is a name of the map.  The keys the entity asks
    for, "image" and "d0weer" to "d2weer", are no range keys; under the
    range key "d1tmin" the integer 14 makes the call raise TypeError. *)
Theorem map_condition_outcomes (repr : pyval -> string) (key : string)
    (d : gmap string pyval) (w : World) :
  data (coordinator w) = VDict d ->
  is_range_key key = false ->
  Weather.map_condition repr key w =
    match d !! key with
    | None => (Ret None, w, [missing_warning; unknown_condition])
    | Some v =>
        if String.eqb "" (Weather.str repr v) then (Ret None, w, [])
        else
          match find (fun kv => String.eqb (fst kv) (Weather.str repr v))
                  Weather.CONDITIONS_MAP with
          | Some kv => (Ret (Some (snd kv)), w, [])
          | None => (Ret None, w, [unknown_condition])
          end
    end
  /\ (forall c, (Weather.map_condition repr key w).1.1 = Ret (Some c) ->
        exists v, d !! key = Some v
                  /\ (Weather.str repr v, c) ∈ Weather.CONDITIONS_MAP)
  /\ Forall (fun k => is_range_key k = false) ["image"; "d0weer"; "d1weer"; "d2weer"]
  /\ (Weather.map_condition repr "d1tmin"
        (sample_world (VDict {[ "d1tmin" := VInt 14 ]}))).1.1 = Raise TypeError.
Proof.
  intros Hdata Hkey.
  assert (Hrun : Weather.map_condition repr key w =
    match d !! key with
    | None => (Ret None, w, [missing_warning; unknown_condition])
    | Some v =>
        if String.eqb "" (Weather.str repr v) then (Ret None, w, [])
        else
          match find (fun kv => String.eqb (fst kv) (Weather.str repr v))
                  Weather.CONDITIONS_MAP with
          | Some kv => (Ret (Some (snd kv)), w, [])
          | None => (Ret None, w, [unknown_condition])
          end
    end).
  { unfold Weather.map_condition, bindM at 1.
    rewrite (get_value_str repr key w d Hdata Hkey).
    destruct (d !! key) as [v|]; [|done].
    cbn [Py.is_str]. destruct (String.eqb "" (Weather.str repr v)); [done|].
    unfold try_except, bindM, lift, Weather.condition_of.
    by destruct (find _ _). }
  split; [done|].
  split; [|split; [by repeat constructor|by vm_compute]].
  intros c. rewrite Hrun.
  destruct (d !! key) as [v|]; [|done].
  destruct (String.eqb "" (Weather.str repr v)); [done|].
  destruct (find _ _) as [[name c']|] eqn:Hfind; [|done].
  intros [= <-]. exists v. split; [done|].
  apply find_some in Hfind as [Hin Heq]. apply String.eqb_eq in Heq.
  simpl in Heq. subst name. by apply list_elem_of_In.
Qed.

(** X21. The alarm is on exactly when the value under "alarm" converts
    to the integer 1.  A missing key and a value that [int] rejects with
    ValueError give False with a warning; any other exception of the
    conversion is raised. *)
Theorem alarm_is_on_when_it_reads_as_one (d : gmap string pyval) (w : World) :
  data (coordinator w) = VDict d ->
  BinarySensor.is_alarm_on w =
    match d !! "alarm" with
    | None => (Ret false, w, [missing_warning])
    | Some v =>
        match Py.int v with
        | Ret n => (Ret (n =? 1), w, [])
        | Raise ValueError => (Ret false, w, [conversion_warning])
        | Raise e => (Raise e, w, [])
        end
    end.
Proof.
  intros Hdata. unfold BinarySensor.is_alarm_on, bindM.
  rewrite (get_value_run "alarm" _ w d Hdata).
  destruct (d !! "alarm") as [v|] eqn:Hd; [|done].
  unfold convert. cbn [Py.get mbind result_bind]. unfold Py.dict_get. rewrite Hd.
  cbn [default from_option id].
  change (is_range_key "alarm") with false. cbn iota.
  unfold Py.conv_int. by destruct (Py.int v) as [n|[]].
Qed.

(** X22. The attributes of the alarm: None when the alarm is off.  When
    it is on, the timestamp is converted outside [get_value]: a missing
    timestamp raises TypeError, one that is no integer raises ValueError,
    an integer [datetime.fromtimestamp] rejects raises its ValueError,
    OSError or OverflowError before the alarm text is read, and otherwise
    the attributes hold the formatted datetime and the alarm text, None
    with a warning when the text is missing. *)
Theorem alarm_attributes_need_an_integer_timestamp (repr : pyval -> string)
    (strftime : Z -> string) (d : gmap string pyval) (w : World) :
  data (coordinator w) = VDict d ->
  (forall ev, BinarySensor.is_alarm_on w = (Ret false, w, ev) ->
     BinarySensor.get_alarm_attributes repr strftime w = (Ret None, w, ev))
  /\ (BinarySensor.is_alarm_on w = (Ret true, w, []) ->
      BinarySensor.get_alarm_attributes repr strftime w =
        match d !! "timestamp" with
        | None => (Raise TypeError, w, [missing_warning])
        | Some ts =>
            match Str.to_int (Weather.str repr ts) with
            | None => (Raise ValueError, w, [])
            | Some n =>
                match fromtimestamp n with
                | Raise e => (Raise e, w, [])
                | Ret t =>
                    let attributes txt :=
                      {| BinarySensor.Timestamp := strftime t;
                         BinarySensor.Waarschuwing := txt;
                         BinarySensor.attribution := "Data provided by KNMI" |} in
                    match d !! "alarmtxt" with
                    | Some txt =>
                        (Ret (Some (attributes (VStr (Weather.str repr txt)))), w, [])
                    | None => (Ret (Some (attributes VNone)), w, [missing_warning])
                    end
                end
            end
        end)
  /\ (forall n e, fromtimestamp n = Raise e ->
        e = OverflowError \/ e = OSError \/ e = ValueError)
  /\ fromtimestamp 1689469384000 = Raise ValueError
  /\ fromtimestamp 1689469384 = Ret (seconds 1689469384).
Proof.
  intros Hdata. split; [|split; [|split; [apply fromtimestamp_raise|done]]].
  - intros ev Hoff. unfold BinarySensor.get_alarm_attributes, bindM at 1.
    rewrite Hoff. unfold retM. by rewrite app_nil_r.
  - intros Hon. unfold BinarySensor.get_alarm_attributes, bindM at 1.
    rewrite Hon. unfold bindM at 1.
    rewrite (get_value_str repr "timestamp" w d Hdata eq_refl).
    destruct (d !! "timestamp") as [ts|]; [|done].
    unfold bindM at 1, lift. cbn [Py.int].
    destruct (Str.to_int (Weather.str repr ts)) as [n|]; [|done].
    unfold bindM at 1.
    destruct (fromtimestamp n) as [t|e]; [|done].
    unfold bindM.
    rewrite (get_value_str repr "alarmtxt" w d Hdata eq_refl).
    by destruct (d !! "alarmtxt").
Qed.

(** ** The configuration flow *)

Lemma validate_user_input_run input h u w :
  ConfigFlow._validate_user_input (ConfigFlow.CONF_API_KEY input)
    (ConfigFlow.CONF_LATITUDE input) (ConfigFlow.CONF_LONGITUDE input) h u w =
    match Api.async_get_data h u (flow_world input w) with
    | (Ret _, w', ev) =>
        (Ret true,
         {| hass_data := hass_data w'; api := api w; coordinator := coordinator w' |},
         ev)
    | (Raise e, w', ev) =>
        (Raise e,
         {| hass_data := hass_data w'; api := api w; coordinator := coordinator w' |},
         ev)
    end.
Proof.
  unfold ConfigFlow._validate_user_input, ConfigFlow.with_client, bindM.
  fold (flow_world input w).
  destruct (Api.async_get_data h u (flow_world input w)) as [[[v|e] w'] ev];
    [|done].
  unfold retM. by rewrite app_nil_r.
Qed.

Lemma step_user_run input h u w :
  ConfigFlow.async_step_user (Some input) h u w =
    match Api.async_get_data h u (flow_world input w) with
    | (Ret _, w', ev) =>
        (Ret (ConfigFlow.CreateEntry (ConfigFlow.CONF_NAME input) input),
         {| hass_data := hass_data w'; api := api w; coordinator := coordinator w' |},
         ev)
    | (Raise e, w', ev) =>
        (Raise e,
         {| hass_data := hass_data w'; api := api w; coordinator := coordinator w' |},
         ev)
    end.
Proof.
  unfold ConfigFlow.async_step_user, bindM. rewrite validate_user_input_run.
  destruct (Api.async_get_data h u (flow_world input w)) as [[[v|e] w'] ev];
    [|done].
  unfold retM. by rewrite app_nil_r.
Qed.

Lemma world_eta w :
  {| hass_data := hass_data w; api := api w; coordinator := coordinator w |} = w.
Proof. by destruct w. Qed.

(** X23. The user step of the configuration flow, given input, never
    shows the form again and leaves the client of the entry and the
    coordinator alone.  It creates the entry when the request times out or
    fails in the transport, the client returning None then; the message
    about the key surfaces as InvalidApiKeyError.  The step raises exactly
    what the validating fetch raises, creates the entry exactly when that
    fetch returns, and has the events and the [hass.data] of that
    fetch. *)
Theorem config_flow_accepts_what_does_not_raise
    (input : ConfigFlow.user_input) (h : Api.http) (u : string) (w : World) :
  let o := ConfigFlow.async_step_user (Some input) h u w in
  let url := endpoint (flow_world input w) in
  (forall step errors, o.1.1 <> Ret (ConfigFlow.ShowForm step errors))
  /\ api o.1.2 = api w
  /\ coordinator o.1.2 = coordinator w
  /\ (h = Api.TimedOut \/ (exists gai, h = Api.TransportError gai) ->
      exists msg,
        o = (Ret (ConfigFlow.CreateEntry (ConfigFlow.CONF_NAME input) input), w,
             [HttpGet url; Log ERROR msg]))
  /\ (forall r, h = Api.Response r ->
        Str.contains "Vraag eerst een API-key op" (Api.text r) = true ->
        o = (Raise InvalidApiKeyError, w, [HttpGet url]))
  /\ (forall e, o.1.1 = Raise e <->
        (Api.async_get_data h u (flow_world input w)).1.1 = Raise e)
  /\ (o.1.1 = Ret (ConfigFlow.CreateEntry (ConfigFlow.CONF_NAME input) input)
      <-> exists v, (Api.async_get_data h u (flow_world input w)).1.1 = Ret v)
  /\ o.2 = (Api.async_get_data h u (flow_world input w)).2
  /\ hass_data o.1.2
     = hass_data (Api.async_get_data h u (flow_world input w)).1.2.
Proof.
  cbn zeta. rewrite step_user_run.
  pose proof (async_get_data_keeps_coordinator h u (flow_world input w)) as Hkeep.
  split; [|split; [|split; [|split; [|split; [|split; [|split]]]]]].
  - intros step errors.
    destruct (Api.async_get_data h u (flow_world input w)) as [[[v|e] w'] ev];
      simpl; congruence.
  - by destruct (Api.async_get_data h u (flow_world input w)) as [[[v|e] w'] ev].
  - destruct (Api.async_get_data h u (flow_world input w)) as [[[v|e] w'] ev];
      simpl in *; by rewrite Hkeep.
  - intros [->|[gai ->]].
    + rewrite async_get_data_timeout. cbn [hass_data coordinator flow_world].
      rewrite world_eta. eauto.
    + rewrite async_get_data_transport. cbn [hass_data coordinator flow_world].
      rewrite world_eta. eauto.
  - intros r -> Hkey.
    rewrite (api_key_message_run r u (flow_world input w) Hkey).
    cbn [hass_data coordinator flow_world]. by rewrite world_eta.
  - intros e.
    destruct (Api.async_get_data h u (flow_world input w)) as [[[v|e'] w'] ev];
      simpl; split; congruence.
  - destruct (Api.async_get_data h u (flow_world input w)) as [[[v|e'] w'] ev];
      simpl; split; [eauto|done|done|by intros [v ?]].
  - by destruct (Api.async_get_data h u (flow_world input w)) as [[[v|e'] w'] ev].
Qed.

(** X24. A quota response met by the configuration flow leaves a notice
    behind that no client has on record: the id stored by the client of the
    entry stays None, and the next quota response that client meets
    creates a second notice beside the first. *)
Theorem config_flow_leaves_its_quota_notice
    (input : ConfigFlow.user_input) (h : Api.http) (u1 u2 : string) (w : World) :
  registry_ok w ->
  notification_id (api w) = None ->
  quota_exceeded h ->
  let w1 := (ConfigFlow.async_step_user (Some input) h u1 w).1.2 in
  let w2 := (Api.async_get_data h u2 w1).1.2 in
  notification_id (api w1) = None
  /\ u1 ∈ active w1
  /\ u1 ∈ active w2 /\ u2 ∈ active w2
  /\ notification_id (api w2) = Some u2.
Proof.
  intros Hok Hid Hq. cbn zeta. rewrite step_user_run.
  assert (Hne : Api.notification_exists (flow_world input w) = false).
  { unfold Api.notification_exists. cbn [api flow_world notification_id].
    by destruct (default _ _). }
  destruct (quota_exceeded_run h u1 (flow_world input w) Hq) as (ev & _ & _ & ->).
  rewrite Hne. cbn [fst snd].
  set (w1 := {| hass_data := _; api := api w; coordinator := _ |}).
  assert (Hreg1 : registry w1 = <[u1 := Notify.notice quota_message quota_title u1]> (registry w)).
  { unfold w1, create_notice. cbn [hass_data coordinator].
    change (registry {| hass_data := ?hd; api := _; coordinator := _ |})
      with (match hd !! Notify.KEY with Some (VDict n) => n | _ => ∅ end).
    pose proof (registry_create quota_message quota_title u1 w Hok) as Hc.
    unfold registry in Hc at 1. cbn [hass_data set_hass_data] in Hc. exact Hc. }
  assert (Hok1 : registry_ok w1).
  { unfold registry_ok, w1, create_notice. cbn [hass_data set_hass_data set_notification_id flow_world].
    unfold Notify.create. unfold registry_ok in Hok.
    destruct (hass_data w !! Notify.KEY) as [[]|] eqn:Hk; try done;
      by rewrite lookup_insert_eq. }
  assert (Hin1 : u1 ∈ active w1).
  { apply elem_of_active. rewrite Hreg1, lookup_insert_eq. eauto. }
  assert (Hne1 : Api.notification_exists w1 = false).
  { unfold Api.notification_exists. cbn [api w1]. rewrite Hid.
    by destruct (default _ _). }
  split; [done|]. split; [done|].
  destruct (quota_exceeded_run h u2 w1 Hq) as (ev2 & _ & _ & ->).
  rewrite Hne1. cbn [fst snd].
  split; [|split; [by apply active_create_ok|done]].
  apply elem_of_active.
  unfold create_notice. rewrite registry_create by done.
  rewrite registry_set_notification_id, Hreg1.
  destruct (decide (u1 = u2)) as [->|Hne2].
  - rewrite lookup_insert_eq. eauto.
  - rewrite lookup_insert_ne by done. rewrite lookup_insert_eq. eauto.
Qed.

(** ** Instances of the further properties *)

(** The message about the key wins over the quota message behind it. *)
Lemma invalid_key_message_first_witness :
  Str.contains "Vraag eerst een API-key op" (Api.text sample_key_response) = true
  /\ Api.async_get_data (Api.Response sample_key_response) sample_uuid
       (sample_world VNone)
     = (Raise InvalidApiKeyError, sample_world VNone,
        [HttpGet (endpoint (sample_world VNone))]).
Proof.
  assert (H : Str.contains "Vraag eerst een API-key op"
                (Api.text sample_key_response) = true) by reflexivity.
  split; [exact H|].
  exact (invalid_key_message_first sample_key_response sample_uuid
           (sample_world VNone) H).
Defined.

(** A page that is no JSON. *)
Lemma plain_response_without_record_witness :
  plain sample_html_response
  /\ (forall v, ~ carries sample_html_response v)
  /\ exists e,
       (Api.async_get_data (Api.Response sample_html_response) sample_uuid
          (sample_world VNone)).1 = (Raise e, sample_world VNone)
       /\ (e = ApiError
           \/ exists d l, Api.json sample_html_response = Some (VDict d)
                /\ d !! "liveweer" = Some l /\ Py.item0 l = Raise e).
Proof.
  assert (Hp : plain sample_html_response) by (repeat split; reflexivity).
  assert (Hn : forall v, ~ carries sample_html_response v).
  { intros v (_ & Hct & _). discriminate Hct. }
  split; [exact Hp|]. split; [exact Hn|].
  exact (plain_response_without_record sample_html_response sample_uuid
           (sample_world VNone) Hp Hn).
Defined.

(** A payload whose "liveweer" list is empty. *)
Lemma empty_liveweer_list_raises_index_error_witness :
  plain sample_empty_response
  /\ Api.json sample_empty_response = Some (VDict {[ "liveweer" := VList [] ]})
  /\ Api.async_get_data (Api.Response sample_empty_response) sample_uuid
       (sample_world VNone)
     = (Raise IndexError, sample_world VNone,
        [HttpGet (endpoint (sample_world VNone))]).
Proof.
  assert (Hp : plain sample_empty_response) by (repeat split; reflexivity).
  split; [exact Hp|]. split; [reflexivity|].
  exact (empty_liveweer_list_raises_index_error sample_empty_response
           {[ "liveweer" := VList [] ]} sample_uuid (sample_world VNone)
           Hp eq_refl eq_refl eq_refl eq_refl).
Defined.

(** A request that times out changes nothing. *)
Lemma fetch_changes_only_the_notice_witness :
  Api.async_get_data Api.TimedOut sample_uuid (sample_world VNone)
  = (Ret VNone, sample_world VNone,
     [HttpGet (endpoint (sample_world VNone));
      Log ERROR "Timeout error fetching information from %s - %s"])
  /\ coordinator (sample_world VNone) = coordinator (sample_world VNone).
Proof.
  assert (H : Api.async_get_data Api.TimedOut sample_uuid (sample_world VNone)
    = (Ret VNone, sample_world VNone,
       [HttpGet (endpoint (sample_world VNone));
        Log ERROR "Timeout error fetching information from %s - %s"]))
    by reflexivity.
  split; [exact H|].
  exact (proj1 (proj2 (fetch_changes_only_the_notice _ _ _ _ _ _ H))).
Defined.


(** The sample record without the field "alarmtxt". *)
Lemma refresh_requires_every_field_witness :
  due (sample_world VNone)
    (now_gate (sample_env (Api.Response sample_short_response) sample_now))
  /\ carries sample_short_response
       (VDict (delete "alarmtxt" testdata_liveweer))
  /\ exists w' ev,
       _async_update_data
         (sample_env (Api.Response sample_short_response) sample_now)
         (sample_world VNone)
       = (Raise UpdateFailed, w', ev)
       /\ coordinator w' = coordinator (sample_world VNone).
Proof.
  assert (Hdue : due (sample_world VNone)
    (now_gate (sample_env (Api.Response sample_short_response) sample_now))).
  { left. reflexivity. }
  assert (Hc : carries sample_short_response
                 (VDict (delete "alarmtxt" testdata_liveweer))).
  { split; [repeat split; reflexivity|]. split; [reflexivity|].
    split; [reflexivity|].
    exists {[ "liveweer" := VList [VDict (delete "alarmtxt" testdata_liveweer)] ]},
      (VList [VDict (delete "alarmtxt" testdata_liveweer)]).
    split; [reflexivity|]. split; [reflexivity|]. split; [reflexivity|].
    vm_compute. reflexivity. }
  split; [exact Hdue|]. split; [exact Hc|].
  refine (proj2 (refresh_requires_every_field _ _ Hdue) sample_short_response
            (delete "alarmtxt" testdata_liveweer) eq_refl Hc _).
  exists "alarmtxt". left. split.
  - apply (bool_decide_unpack _). vm_compute. exact I.
  - vm_compute. reflexivity.
Defined.

(** An entry configured with 900 seconds. *)
Lemma configured_refresh_interval_witness :
  options sample_configured_entry !! "refresh_interval" = Some 900
  /\ refresh_interval
       (coordinator
          (Init.async_setup_entry ∅ sample_configured_entry "demo" "52.79" "4.8"
             (sample_env sample_record_response sample_now)).1.2) = 900.
Proof.
  assert (H : options sample_configured_entry !! "refresh_interval" = Some 900)
    by (vm_compute; reflexivity).
  split; [exact H|].
  exact (proj1 (configured_refresh_interval ∅ sample_configured_entry
                  "demo" "52.79" "4.8"
                  (sample_env sample_record_response sample_now) 900 H)).
Defined.

(** With the interval of 300 seconds the task scheduled by the fetch of
    the sample record wakes 286 seconds later, inside the window of 600
    seconds, and its refresh is a plain read. *)
Lemma scheduled_refresh_and_the_gate_witness :
  due sample_world_300 (now_gate (sample_env sample_record_response sample_now))
  /\ seconds 286
       ∈ tasks (_async_update_data (sample_env sample_record_response sample_now)
                  sample_world_300).2
  /\ refresh_interval (coordinator sample_world_300) + 60 < 600
  /\ (let w' := (_async_update_data (sample_env sample_record_response sample_now)
                   sample_world_300).1.2 in
      _async_update_data
        (sample_env sample_record_response (sample_now + seconds 287)) w'
      = (Ret (data (coordinator w')), w', [])).
Proof.
  assert (Hdue : due sample_world_300
    (now_gate (sample_env sample_record_response sample_now))).
  { left. reflexivity. }
  assert (Hrun : _async_update_data (sample_env sample_record_response sample_now)
                   sample_world_300
    = (Ret (VDict testdata_liveweer),
       (_async_update_data (sample_env sample_record_response sample_now)
          sample_world_300).1.2,
       (_async_update_data (sample_env sample_record_response sample_now)
          sample_world_300).2)).
  { vm_compute. reflexivity. }
  assert (Hin : seconds 286
    ∈ tasks (_async_update_data (sample_env sample_record_response sample_now)
               sample_world_300).2).
  { vm_compute. constructor. }
  assert (Hr : refresh_interval (coordinator sample_world_300) + 60 < 600).
  { vm_compute. reflexivity. }
  split; [exact Hdue|]. split; [exact Hin|].
  split; [exact Hr|].
  exact (proj1 (proj2 (scheduled_refresh_and_the_gate
    (sample_env sample_record_response sample_now)
    (sample_env sample_record_response (sample_now + seconds 287))
    sample_world_300 _ _ _ _ (seconds 286) Hdue Hrun Hin eq_refl eq_refl)) Hr).
Defined.

(** The range "12/15" under d1tmin is 13 as an integer. *)
Lemma range_midpoint_as_integer_witness :
  is_range_key "d1tmin" = true
  /\ Str.split "/" "12/15" = ["12"; "15"]
  /\ -1000 <= 12 + 15 <= 1000
  /\ convert (VDict {[ "d1tmin" := VStr "12/15" ]}) "d1tmin" Py.conv_int
     = Ret (VInt 13).
Proof.
  assert (Hb : -1000 <= 12 + 15 <= 1000) by lia.
  split; [reflexivity|]. split; [reflexivity|]. split; [exact Hb|].
  exact (range_midpoint_as_integer {[ "d1tmin" := VStr "12/15" ]} "d1tmin"
           "12/15" "12" "15" 12 15 eq_refl eq_refl eq_refl eq_refl eq_refl Hb).
Defined.

(** The same kind of range under d0tmin is not averaged. *)
Lemma range_under_other_key_is_not_averaged_witness :
  is_range_key "d0tmin" = false
  /\ Str.contains "/" "17/19" = true
  /\ get_value "d0tmin" Py.conv_int
       (sample_world (VDict {[ "d0tmin" := VStr "17/19" ]}))
     = (Ret VNone, sample_world (VDict {[ "d0tmin" := VStr "17/19" ]}),
        [conversion_warning]).
Proof.
  split; [reflexivity|]. split; [reflexivity|].
  exact (range_under_other_key_is_not_averaged "d0tmin" "17/19"
           {[ "d0tmin" := VStr "17/19" ]}
           (sample_world (VDict {[ "d0tmin" := VStr "17/19" ]}))
           eq_refl eq_refl eq_refl eq_refl).
Defined.

(** The sample record has no "forecast" entry: its daily forecast is
    empty. *)
Lemma daily_forecast_of_a_weather_record_witness :
  Api.status sample_record = 200
  /\ Api.content_type sample_record = Some "application/json"
  /\ Str.contains "Dagelijkse limiet" (Api.text sample_record) = false
  /\ Weather.async_forecast_daily (fun _ => None) (Api.Response sample_record)
       (sample_world VNone)
     = (Ret (Some []), sample_world VNone,
        [HttpGet (endpoint (sample_world VNone))]).
Proof.
  split; [reflexivity|]. split; [reflexivity|]. split; [reflexivity|].
  exact (proj2 (daily_forecast_of_a_weather_record (fun _ => None) sample_record
                  {[ "liveweer" := VList [VDict testdata_liveweer] ]}
                  (sample_world VNone) eq_refl eq_refl eq_refl eq_refl) eq_refl).
Defined.

(** The image "nachtbewolkt" of the sample record is the condition
    cloudy. *)
Lemma map_condition_outcomes_witness :
  data (coordinator (sample_world (VDict testdata_liveweer)))
    = VDict testdata_liveweer
  /\ is_range_key "image" = false
  /\ Weather.map_condition (fun _ => "") "image"
       (sample_world (VDict testdata_liveweer))
     = (Ret (Some Weather.ATTR_CONDITION_CLOUDY),
        sample_world (VDict testdata_liveweer), []).
Proof.
  split; [reflexivity|]. split; [reflexivity|].
  pose proof (proj1 (map_condition_outcomes (fun _ => "") "image"
    testdata_liveweer (sample_world (VDict testdata_liveweer))
    eq_refl eq_refl)) as H.
  vm_compute in H. vm_compute. exact H.
Defined.

(** The alarm of the sample record reads "1". *)
Lemma alarm_is_on_when_it_reads_as_one_witness :
  data (coordinator (sample_world (VDict testdata_liveweer)))
    = VDict testdata_liveweer
  /\ BinarySensor.is_alarm_on (sample_world (VDict testdata_liveweer))
     = (Ret true, sample_world (VDict testdata_liveweer), []).
Proof.
  split; [reflexivity|].
  pose proof (alarm_is_on_when_it_reads_as_one testdata_liveweer
    (sample_world (VDict testdata_liveweer)) eq_refl) as H.
  vm_compute in H. vm_compute. exact H.
Defined.

(** The alarm is on, and the timestamp is that of a clock in
    milliseconds. *)
Lemma alarm_attributes_need_an_integer_timestamp_witness :
  data (coordinator (sample_world
          (VDict {[ "alarm" := VStr "1"; "timestamp" := VStr "1689469384000" ]})))
    = VDict {[ "alarm" := VStr "1"; "timestamp" := VStr "1689469384000" ]}
  /\ BinarySensor.get_alarm_attributes (fun _ => "") (fun _ => "")
       (sample_world
          (VDict {[ "alarm" := VStr "1"; "timestamp" := VStr "1689469384000" ]}))
     = (Raise ValueError,
        sample_world
          (VDict {[ "alarm" := VStr "1"; "timestamp" := VStr "1689469384000" ]}),
        []).
Proof.
  split; [reflexivity|].
  assert (Hon : BinarySensor.is_alarm_on
    (sample_world
       (VDict {[ "alarm" := VStr "1"; "timestamp" := VStr "1689469384000" ]}))
    = (Ret true,
       sample_world
         (VDict {[ "alarm" := VStr "1"; "timestamp" := VStr "1689469384000" ]}),
       [])) by (vm_compute; reflexivity).
  pose proof (proj1 (proj2 (alarm_attributes_need_an_integer_timestamp
    (fun _ => "") (fun _ => "")
    {[ "alarm" := VStr "1"; "timestamp" := VStr "1689469384000" ]}
    (sample_world
       (VDict {[ "alarm" := VStr "1"; "timestamp" := VStr "1689469384000" ]}))
    eq_refl)) Hon) as H.
  vm_compute in H. vm_compute. exact H.
Defined.

(** The quota message met by the flow and then by the client of the
    entry. *)
Lemma config_flow_leaves_its_quota_notice_witness :
  registry_ok (sample_world VNone)
  /\ notification_id (api (sample_world VNone)) = None
  /\ quota_exceeded sample_quota_response
  /\ "u1" ∈ active
       (Api.async_get_data sample_quota_response "u2"
          (ConfigFlow.async_step_user (Some sample_input) sample_quota_response
             "u1" (sample_world VNone)).1.2).1.2
  /\ "u2" ∈ active
       (Api.async_get_data sample_quota_response "u2"
          (ConfigFlow.async_step_user (Some sample_input) sample_quota_response
             "u1" (sample_world VNone)).1.2).1.2.
Proof.
  assert (Hok : registry_ok (sample_world VNone)) by exact I.
  assert (Hid : notification_id (api (sample_world VNone)) = None) by reflexivity.
  assert (Hq : quota_exceeded sample_quota_response) by (split; reflexivity).
  split; [exact Hok|]. split; [exact Hid|]. split; [exact Hq|].
  pose proof (config_flow_leaves_its_quota_notice sample_input
    sample_quota_response "u1" "u2" (sample_world VNone) Hok Hid Hq)
    as (_ & _ & H1 & H2 & _).
  split; [exact H1|exact H2].
Defined.
